(** * SwitchPrimaryMonitor: a shallow embedding of [src/main.cpp]

    The program enumerates the displays attached to the desktop, picks the
    display after the current primary (in enumeration order), rebases the
    virtual desktop so that the new primary sits at (0,0), stages one
    [ChangeDisplaySettingsExW] call per display and finally applies them.

    The Win32 display API is the program's only collaborator.  It is modelled
    as an interface ([DisplayService]) over an abstract operating-system
    state; the program itself is written in a small state monad whose world
    carries that state together with the chronological trace of everything the
    program did to the outside (service writes, stdout and stderr lines). *)

From Stdlib Require Import ZArith List String Bool Lia Permutation.
Import ListNotations.
Local Open Scope Z_scope.

(** ** Machine integers

    [LONG] and [int] are 32-bit two's complement, [DWORD] is 32-bit unsigned.
    Values are kept in [Z] and every operation writes its wrap-around out,
    which is what the program's arithmetic does on its platform. *)

Module Int32.

Definition modulus : Z := 2 ^ 32.
Definition half_modulus : Z := 2 ^ 31.
Definition INT_MAX : Z := 2 ^ 31 - 1.
Definition INT_MIN : Z := - 2 ^ 31.

(** Reduction of an integer to the signed 32-bit range. *)
Definition wrap (z : Z) : Z :=
  (z + half_modulus) mod modulus - half_modulus.

(** Reduction of an integer to the unsigned 32-bit range. *)
Definition uwrap (z : Z) : Z := z mod modulus.

Definition add (a b : Z) : Z := wrap (a + b).
Definition sub (a b : Z) : Z := wrap (a - b).
Definition neg (a : Z) : Z := wrap (- a).

(** [static_cast<int>(i)] for an index [i] of type [size_t]. *)
Definition of_size (n : Z) : Z := wrap n.

(** [a % b] on [int]: C++ truncates towards zero. *)
Definition rem (a b : Z) : Z := Z.rem a b.

Definition in_range (z : Z) : Prop := INT_MIN <= z <= INT_MAX.

End Int32.

(** ** Win32 constants used by the program (from the Windows SDK headers) *)

Definition DISPLAY_DEVICE_ATTACHED_TO_DESKTOP : Z := 0x00000001.
Definition DISPLAY_DEVICE_PRIMARY_DEVICE : Z := 0x00000004.
Definition DISPLAY_DEVICE_MIRRORING_DRIVER : Z := 0x00000008.
Definition DM_POSITION : Z := 0x00000020.
Definition CDS_UPDATEREGISTRY : Z := 0x00000001.
Definition CDS_SET_PRIMARY : Z := 0x00000010.
Definition CDS_NORESET : Z := 0x10000000.
Definition DISP_CHANGE_SUCCESSFUL : Z := 0.

(** ** Data model *)

Record POINTL : Type := mkPOINTL { x : Z; y : Z }.

(** [DISPLAY_DEVICEW]: the members the program reads. *)
Record DISPLAY_DEVICEW : Type := mkDISPLAY_DEVICEW {
  DeviceName : string;
  DeviceString : string;
  StateFlags : Z
}.

(** [DEVMODEW]: the display members of the structure.  The program copies the
    structure as a whole and assigns only [dmFields] and [dmPosition]. *)
Record DEVMODEW : Type := mkDEVMODEW {
  dmDeviceName : string;
  dmSize : Z;
  dmFields : Z;
  dmPosition : POINTL;
  dmDisplayOrientation : Z;
  dmDisplayFixedOutput : Z;
  dmBitsPerPel : Z;
  dmPelsWidth : Z;
  dmPelsHeight : Z;
  dmDisplayFlags : Z;
  dmDisplayFrequency : Z
}.

(** [struct Display] *)
Record Display : Type := mkDisplay {
  dd : DISPLAY_DEVICEW;
  dm : DEVMODEW;
  isPrimary : bool
}.

(** [dm.dmFields |= f] *)
Definition set_dmFields (m : DEVMODEW) (f : Z) : DEVMODEW :=
  mkDEVMODEW (dmDeviceName m) (dmSize m) (Z.lor (dmFields m) f) (dmPosition m)
             (dmDisplayOrientation m) (dmDisplayFixedOutput m) (dmBitsPerPel m)
             (dmPelsWidth m) (dmPelsHeight m) (dmDisplayFlags m)
             (dmDisplayFrequency m).

(** [dm.dmPosition.x = px; dm.dmPosition.y = py] *)
Definition set_dmPosition (m : DEVMODEW) (px py : Z) : DEVMODEW :=
  mkDEVMODEW (dmDeviceName m) (dmSize m) (dmFields m) (mkPOINTL px py)
             (dmDisplayOrientation m) (dmDisplayFixedOutput m) (dmBitsPerPel m)
             (dmPelsWidth m) (dmPelsHeight m) (dmDisplayFlags m)
             (dmDisplayFrequency m).

(** ** Observable events

    Every call of [ChangeDisplaySettingsExW] is recorded with its arguments
    and the code the service answered; the lines written to [std::wcout] and
    [std::wcerr] are recorded by what they report. *)

Inductive Event : Type :=
| EvChange (device : option string) (mode : option DEVMODEW) (flags : Z) (res : Z)
| ErrLastError (context : string)
| ErrNoDisplays
| ErrNoPrimary
| ErrSetPrimaryFailed (device : string) (res : Z)
| ErrRepositionFailed (device : string) (res : Z)
| ErrApplyFailed (res : Z)
| OutOnlyOne
| OutSwitched (device : string).

(** ** The display service *)

Class DisplayService (OS : Type) : Type := {
  (** [EnumDisplayDevicesW(nullptr, i, &dd, 0)]: [None] is a FALSE return. *)
  EnumDisplayDevicesW : OS -> Z -> option DISPLAY_DEVICEW;
  (** [EnumDisplaySettingsExW(name, ENUM_CURRENT_SETTINGS, &dm, 0)] *)
  EnumDisplaySettingsExW : OS -> string -> option DEVMODEW;
  (** [ChangeDisplaySettingsExW(name, &dm, nullptr, flags, nullptr)] *)
  ChangeDisplaySettingsExW :
    OS -> option string -> option DEVMODEW -> Z -> Z * OS
}.

(** ** The program monad: state passing over the world

    A computation maps a world to a result and a new world.  [None] stands
    for a run without a defined result: the enumeration loop still running
    when the fuel ends, or an index outside the vector. *)

Record World (OS : Type) : Type := mkWorld {
  os : OS;
  trace : list Event
}.
Arguments mkWorld {OS} _ _.
Arguments os {OS} _.
Arguments trace {OS} _.

Definition Prog (OS A : Type) : Type := World OS -> option (A * World OS).

Definition ret {OS A : Type} (a : A) : Prog OS A := fun w => Some (a, w).

Definition bind {OS A B : Type} (m : Prog OS A) (k : A -> Prog OS B) : Prog OS B :=
  fun w => match m w with
           | None => None
           | Some (a, w') => k a w'
           end.

Definition undefined {OS A : Type} : Prog OS A := fun _ => None.

Declare Scope prog_scope.
Delimit Scope prog_scope with prog.
Notation "v <- m ;; k" := (bind m (fun v => k))
  (at level 61, m at next level, right associativity) : prog_scope.
Notation "m ;;; k" := (bind m (fun _ => k))
  (at level 61, right associativity) : prog_scope.

(** Write one line to the console streams. *)
Definition emit {OS : Type} (e : Event) : Prog OS unit :=
  fun w => Some (tt, mkWorld (os w) (trace w ++ [e])).

(** Call the service's write operation and log the call with its answer. *)
Definition change {OS : Type} `{DisplayService OS}
  (device : option string) (mode : option DEVMODEW) (flags : Z) : Prog OS Z :=
  fun w =>
    let (res, os') := ChangeDisplaySettingsExW (os w) device mode flags in
    Some (res, mkWorld os' (trace w ++ [EvChange device mode flags res])).

(** [v[i]] on a [std::vector]: defined only inside the vector. *)
Definition vec_at {OS A : Type} (v : list A) (i : Z) : Prog OS A :=
  fun w => if i <? 0 then None
           else match nth_error v (Z.to_nat i) with
                | None => None
                | Some a => Some (a, w)
                end.

Section Program.

Context {OS : Type} `{DisplayService OS}.

Local Open Scope prog_scope.

(** ** [EnumerateDisplays] (main.cpp, lines 33-60)

    The [for (DWORD i = 0;; ++i)] loop has no bound of its own: it ends when
    the service reports no device at index [i].  [fuel] bounds the number of
    iterations the model follows. *)

Fixpoint EnumerateDisplays_loop (fuel : nat) (i : Z) (out : list Display)
  : Prog OS (list Display) :=
  match fuel with
  | O => undefined
  | S fuel' =>
    fun w =>
    match EnumDisplayDevicesW (os w) i with
    | None => ret out w
    | Some dd0 =>
      let i' := Int32.uwrap (i + 1) in
      if Z.land (StateFlags dd0) DISPLAY_DEVICE_ATTACHED_TO_DESKTOP =? 0 then
        EnumerateDisplays_loop fuel' i' out w
      else if negb (Z.land (StateFlags dd0) DISPLAY_DEVICE_MIRRORING_DRIVER =? 0) then
        EnumerateDisplays_loop fuel' i' out w
      else
        match EnumDisplaySettingsExW (os w) (DeviceName dd0) with
        | None =>
          (emit (ErrLastError "EnumDisplaySettingsEx") ;;;
           EnumerateDisplays_loop fuel' i' out) w
        | Some dm0 =>
          let d := mkDisplay dd0 dm0
                     (negb (Z.land (StateFlags dd0) DISPLAY_DEVICE_PRIMARY_DEVICE =? 0)) in
          EnumerateDisplays_loop fuel' i' (out ++ [d]) w
        end
    end
  end.

(** Returns the value of [!out.empty()] together with [out]. *)
Definition EnumerateDisplays (fuel : nat) : Prog OS (bool * list Display) :=
  out <- EnumerateDisplays_loop fuel 0 [] ;;
  ret (match out with [] => false | _ :: _ => true end, out).

(** ** [SwitchPrimaryToNext] (main.cpp, lines 62-134) *)

(** Lines 70-73: the index of the first display flagged primary, -1 if none. *)
Fixpoint currentPrimary_from (ds : list Display) (i : Z) : Z :=
  match ds with
  | [] => -1
  | d :: rest =>
    if isPrimary d then Int32.of_size i else currentPrimary_from rest (i + 1)
  end.

Definition currentPrimary_of (displays : list Display) : Z :=
  currentPrimary_from displays 0.

(** Line 84. *)
Definition targetIndex_of (displays : list Display) : Z :=
  Int32.rem (Int32.add (currentPrimary_of displays) 1)
            (Int32.of_size (Z.of_nat (List.length displays))).

(** Lines 93-96 and 111-114: the settings staged for a display. *)
Definition rebased (d : Display) (offsetX offsetY : Z) : DEVMODEW :=
  set_dmPosition (set_dmFields (dm d) DM_POSITION)
    (Int32.add (x (dmPosition (dm d))) offsetX)
    (Int32.add (y (dmPosition (dm d))) offsetY).

Definition target_flags : Z :=
  Z.lor (Z.lor CDS_SET_PRIMARY CDS_UPDATEREGISTRY) CDS_NORESET.

Definition other_flags : Z := Z.lor CDS_UPDATEREGISTRY CDS_NORESET.

(** Lines 108-123: the loop over [displays[i]], from index [i] on.  The
    result is [Some code] when the loop leaves the function with [return]. *)
Fixpoint reposition_loop (ds : list Display) (i : Z)
  (targetIndex offsetX offsetY : Z) : Prog OS (option Z) :=
  match ds with
  | [] => ret None
  | d :: rest =>
    if Int32.of_size i =? targetIndex then
      reposition_loop rest (i + 1) targetIndex offsetX offsetY
    else
      res <- change (Some (DeviceName (dd d))) (Some (rebased d offsetX offsetY))
                    other_flags ;;
      if negb (res =? DISP_CHANGE_SUCCESSFUL) then
        emit (ErrRepositionFailed (DeviceName (dd d)) res) ;;; ret (Some 4)
      else
        reposition_loop rest (i + 1) targetIndex offsetX offsetY
  end.

(** Lines 69-133: the function after the enumeration. *)
Definition switch_displays (displays : list Display) : Prog OS Z :=
  let currentPrimary := currentPrimary_of displays in
  if currentPrimary <? 0 then
    emit ErrNoPrimary ;;; ret 2
  else if Z.of_nat (List.length displays) =? 1 then
    emit OutOnlyOne ;;; ret 0
  else
    let targetIndex := targetIndex_of displays in
    target <- vec_at displays targetIndex ;;
    let offsetX := Int32.neg (x (dmPosition (dm target))) in
    let offsetY := Int32.neg (y (dmPosition (dm target))) in
    res <- change (Some (DeviceName (dd target)))
                  (Some (rebased target offsetX offsetY)) target_flags ;;
    if negb (res =? DISP_CHANGE_SUCCESSFUL) then
      emit (ErrSetPrimaryFailed (DeviceName (dd target)) res) ;;; ret 3
    else
      r <- reposition_loop displays 0 targetIndex offsetX offsetY ;;
      match r with
      | Some code => ret code
      | None =>
        applyRes <- change None None 0 ;;
        if negb (applyRes =? DISP_CHANGE_SUCCESSFUL) then
          emit (ErrApplyFailed applyRes) ;;; ret 5
        else
          emit (OutSwitched (DeviceName (dd target))) ;;; ret 0
      end.

Definition SwitchPrimaryToNext (fuel : nat) : Prog OS Z :=
  r <- EnumerateDisplays fuel ;;
  let (found, displays) := r in
  if negb found then
    emit ErrNoDisplays ;;; ret 1
  else
    switch_displays displays.

End Program.

(** ** Vocabulary for stating properties of runs *)

(** The display the run selects, and the offset it derives from it. *)
Definition selects (displays : list Display) (target : Display) : Prop :=
  0 <= currentPrimary_of displays /\
  List.length displays <> 1%nat /\
  0 <= targetIndex_of displays /\
  nth_error displays (Z.to_nat (targetIndex_of displays)) = Some target.

Definition offsetX (target : Display) : Z := Int32.neg (x (dmPosition (dm target))).
Definition offsetY (target : Display) : Z := Int32.neg (y (dmPosition (dm target))).

(** The three kinds of service call, with the answer [res] of the service. *)
Definition write_target (target : Display) (res : Z) : Event :=
  EvChange (Some (DeviceName (dd target)))
           (Some (rebased target (offsetX target) (offsetY target)))
           target_flags res.

Definition write_other (target d : Display) (res : Z) : Event :=
  EvChange (Some (DeviceName (dd d)))
           (Some (rebased d (offsetX target) (offsetY target)))
           other_flags res.

Definition apply_call (res : Z) : Event := EvChange None None 0 res.

(** Accepted writes for a sequence of displays, in that order. *)
Definition staged_ok (target : Display) (ds : list Display) : list Event :=
  map (fun d => write_other target d DISP_CHANGE_SUCCESSFUL) ds.

(** The displays the loop of lines 108-123 writes when it starts at index
    [i] of the remaining vector [ds]. *)
Fixpoint skip_target (ds : list Display) (i targetIndex : Z) : list Display :=
  match ds with
  | [] => []
  | d :: rest =>
    if Int32.of_size i =? targetIndex then skip_target rest (i + 1) targetIndex
    else d :: skip_target rest (i + 1) targetIndex
  end.

(** Enumeration order with the element at index [t] left out. *)
Definition remove_nth {A : Type} (t : nat) (l : list A) : list A :=
  firstn t l ++ skipn (S t) l.

(** The index of the first display flagged primary. *)
Fixpoint first_primary (ds : list Display) : option nat :=
  match ds with
  | [] => None
  | d :: rest =>
    if isPrimary d then Some O else option_map S (first_primary rest)
  end.

(** Exactly one display is flagged primary, the one at index [p]. *)
Definition primary_only_at (p : nat) (displays : list Display) : Prop :=
  forall i d, nth_error displays i = Some d -> (isPrimary d = true <-> i = p).

(** The same topology with every primary flag after the first one cleared. *)
Definition clear_primary (d : Display) : Display := mkDisplay (dd d) (dm d) false.

Fixpoint keep_first_primary (ds : list Display) : list Display :=
  match ds with
  | [] => []
  | d :: rest =>
    if isPrimary d then d :: map clear_primary rest
    else d :: keep_first_primary rest
  end.

(** The position staged for display [d] when [target] becomes primary. *)
Definition new_position (target d : Display) : POINTL :=
  dmPosition (rebased d (offsetX target) (offsetY target)).

(** The rebasing of [d] stays inside the range of [LONG]. *)
Definition no_overflow (target d : Display) : Prop :=
  Int32.INT_MIN < x (dmPosition (dm target)) <= Int32.INT_MAX /\
  Int32.INT_MIN < y (dmPosition (dm target)) <= Int32.INT_MAX /\
  Int32.in_range (x (dmPosition (dm d)) - x (dmPosition (dm target))) /\
  Int32.in_range (y (dmPosition (dm d)) - y (dmPosition (dm target))).

(** Two snapshot entries for the same device with the same settings. *)
Definition same_device (a b : Display) : Prop := dd a = dd b /\ dm a = dm b.

(** What a run of [SwitchPrimaryToNext] on the snapshot [displays] returns
    and does after the enumeration: one constructor per [return]. *)
Inductive Run (displays : list Display) : Z -> list Event -> Prop :=
| Run_no_displays :
    displays = [] ->
    Run displays 1 [ErrNoDisplays]
| Run_no_primary :
    displays <> [] ->
    currentPrimary_of displays < 0 ->
    Run displays 2 [ErrNoPrimary]
| Run_single :
    0 <= currentPrimary_of displays ->
    List.length displays = 1%nat ->
    Run displays 0 [OutOnlyOne]
| Run_target_failed target res :
    selects displays target ->
    res <> DISP_CHANGE_SUCCESSFUL ->
    Run displays 3
      [write_target target res;
       ErrSetPrimaryFailed (DeviceName (dd target)) res]
| Run_other_failed target pre d post res :
    selects displays target ->
    skip_target displays 0 (targetIndex_of displays) = pre ++ d :: post ->
    res <> DISP_CHANGE_SUCCESSFUL ->
    Run displays 4
      (write_target target DISP_CHANGE_SUCCESSFUL
       :: staged_ok target pre
       ++ [write_other target d res;
           ErrRepositionFailed (DeviceName (dd d)) res])
| Run_apply_failed target res :
    selects displays target ->
    res <> DISP_CHANGE_SUCCESSFUL ->
    Run displays 5
      (write_target target DISP_CHANGE_SUCCESSFUL
       :: staged_ok target (skip_target displays 0 (targetIndex_of displays))
       ++ [apply_call res; ErrApplyFailed res])
| Run_success target :
    selects displays target ->
    Run displays 0
      (write_target target DISP_CHANGE_SUCCESSFUL
       :: staged_ok target (skip_target displays 0 (targetIndex_of displays))
       ++ [apply_call DISP_CHANGE_SUCCESSFUL;
           OutSwitched (DeviceName (dd target))]).

(** The service calls among the events of a run. *)
Definition is_change (e : Event) : bool :=
  match e with EvChange _ _ _ _ => true | _ => false end.

Definition change_calls (evs : list Event) : list Event := filter is_change evs.

(** A write addresses a device; the final apply addresses none. *)
Definition is_write (e : Event) : bool :=
  match e with EvChange (Some _) _ _ _ => true | _ => false end.

Definition is_apply (e : Event) : bool :=
  match e with EvChange None _ _ _ => true | _ => false end.

(** What a run added to the trace after the world [w1] of its snapshot. *)
Definition events_since {OS : Type} (w1 w' : World OS) : list Event :=
  skipn (List.length (trace w1)) (trace w').

(** [!out.empty()] *)
Definition not_empty {A : Type} (l : list A) : bool :=
  match l with [] => false | _ :: _ => true end.

(** The settings of a device can be read. *)
Definition readable {OS : Type} `{DisplayService OS} (o : OS)
  (d : DISPLAY_DEVICEW) : bool :=
  match EnumDisplaySettingsExW o (DeviceName d) with
  | Some _ => true
  | None => false
  end.

(** ** Outcomes and their ordinal codes (specification, section 4.3) *)

Inductive Outcome : Type :=
| Success
| NoDisplays
| IndeterminatePrimary
| TargetWriteFailed
| OtherWriteFailed
| ApplyFailed.

Definition exit_status (o : Outcome) : Z :=
  match o with
  | Success => 0
  | NoDisplays => 1
  | IndeterminatePrimary => 2
  | TargetWriteFailed => 3
  | OtherWriteFailed => 4
  | ApplyFailed => 5
  end.

(** The first service call of a trace that the service refused. *)
Fixpoint first_refused (evs : list Event) : option (option string * Z) :=
  match evs with
  | [] => None
  | EvChange device _ flags res :: rest =>
    if res =? DISP_CHANGE_SUCCESSFUL then first_refused rest
    else Some (device, flags)
  | _ :: rest => first_refused rest
  end.

(** The outcome of a run, read off from what happened: the snapshot and the
    answers of the service, not the status the program returned. *)
Definition classify (displays : list Display) (evs : list Event) : Outcome :=
  match displays with
  | [] => NoDisplays
  | _ :: _ =>
    if existsb isPrimary displays then
      match first_refused evs with
      | None => Success
      | Some (None, _) => ApplyFailed
      | Some (Some _, flags) =>
        if Z.land flags CDS_SET_PRIMARY =? 0 then OtherWriteFailed
        else TargetWriteFailed
      end
    else IndeterminatePrimary
  end.

(** The rotation of the specification (section 4.2): [p] is the first
    monitor flagged primary, and [target], its circular successor in a
    snapshot of more than one monitor, is the monitor to become primary. *)
Definition rotation (displays : list Display) (p : nat) (target : Display) : Prop :=
  first_primary displays = Some p /\
  List.length displays <> 1%nat /\
  nth_error displays ((p + 1) mod List.length displays) = Some target.

(** The monitors other than the successor of [p], in enumeration order. *)
Definition others_of (displays : list Display) (p : nat) : list Display :=
  remove_nth ((p + 1) mod List.length displays) displays.

(** What happened in a run, stated on the snapshot and on the service calls
    the run made, with the answers of the service (specification, sections
    4.3 and 7).  A success on more than one monitor is the whole
    transaction: the write that makes the target primary at the origin, the
    write of every other monitor, and the apply, all accepted. *)
Inductive Happened (displays : list Display) (calls : list Event)
  : Outcome -> Prop :=
| Happened_no_displays :
    displays = [] ->
    calls = [] ->
    Happened displays calls NoDisplays
| Happened_no_primary :
    displays <> [] ->
    existsb isPrimary displays = false ->
    calls = [] ->
    Happened displays calls IndeterminatePrimary
| Happened_nothing_to_switch :
    List.length displays = 1%nat ->
    existsb isPrimary displays = true ->
    calls = [] ->
    Happened displays calls Success
| Happened_switched p target :
    rotation displays p target ->
    calls = write_target target DISP_CHANGE_SUCCESSFUL
            :: staged_ok target (others_of displays p)
            ++ [apply_call DISP_CHANGE_SUCCESSFUL] ->
    Happened displays calls Success
| Happened_target_refused p target res :
    rotation displays p target ->
    res <> DISP_CHANGE_SUCCESSFUL ->
    calls = [write_target target res] ->
    Happened displays calls TargetWriteFailed
| Happened_other_refused p target pre d post res :
    rotation displays p target ->
    others_of displays p = pre ++ d :: post ->
    res <> DISP_CHANGE_SUCCESSFUL ->
    calls = write_target target DISP_CHANGE_SUCCESSFUL
            :: staged_ok target pre
            ++ [write_other target d res] ->
    Happened displays calls OtherWriteFailed
| Happened_apply_refused p target res :
    rotation displays p target ->
    res <> DISP_CHANGE_SUCCESSFUL ->
    calls = write_target target DISP_CHANGE_SUCCESSFUL
            :: staged_ok target (others_of displays p)
            ++ [apply_call res] ->
    Happened displays calls ApplyFailed.

(** ** The Topology Reader as the specification words it (section 4.1) *)

Definition is_attached (d : DISPLAY_DEVICEW) : bool :=
  negb (Z.land (StateFlags d) DISPLAY_DEVICE_ATTACHED_TO_DESKTOP =? 0).

Definition is_mirroring (d : DISPLAY_DEVICEW) : bool :=
  negb (Z.land (StateFlags d) DISPLAY_DEVICE_MIRRORING_DRIVER =? 0).

Definition is_primary_device (d : DISPLAY_DEVICEW) : bool :=
  negb (Z.land (StateFlags d) DISPLAY_DEVICE_PRIMARY_DEVICE =? 0).

(** Candidates: attached to the desktop and not a mirroring driver. *)
Definition candidates (devs : list DISPLAY_DEVICEW) : list DISPLAY_DEVICEW :=
  filter (fun d => is_attached d && negb (is_mirroring d)) devs.

Section Reader.

Context {OS : Type} `{DisplayService OS}.

(** One monitor per candidate whose settings can be read, in order. *)
Definition read_topology (o : OS) (devs : list DISPLAY_DEVICEW) : list Display :=
  flat_map
    (fun d => match EnumDisplaySettingsExW o (DeviceName d) with
              | Some m => [mkDisplay d m (is_primary_device d)]
              | None => []
              end)
    (candidates devs).

(** One diagnostic per candidate whose settings cannot be read, in order. *)
Definition read_diagnostics (o : OS) (devs : list DISPLAY_DEVICEW) : list Event :=
  flat_map
    (fun d => match EnumDisplaySettingsExW o (DeviceName d) with
              | Some _ => []
              | None => [ErrLastError "EnumDisplaySettingsEx"]
              end)
    (candidates devs).

(** The service enumerates exactly [devs]: device [i] at index [i], and no
    device at the index after the last. *)
Definition enumerates (o : OS) (devs : list DISPLAY_DEVICEW) : Prop :=
  (forall i d, nth_error devs i = Some d ->
               EnumDisplayDevicesW o (Z.of_nat i) = Some d) /\
  EnumDisplayDevicesW o (Z.of_nat (List.length devs)) = None /\
  Z.of_nat (List.length devs) < Int32.modulus.

End Reader.

(** ** Frame conditions on the staged settings *)

(** [m] is [snapshot] with the position replaced and nothing else. *)
Definition position_only (snapshot m : DEVMODEW) : Prop :=
  m = set_dmPosition snapshot (x (dmPosition m)) (y (dmPosition m)).

(** [m] agrees with [snapshot] on every member but the position and the
    mask of valid members. *)
Definition same_settings (snapshot m : DEVMODEW) : Prop :=
  dmDeviceName m = dmDeviceName snapshot /\
  dmSize m = dmSize snapshot /\
  dmDisplayOrientation m = dmDisplayOrientation snapshot /\
  dmDisplayFixedOutput m = dmDisplayFixedOutput snapshot /\
  dmBitsPerPel m = dmBitsPerPel snapshot /\
  dmPelsWidth m = dmPelsWidth snapshot /\
  dmPelsHeight m = dmPelsHeight snapshot /\
  dmDisplayFlags m = dmDisplayFlags snapshot /\
  dmDisplayFrequency m = dmDisplayFrequency snapshot.

(** Every write of a run stages the snapshot settings of its display with
    only the position changed. *)
Definition writes_change_position_only
  (displays : list Display) (evs : list Event) : Prop :=
  forall name m flags res,
    In (EvChange (Some name) (Some m) flags res) evs ->
    exists d, In d displays /\ DeviceName (dd d) = name /\
              position_only (dm d) m.

(** ** An in-memory display service

    A substitute for the operating system, used to run the program on
    concrete topologies.  Writes for the devices named in [rejects] fail with
    [DISP_CHANGE_FAILED]; the final apply answers [apply_code]; accepted
    writes are staged in call order. *)

Module Mock.

Record OS : Type := mkOS {
  devices : list (DISPLAY_DEVICEW * option DEVMODEW);
  rejects : list string;
  apply_code : Z;
  staged : list (string * POINTL * bool)
}.

Definition DISP_CHANGE_FAILED : Z := -1.

Fixpoint settings_of (l : list (DISPLAY_DEVICEW * option DEVMODEW)) (name : string)
  : option DEVMODEW :=
  match l with
  | [] => None
  | (d, s) :: rest =>
    if String.eqb (DeviceName d) name then s else settings_of rest name
  end.

Definition enum_device (o : OS) (i : Z) : option DISPLAY_DEVICEW :=
  if i <? 0 then None
  else option_map fst (nth_error (devices o) (Z.to_nat i)).

Definition change_settings (o : OS) (device : option string)
  (mode : option DEVMODEW) (flags : Z) : Z * OS :=
  match device, mode with
  | Some name, Some m =>
    if existsb (String.eqb name) (rejects o) then (DISP_CHANGE_FAILED, o)
    else (DISP_CHANGE_SUCCESSFUL,
          mkOS (devices o) (rejects o) (apply_code o)
               (staged o ++ [(name, dmPosition m,
                              negb (Z.land flags CDS_SET_PRIMARY =? 0))]))
  | _, _ => (apply_code o, o)
  end.

#[global] Instance service : DisplayService OS := {
  EnumDisplayDevicesW := enum_device;
  EnumDisplaySettingsExW := fun o name => settings_of (devices o) name;
  ChangeDisplaySettingsExW := change_settings
}.

(** A 1920x1080 display mode at position ([px], [py]) with mask [fields]. *)
Definition mode_at (fields px py : Z) : DEVMODEW :=
  mkDEVMODEW "" 220 fields (mkPOINTL px py) 0 0 32 1920 1080 0 60.

Definition attached (name : string) (primary : bool) (fields px py : Z)
  : DISPLAY_DEVICEW * option DEVMODEW :=
  (mkDISPLAY_DEVICEW name "Monitor"
     (if primary
      then Z.lor DISPLAY_DEVICE_ATTACHED_TO_DESKTOP DISPLAY_DEVICE_PRIMARY_DEVICE
      else DISPLAY_DEVICE_ATTACHED_TO_DESKTOP),
   Some (mode_at fields px py)).

Definition boot (devs : list (DISPLAY_DEVICEW * option DEVMODEW))
  (rej : list string) (code : Z) : World OS :=
  mkWorld (mkOS devs rej code []) [].

(** The layout of the specification's example: A primary at the origin, B to
    its right, C to its left. *)
Definition three : list (DISPLAY_DEVICEW * option DEVMODEW) :=
  [ attached "A" true 0x20 0 0;
    attached "B" false 0x20 1920 0;
    attached "C" false 0x20 (-1920) 0 ].

(** A device that is present but not part of the desktop. *)
Definition detached (name : string) : DISPLAY_DEVICEW * option DEVMODEW :=
  (mkDISPLAY_DEVICEW name "Monitor" 0, Some (mode_at 0x20 0 0)).

(** A mirroring driver attached to the desktop. *)
Definition mirror (name : string) : DISPLAY_DEVICEW * option DEVMODEW :=
  (mkDISPLAY_DEVICEW name "Mirror"
     (Z.lor DISPLAY_DEVICE_ATTACHED_TO_DESKTOP DISPLAY_DEVICE_MIRRORING_DRIVER),
   Some (mode_at 0x20 0 0)).

(** An attached display whose current settings cannot be read. *)
Definition unreadable (name : string) : DISPLAY_DEVICEW * option DEVMODEW :=
  (mkDISPLAY_DEVICEW name "Monitor" DISPLAY_DEVICE_ATTACHED_TO_DESKTOP, None).

Definition three_ok : World OS := boot three [] 0.
Definition three_reject_B : World OS := boot three ["B"%string] 0.
Definition three_reject_C : World OS := boot three ["C"%string] 0.
Definition three_apply_fails : World OS := boot three [] (-1).

(** Two displays, the second one primary: the successor wraps to index 0. *)
Definition two_second_primary : World OS :=
  boot [attached "A" false 0x20 (-1920) 0; attached "B" true 0x20 0 0] [] 0.

(** The target sits at the most negative coordinates of [LONG]. *)
Definition two_far_corner : World OS :=
  boot [attached "A" true 0x20 0 0;
        attached "B" false 0x20 (-2147483648) (-2147483648)] [] 0.

Definition lone_primary : World OS := boot [attached "A" true 0x20 0 0] [] 0.
Definition lone_secondary : World OS := boot [attached "A" false 0x20 0 0] [] 0.
Definition nothing_attached : World OS := boot [detached "A"] [] 0.

(** Two displays flagged primary at once. *)
Definition two_primaries : World OS :=
  boot [attached "A" false 0x20 (-1920) 0;
        attached "B" true 0x20 0 0;
        attached "C" true 0x20 1920 0] [] 0.

(** A mixed enumeration: only "A" and "E" reach the snapshot. *)
Definition mixed : World OS :=
  boot [attached "A" true 0x20 0 0; detached "B"; mirror "C"; unreadable "D";
        attached "E" false 0x20 1920 0] [] 0.

(** Settings whose mask of valid members does not include the position. *)
Definition two_unmasked : World OS :=
  boot [attached "A" true 0 0 0; attached "B" false 0 1920 0] [] 0.

(** Exit status and staged writes of a run, [None] if it has no result. *)
Definition outcome (r : option (Z * World OS))
  : option (Z * list (string * POINTL * bool)) :=
  match r with
  | None => None
  | Some (code, w) => Some (code, staged (os w))
  end.

(** The pieces of a run on a concrete world: the snapshot the reader
    takes, the world after the snapshot, the world the run ends in, and the
    monitor at an index of the snapshot. *)
Definition snapshot (fuel : nat) (w : World OS) : list Display :=
  match EnumerateDisplays fuel w with
  | Some ((_, ds), _) => ds
  | None => []
  end.

Definition after_snapshot (fuel : nat) (w : World OS) : World OS :=
  match EnumerateDisplays fuel w with
  | Some (_, w1) => w1
  | None => w
  end.

Definition final (fuel : nat) (w : World OS) : World OS :=
  match SwitchPrimaryToNext fuel w with
  | Some (_, w') => w'
  | None => w
  end.

Definition monitor (fuel : nat) (w : World OS) (i : nat) : Display :=
  nth i (snapshot fuel w)
      (mkDisplay (mkDISPLAY_DEVICEW "" "" 0) (mode_at 0 0 0) false).

Definition enumerated (w : World OS) : list DISPLAY_DEVICEW :=
  map fst (devices (os w)).

End Mock.

(** ** Process entry (main.cpp, lines 136-149) *)

Inductive Stream : Type := Stdout | Stderr.

(** [AttachParentConsoleIfPresent]: [parent] is the answer of
    [AttachConsole(ATTACH_PARENT_PROCESS)]; the result lists the standard
    streams the function reopens on the console of the parent. *)
Definition AttachParentConsoleIfPresent (parent : bool) : list Stream :=
  if parent then [Stdout; Stderr] else [].

Section Process.

Context {OS : Type} `{DisplayService OS}.

Local Open Scope prog_scope.

(** [wWinMain]: the process exit status is what [SwitchPrimaryToNext]
    returns. *)
Definition wWinMain (parent : bool) (fuel : nat) : Prog OS (list Stream * Z) :=
  let console := AttachParentConsoleIfPresent parent in
  status <- SwitchPrimaryToNext fuel ;;
  ret (console, status).

(** A service that accepts every write and every apply. *)
Definition accepts_all : Prop :=
  forall (o : OS) device mode flags,
    fst (ChangeDisplaySettingsExW o device mode flags) = DISP_CHANGE_SUCCESSFUL.

(** A service that reports a device at every index a [DWORD] can hold. *)
Definition never_ends (o : OS) : Prop :=
  forall i, 0 <= i < Int32.modulus -> EnumDisplayDevicesW o i <> None.

End Process.

(** ** Console lines and written devices of a trace *)

(** Lines written to [std::wcout]. *)
Definition is_stdout (e : Event) : bool :=
  match e with
  | OutOnlyOne | OutSwitched _ => true
  | _ => false
  end.

(** Lines written to [std::wcerr]. *)
Definition is_stderr (e : Event) : bool :=
  match e with
  | ErrLastError _ | ErrNoDisplays | ErrNoPrimary
  | ErrSetPrimaryFailed _ _ | ErrRepositionFailed _ _ | ErrApplyFailed _ => true
  | _ => false
  end.

(** The devices addressed by the writes of a trace, in call order. *)
Definition written_names (evs : list Event) : list string :=
  flat_map (fun e => match e with
                     | EvChange (Some name) _ _ _ => [name]
                     | _ => []
                     end) evs.

(** Service calls that carry the set-primary flag. *)
Definition sets_primary (e : Event) : bool :=
  match e with
  | EvChange _ _ flags _ => negb (Z.land flags CDS_SET_PRIMARY =? 0)
  | _ => false
  end.

(** The mask of valid members read for [d] already has the position bit. *)
Definition position_masked (d : Display) : Prop :=
  Z.land (dmFields (dm d)) DM_POSITION = DM_POSITION.

(** ** Two more substitute services *)

(** Accepts every call; enumerates a fixed list of devices. *)
Module Compliant.

Record OS : Type := mkOS { base : Mock.OS }.

#[global] Instance service : DisplayService OS := {
  EnumDisplayDevicesW := fun o i => Mock.enum_device (base o) i;
  EnumDisplaySettingsExW :=
    fun o name => Mock.settings_of (Mock.devices (base o)) name;
  ChangeDisplaySettingsExW := fun o _ _ _ => (DISP_CHANGE_SUCCESSFUL, o)
}.

Definition boot (w : World Mock.OS) : World OS := mkWorld (mkOS (os w)) [].

End Compliant.

(** Reports the same attached display at every index. *)
Module Endless.

Definition OS : Type := unit.

#[global] Instance service : DisplayService OS := {
  EnumDisplayDevicesW := fun _ _ => Some (fst (Mock.attached "LOOP" false 0x20 0 0));
  EnumDisplaySettingsExW := fun _ _ => Some (Mock.mode_at 0x20 0 0);
  ChangeDisplaySettingsExW := fun o _ _ _ => (DISP_CHANGE_SUCCESSFUL, o)
}.

Definition boot : World OS := mkWorld tt [].

End Endless.

(** * Properties *)

(** ** Facts about 32-bit arithmetic *)

Module Int32Facts.
Import Int32.

Lemma modulus_pos : 0 < modulus.
Proof. reflexivity. Qed.

Lemma wrap_range (z : Z) : INT_MIN <= wrap z <= INT_MAX.
Proof.
  unfold wrap, INT_MIN, INT_MAX.
  pose proof (Z.mod_pos_bound (z + half_modulus) modulus modulus_pos) as Hb.
  change modulus with (2 ^ 32) in *. change half_modulus with (2 ^ 31) in *.
  lia.
Qed.

Lemma wrap_small (z : Z) : INT_MIN <= z <= INT_MAX -> wrap z = z.
Proof.
  unfold wrap, INT_MIN, INT_MAX. intros Hz.
  rewrite Z.mod_small.
  - lia.
  - change modulus with (2 ^ 32). change half_modulus with (2 ^ 31). lia.
Qed.

(** [wrap] picks a representative of the class modulo 2^32. *)
Lemma wrap_mod (z : Z) : wrap z mod modulus = z mod modulus.
Proof.
  unfold wrap.
  rewrite Zminus_mod_idemp_l.
  f_equal. lia.
Qed.

Lemma wrap_congr (a b : Z) : a mod modulus = b mod modulus -> wrap a = wrap b.
Proof.
  intros Hab. unfold wrap.
  rewrite <- (Zplus_mod_idemp_l a), <- (Zplus_mod_idemp_l b), Hab.
  reflexivity.
Qed.

Lemma wrap_wrap (z : Z) : wrap (wrap z) = wrap z.
Proof. apply wrap_congr, wrap_mod. Qed.

(** Adding the negation gives zero whatever the operand, [INT_MIN] included. *)
Lemma add_neg_cancel (a : Z) : add a (neg a) = 0.
Proof.
  unfold add, neg.
  replace 0 with (wrap 0) by reflexivity.
  apply wrap_congr.
  rewrite <- Zplus_mod_idemp_r, wrap_mod, Zplus_mod_idemp_r.
  f_equal. lia.
Qed.

(** Translating both operands by one offset keeps their 32-bit difference. *)
Lemma sub_add_add (a b o : Z) : sub (add a o) (add b o) = sub a b.
Proof.
  unfold sub, add.
  apply wrap_congr.
  rewrite Zminus_mod, !wrap_mod, <- Zminus_mod.
  f_equal. lia.
Qed.

Lemma add_small (a b : Z) : INT_MIN <= a + b <= INT_MAX -> add a b = a + b.
Proof. apply wrap_small. Qed.

Lemma neg_small (a : Z) : INT_MIN < a <= INT_MAX -> neg a = - a.
Proof.
  intros Ha. apply wrap_small. unfold INT_MIN, INT_MAX in *. lia.
Qed.

Lemma of_size_small (n : Z) : 0 <= n <= INT_MAX -> of_size n = n.
Proof.
  intros Hn. apply wrap_small. unfold INT_MIN, INT_MAX in *. lia.
Qed.

Lemma uwrap_small (n : Z) : 0 <= n < modulus -> uwrap n = n.
Proof. intros Hn. apply Z.mod_small, Hn. Qed.

Lemma rem_nonneg (a b : Z) : 0 <= a -> 0 < b -> rem a b = a mod b.
Proof. intros Ha Hb. unfold rem. apply Z.rem_mod_nonneg; lia. Qed.

End Int32Facts.

(** ** The rotation selector *)

Section Selector.
Import Int32 Int32Facts.

Lemma first_primary_lt (ds : list Display) (k : nat) :
  first_primary ds = Some k -> (k < List.length ds)%nat.
Proof.
  revert k. induction ds as [|d rest IH]; simpl; intros k Hk; [discriminate|].
  destruct (isPrimary d).
  - injection Hk as <-. lia.
  - destruct (first_primary rest) as [j|]; [|discriminate].
    injection Hk as <-. specialize (IH j eq_refl). lia.
Qed.

Lemma first_primary_nth (ds : list Display) (k : nat) :
  first_primary ds = Some k ->
  exists d, nth_error ds k = Some d /\ isPrimary d = true.
Proof.
  revert k. induction ds as [|d rest IH]; simpl; intros k Hk; [discriminate|].
  destruct (isPrimary d) eqn:Hd.
  - injection Hk as <-. exists d. split; [reflexivity|exact Hd].
  - destruct (first_primary rest) as [j|]; [|discriminate].
    injection Hk as <-. exact (IH j eq_refl).
Qed.

Lemma first_primary_least (ds : list Display) (k j : nat) (d : Display) :
  first_primary ds = Some k -> (j < k)%nat ->
  nth_error ds j = Some d -> isPrimary d = false.
Proof.
  revert k j. induction ds as [|d0 rest IH]; simpl; intros k j Hk Hj Hn;
    [discriminate|].
  destruct (isPrimary d0) eqn:Hd0.
  - injection Hk as <-. lia.
  - destruct (first_primary rest) as [i|]; [|discriminate].
    injection Hk as <-.
    destruct j as [|j]; simpl in Hn.
    + injection Hn as <-. exact Hd0.
    + apply (IH i j eq_refl); [lia|exact Hn].
Qed.

Lemma first_primary_none (ds : list Display) :
  first_primary ds = None <-> existsb isPrimary ds = false.
Proof.
  induction ds as [|d rest IH]; simpl; [tauto|].
  destruct (isPrimary d); simpl.
  - split; discriminate.
  - destruct (first_primary rest); simpl in *.
    + split; [discriminate|]. intros E. apply IH in E. discriminate.
    + split; [intros _; apply IH; reflexivity|reflexivity].
Qed.

Lemma first_primary_only_at (p : nat) (ds : list Display) :
  (p < List.length ds)%nat -> primary_only_at p ds -> first_primary ds = Some p.
Proof.
  intros Hp Hone.
  destruct (first_primary ds) as [k|] eqn:Hk.
  - destruct (first_primary_nth _ _ Hk) as (d & Hn & Hd).
    f_equal. apply (Hone k d Hn), Hd.
  - destruct (nth_error ds p) as [d|] eqn:Hn.
    + assert (Hd : isPrimary d = true) by (apply (Hone p d Hn); reflexivity).
      apply first_primary_none in Hk.
      assert (Hex : existsb isPrimary ds = true).
      { apply existsb_exists. exists d. split; [|exact Hd].
        eapply nth_error_In, Hn. }
      congruence.
    + apply nth_error_None in Hn. lia.
Qed.

(** The search loop returns the first flagged index, cast to [int]. *)
Lemma currentPrimary_from_first (ds : list Display) (i : Z) :
  currentPrimary_from ds i =
  match first_primary ds with
  | Some k => of_size (i + Z.of_nat k)
  | None => -1
  end.
Proof.
  revert i. induction ds as [|d rest IH]; simpl; intros i; [reflexivity|].
  destruct (isPrimary d).
  - f_equal. lia.
  - rewrite IH. destruct (first_primary rest) as [k|]; simpl; [|reflexivity].
    f_equal. lia.
Qed.

Lemma currentPrimary_of_first (ds : list Display) :
  Z.of_nat (List.length ds) <= INT_MAX ->
  currentPrimary_of ds =
  match first_primary ds with
  | Some k => Z.of_nat k
  | None => -1
  end.
Proof.
  intros Hlen. unfold currentPrimary_of.
  rewrite currentPrimary_from_first.
  destruct (first_primary ds) as [k|] eqn:Hk; [|reflexivity].
  apply first_primary_lt in Hk.
  apply of_size_small. lia.
Qed.

Lemma currentPrimary_nonneg (ds : list Display) :
  Z.of_nat (List.length ds) <= INT_MAX ->
  0 <= currentPrimary_of ds ->
  exists k, first_primary ds = Some k /\ currentPrimary_of ds = Z.of_nat k.
Proof.
  intros Hlen Hcp. rewrite (currentPrimary_of_first ds Hlen) in *.
  destruct (first_primary ds) as [k|]; [|lia].
  exists k. split; reflexivity.
Qed.

Lemma currentPrimary_neg (ds : list Display) :
  Z.of_nat (List.length ds) <= INT_MAX ->
  currentPrimary_of ds < 0 -> existsb isPrimary ds = false.
Proof.
  intros Hlen Hcp. rewrite (currentPrimary_of_first ds Hlen) in Hcp.
  apply first_primary_none.
  destruct (first_primary ds) as [k|]; [lia|reflexivity].
Qed.

(** Line 84 computes the circular successor of the first flagged index. *)
Lemma targetIndex_of_first (ds : list Display) (k : nat) :
  Z.of_nat (List.length ds) <= INT_MAX ->
  first_primary ds = Some k ->
  targetIndex_of ds = (Z.of_nat k + 1) mod Z.of_nat (List.length ds).
Proof.
  intros Hlen Hk. unfold targetIndex_of.
  rewrite (currentPrimary_of_first ds Hlen), Hk.
  apply first_primary_lt in Hk.
  rewrite add_small by (unfold INT_MIN, INT_MAX in *; lia).
  rewrite of_size_small by lia.
  apply rem_nonneg; lia.
Qed.

Lemma targetIndex_in_range (ds : list Display) (k : nat) :
  Z.of_nat (List.length ds) <= INT_MAX ->
  first_primary ds = Some k ->
  0 <= targetIndex_of ds < Z.of_nat (List.length ds).
Proof.
  intros Hlen Hk. rewrite (targetIndex_of_first ds k Hlen Hk).
  apply first_primary_lt in Hk.
  apply Z.mod_pos_bound. lia.
Qed.

Lemma targetIndex_nat (ds : list Display) (k : nat) :
  Z.of_nat (List.length ds) <= INT_MAX ->
  first_primary ds = Some k ->
  Z.to_nat (targetIndex_of ds) = ((k + 1) mod List.length ds)%nat.
Proof.
  intros Hlen Hk. rewrite (targetIndex_of_first ds k Hlen Hk).
  apply first_primary_lt in Hk.
  replace (Z.of_nat k + 1) with (Z.of_nat (k + 1)) by lia.
  rewrite <- Nat2Z.inj_mod. apply Nat2Z.id.
Qed.

(** A run that gets past the two checks of lines 74-82 has a target. *)
Lemma selects_exists (ds : list Display) :
  Z.of_nat (List.length ds) <= INT_MAX ->
  0 <= currentPrimary_of ds ->
  exists target, nth_error ds (Z.to_nat (targetIndex_of ds)) = Some target /\
                 0 <= targetIndex_of ds.
Proof.
  intros Hlen Hcp.
  destruct (currentPrimary_nonneg ds Hlen Hcp) as (k & Hk & _).
  pose proof (targetIndex_in_range ds k Hlen Hk) as Ht.
  destruct (nth_error ds (Z.to_nat (targetIndex_of ds))) as [t|] eqn:Hn.
  - exists t. split; [reflexivity|lia].
  - apply nth_error_None in Hn. lia.
Qed.

(** The loop of lines 108-123 visits the displays in enumeration order and
    leaves out the one at the target index. *)
Lemma skip_target_from (ds : list Display) (i t : Z) :
  0 <= i -> i + Z.of_nat (List.length ds) <= INT_MAX ->
  skip_target ds i t =
  if (i <=? t) && (t <? i + Z.of_nat (List.length ds))
  then remove_nth (Z.to_nat (t - i)) ds
  else ds.
Proof.
  revert i. induction ds as [|d rest IH]; intros i Hi Hlen.
  - simpl. destruct ((i <=? t) && (t <? i + 0)); [|reflexivity].
    unfold remove_nth. rewrite firstn_nil. reflexivity.
  - cbn [skip_target]. cbn [List.length] in *.
    rewrite of_size_small by lia.
    rewrite IH by lia.
    destruct (i =? t) eqn:Hit.
    + apply Z.eqb_eq in Hit. subst t.
      replace (i + 1 <=? i) with false by (symmetry; apply Z.leb_gt; lia).
      replace (i <=? i) with true by (symmetry; apply Z.leb_le; lia).
      replace (i <? i + Z.of_nat (S (List.length rest))) with true
        by (symmetry; apply Z.ltb_lt; lia).
      simpl. replace (i - i) with 0 by lia. reflexivity.
    + apply Z.eqb_neq in Hit.
      destruct (i <=? t) eqn:Hle; destruct (t <? i + Z.of_nat (S (List.length rest))) eqn:Hlt;
        simpl.
      * apply Z.leb_le in Hle. apply Z.ltb_lt in Hlt.
        replace (i + 1 <=? t) with true by (symmetry; apply Z.leb_le; lia).
        replace (t <? i + 1 + Z.of_nat (List.length rest)) with true
          by (symmetry; apply Z.ltb_lt; lia).
        simpl. unfold remove_nth.
        replace (Z.to_nat (t - i)) with (S (Z.to_nat (t - (i + 1)))) by lia.
        reflexivity.
      * apply Z.ltb_ge in Hlt.
        replace (t <? i + 1 + Z.of_nat (List.length rest)) with false
          by (symmetry; apply Z.ltb_ge; lia).
        rewrite andb_false_r. reflexivity.
      * apply Z.leb_gt in Hle.
        replace (i + 1 <=? t) with false by (symmetry; apply Z.leb_gt; lia).
        reflexivity.
      * apply Z.leb_gt in Hle.
        replace (i + 1 <=? t) with false by (symmetry; apply Z.leb_gt; lia).
        reflexivity.
Qed.

Lemma skip_target_remove (ds : list Display) (k : nat) :
  Z.of_nat (List.length ds) <= INT_MAX ->
  first_primary ds = Some k ->
  skip_target ds 0 (targetIndex_of ds) =
  remove_nth ((k + 1) mod List.length ds) ds.
Proof.
  intros Hlen Hk.
  pose proof (targetIndex_in_range ds k Hlen Hk) as Ht.
  rewrite skip_target_from by lia.
  replace (0 <=? targetIndex_of ds) with true by (symmetry; apply Z.leb_le; lia).
  replace (targetIndex_of ds <? 0 + Z.of_nat (List.length ds)) with true
    by (symmetry; apply Z.ltb_lt; lia).
  simpl. rewrite Z.sub_0_r, (targetIndex_nat ds k Hlen Hk). reflexivity.
Qed.

(** Every display the loop writes sits at an index other than the target's. *)
Lemma skip_target_In (ds : list Display) (i t : Z) (d : Display) :
  In d (skip_target ds i t) ->
  exists k, nth_error ds k = Some d /\ of_size (i + Z.of_nat k) <> t.
Proof.
  revert i. induction ds as [|d0 rest IH]; simpl; intros i Hin; [contradiction|].
  destruct (of_size i =? t) eqn:Hit.
  - destruct (IH _ Hin) as (k & Hn & Hne).
    exists (S k). split; [exact Hn|].
    replace (i + Z.of_nat (S k)) with (i + 1 + Z.of_nat k) by lia. exact Hne.
  - destruct Hin as [<-|Hin].
    + exists O. split; [reflexivity|].
      apply Z.eqb_neq in Hit. rewrite Z.add_0_r. exact Hit.
    + destruct (IH _ Hin) as (k & Hn & Hne).
      exists (S k). split; [exact Hn|].
      replace (i + Z.of_nat (S k)) with (i + 1 + Z.of_nat k) by lia. exact Hne.
Qed.

End Selector.

(** ** The shape of every run *)

Section Committer.

Context {OS : Type} `{DisplayService OS}.
Import Int32 Int32Facts.

(** The loop of lines 108-123 always ends: either every display but the
    target was accepted, or the first refusal ended the function with 4. *)
Lemma reposition_loop_run (target : Display) (ds : list Display) (i t : Z)
  (w : World OS) :
  exists r w',
    reposition_loop ds i t (offsetX target) (offsetY target) w = Some (r, w') /\
    ((r = None /\
      trace w' = trace w ++ staged_ok target (skip_target ds i t)) \/
     (r = Some 4 /\
      exists pre d post res,
        skip_target ds i t = pre ++ d :: post /\
        res <> DISP_CHANGE_SUCCESSFUL /\
        trace w' = trace w ++ staged_ok target pre
                   ++ [write_other target d res;
                       ErrRepositionFailed (DeviceName (dd d)) res])).
Proof.
  revert i w. induction ds as [|d rest IH]; intros i w.
  - exists None, w. split; [reflexivity|]. left. split; [reflexivity|].
    simpl. rewrite app_nil_r. reflexivity.
  - cbn [reposition_loop skip_target].
    destruct (of_size i =? t); [apply IH|].
    unfold bind at 1, change at 1.
    destruct (ChangeDisplaySettingsExW (os w) (Some (DeviceName (dd d)))
                (Some (rebased d (offsetX target) (offsetY target))) other_flags)
      as [res o'] eqn:Hcall.
    destruct (res =? DISP_CHANGE_SUCCESSFUL) eqn:Hres; cbn [negb].
    + apply Z.eqb_eq in Hres. subst res.
      destruct (IH (i + 1)
                  (mkWorld o' (trace w ++ [EvChange (Some (DeviceName (dd d)))
                     (Some (rebased d (offsetX target) (offsetY target)))
                     other_flags DISP_CHANGE_SUCCESSFUL])))
        as (r & w' & Hrun & Hshape).
      exists r, w'. split; [exact Hrun|].
      cbn [trace] in Hshape.
      destruct Hshape as [[-> Htr]|[-> (pre & d1 & post & res & Hsplit & Hne & Htr)]].
      * left. split; [reflexivity|].
        rewrite Htr, <- app_assoc. reflexivity.
      * right. split; [reflexivity|].
        exists (d :: pre), d1, post, res.
        split; [rewrite Hsplit; reflexivity|]. split; [exact Hne|].
        rewrite Htr, <- app_assoc. reflexivity.
    + apply Z.eqb_neq in Hres.
      eexists. eexists. split; [reflexivity|].
      right. split; [reflexivity|].
      exists [], d, (skip_target rest (i + 1) t), res.
      split; [reflexivity|]. split; [exact Hres|].
      cbn [trace staged_ok map app]. rewrite <- app_assoc. reflexivity.
Qed.

(** Lines 69-133 on a snapshot that fits the [int] index arithmetic. *)
Lemma switch_displays_run (displays : list Display) (w : World OS) :
  displays <> [] ->
  Z.of_nat (List.length displays) <= INT_MAX ->
  exists code w' evs,
    switch_displays displays w = Some (code, w') /\
    trace w' = trace w ++ evs /\
    Run displays code evs.
Proof.
  intros Hne Hlen. unfold switch_displays.
  destruct (currentPrimary_of displays <? 0) eqn:Hcp.
  { apply Z.ltb_lt in Hcp.
    eexists. eexists. exists [ErrNoPrimary].
    split; [reflexivity|]. split; [reflexivity|].
    apply Run_no_primary; assumption. }
  apply Z.ltb_ge in Hcp.
  destruct (Z.of_nat (List.length displays) =? 1) eqn:Hone.
  { apply Z.eqb_eq in Hone.
    eexists. eexists. exists [OutOnlyOne].
    split; [reflexivity|]. split; [reflexivity|].
    apply Run_single; [exact Hcp|lia]. }
  apply Z.eqb_neq in Hone.
  destruct (selects_exists displays Hlen Hcp) as (target & Hnth & Ht).
  assert (Hsel : selects displays target).
  { unfold selects. repeat split; try assumption. lia. }
  unfold bind at 1, vec_at.
  replace (targetIndex_of displays <? 0) with false
    by (symmetry; apply Z.ltb_ge; exact Ht).
  rewrite Hnth.
  fold (offsetX target). fold (offsetY target).
  unfold bind at 1, change at 1.
  destruct (ChangeDisplaySettingsExW (os w) (Some (DeviceName (dd target)))
              (Some (rebased target (offsetX target) (offsetY target)))
              target_flags) as [res o1] eqn:Hcall.
  destruct (res =? DISP_CHANGE_SUCCESSFUL) eqn:Hres; cbn [negb].
  2:{ apply Z.eqb_neq in Hres.
      eexists. eexists.
      exists [write_target target res;
              ErrSetPrimaryFailed (DeviceName (dd target)) res].
      split; [reflexivity|].
      split; [cbn [trace]; rewrite <- app_assoc; reflexivity|].
      apply Run_target_failed; assumption. }
  apply Z.eqb_eq in Hres. subst res.
  unfold bind at 1.
  destruct (reposition_loop_run target displays 0 (targetIndex_of displays)
              (mkWorld o1 (trace w ++ [write_target target DISP_CHANGE_SUCCESSFUL])))
    as (r & w2 & Hloop & Hshape).
  unfold write_target in Hloop at 1. rewrite Hloop.
  cbn [trace] in Hshape.
  destruct Hshape as [[-> Htr]|[-> (pre & d & post & res & Hsplit & Hbad & Htr)]].
  2:{ exists 4, w2. eexists.
      split; [reflexivity|].
      split; [rewrite Htr, <- app_assoc; reflexivity|].
      apply Run_other_failed with (post := post); assumption. }
  unfold bind at 1, change at 1.
  destruct (ChangeDisplaySettingsExW (os w2) None None 0) as [applyRes o3] eqn:Happly.
  destruct (applyRes =? DISP_CHANGE_SUCCESSFUL) eqn:Hres; cbn [negb].
  - apply Z.eqb_eq in Hres. subst applyRes.
    eexists. eexists. eexists.
    split; [reflexivity|].
    split; [|apply Run_success; exact Hsel].
    cbn [trace]. rewrite Htr, <- !app_assoc. reflexivity.
  - apply Z.eqb_neq in Hres.
    eexists. eexists. eexists.
    split; [reflexivity|].
    split; [|apply (Run_apply_failed displays target applyRes Hsel Hres)].
    cbn [trace]. rewrite Htr, <- !app_assoc. reflexivity.
Qed.

(** [EnumerateDisplays] reports whether its output is non-empty. *)
Lemma EnumerateDisplays_found (fuel : nat) (w w1 : World OS) (found : bool)
  (displays : list Display) :
  EnumerateDisplays fuel w = Some ((found, displays), w1) ->
  found = match displays with [] => false | _ :: _ => true end /\
  EnumerateDisplays_loop fuel 0 [] w = Some (displays, w1).
Proof.
  unfold EnumerateDisplays, bind, ret.
  destruct (EnumerateDisplays_loop fuel 0 [] w) as [[out w']|]; [|discriminate].
  intros E. injection E as <- <- <-. split; reflexivity.
Qed.

(** The whole function continues with lines 69-133 on a non-empty snapshot. *)
Lemma SwitchPrimaryToNext_step (fuel : nat) (w w1 : World OS) (found : bool)
  (displays : list Display) :
  EnumerateDisplays fuel w = Some ((found, displays), w1) ->
  SwitchPrimaryToNext fuel w =
  match displays with
  | [] => Some (1, mkWorld (os w1) (trace w1 ++ [ErrNoDisplays]))
  | _ :: _ => switch_displays displays w1
  end.
Proof.
  intros Henum.
  destruct (EnumerateDisplays_found _ _ _ _ _ Henum) as [Hfound _].
  unfold SwitchPrimaryToNext, bind at 1. rewrite Henum, Hfound.
  destruct displays; reflexivity.
Qed.

(** Every run on a snapshot within the [int] range returns, and what it did
    after the enumeration is one of the seven shapes of [Run]. *)
Lemma SwitchPrimaryToNext_run (fuel : nat) (w w1 : World OS) (found : bool)
  (displays : list Display) :
  EnumerateDisplays fuel w = Some ((found, displays), w1) ->
  Z.of_nat (List.length displays) <= INT_MAX ->
  exists code w' evs,
    SwitchPrimaryToNext fuel w = Some (code, w') /\
    trace w' = trace w1 ++ evs /\
    Run displays code evs.
Proof.
  intros Henum Hlen.
  rewrite (SwitchPrimaryToNext_step _ _ _ _ _ Henum).
  destruct displays as [|d rest] eqn:Hds.
  - eexists. eexists. exists [ErrNoDisplays].
    split; [reflexivity|]. split; [reflexivity|].
    apply Run_no_displays. reflexivity.
  - apply switch_displays_run; [discriminate|exact Hlen].
Qed.

End Committer.

(** ** The topology reader *)

Section ReaderFacts.

Context {OS : Type} `{DisplayService OS}.
Import Int32 Int32Facts.

Lemma read_topology_cons (o : OS) (d : DISPLAY_DEVICEW) (rest : list DISPLAY_DEVICEW) :
  read_topology o (d :: rest) =
  if is_attached d && negb (is_mirroring d) then
    match EnumDisplaySettingsExW o (DeviceName d) with
    | Some m => mkDisplay d m (is_primary_device d) :: read_topology o rest
    | None => read_topology o rest
    end
  else read_topology o rest.
Proof.
  unfold read_topology, candidates. cbn [filter].
  destruct (is_attached d && negb (is_mirroring d)); [|reflexivity].
  cbn [flat_map].
  destruct (EnumDisplaySettingsExW o (DeviceName d)); reflexivity.
Qed.

Lemma read_diagnostics_cons (o : OS) (d : DISPLAY_DEVICEW) (rest : list DISPLAY_DEVICEW) :
  read_diagnostics o (d :: rest) =
  if is_attached d && negb (is_mirroring d) then
    match EnumDisplaySettingsExW o (DeviceName d) with
    | Some _ => read_diagnostics o rest
    | None => ErrLastError "EnumDisplaySettingsEx" :: read_diagnostics o rest
    end
  else read_diagnostics o rest.
Proof.
  unfold read_diagnostics, candidates. cbn [filter].
  destruct (is_attached d && negb (is_mirroring d)); [|reflexivity].
  cbn [flat_map].
  destruct (EnumDisplaySettingsExW o (DeviceName d)); reflexivity.
Qed.

(** The loop from index [i] on, when the service still has the devices
    [suf] to report and the fuel covers them. *)
Lemma EnumerateDisplays_loop_reads (suf : list DISPLAY_DEVICEW) :
  forall (fuel : nat) (i : Z) (out : list Display) (w : World OS),
    0 <= i ->
    i + Z.of_nat (List.length suf) < modulus ->
    (forall j d, nth_error suf j = Some d ->
                 EnumDisplayDevicesW (os w) (i + Z.of_nat j) = Some d) ->
    EnumDisplayDevicesW (os w) (i + Z.of_nat (List.length suf)) = None ->
    (List.length suf < fuel)%nat ->
    EnumerateDisplays_loop fuel i out w =
    Some (out ++ read_topology (os w) suf,
          mkWorld (os w) (trace w ++ read_diagnostics (os w) suf)).
Proof.
  induction suf as [|d rest IH]; intros fuel i out w Hi Hbound Hdev Hend Hfuel.
  - destruct fuel as [|fuel]; [simpl in Hfuel; lia|].
    cbn [EnumerateDisplays_loop List.length] in *.
    rewrite Z.add_0_r in Hend. rewrite Hend.
    unfold ret. destruct w as [o tr]. cbn.
    rewrite !app_nil_r. reflexivity.
  - destruct fuel as [|fuel]; [simpl in Hfuel; lia|].
    cbn [List.length] in *.
    assert (Hhead : EnumDisplayDevicesW (os w) i = Some d).
    { specialize (Hdev O d eq_refl). rewrite Z.add_0_r in Hdev. exact Hdev. }
    assert (Hnext : uwrap (i + 1) = i + 1) by (apply uwrap_small; lia).
    assert (Htail : forall (out' : list Display) (w' : World OS),
               os w' = os w ->
               EnumerateDisplays_loop fuel (i + 1) out' w' =
               Some (out' ++ read_topology (os w) rest,
                     mkWorld (os w) (trace w' ++ read_diagnostics (os w) rest))).
    { intros out' w' Hos. rewrite <- Hos. apply IH.
      - lia.
      - lia.
      - intros j d' Hj. rewrite Hos.
        replace (i + 1 + Z.of_nat j) with (i + Z.of_nat (S j)) by lia.
        apply Hdev. exact Hj.
      - rewrite Hos.
        replace (i + 1 + Z.of_nat (List.length rest))
          with (i + Z.of_nat (S (List.length rest))) by lia.
        exact Hend.
      - lia. }
    cbn [EnumerateDisplays_loop]. rewrite Hhead, Hnext.
    rewrite read_topology_cons, read_diagnostics_cons.
    unfold is_attached, is_mirroring.
    destruct (Z.land (StateFlags d) DISPLAY_DEVICE_ATTACHED_TO_DESKTOP =? 0);
      cbn [negb andb]; [apply Htail; reflexivity|].
    destruct (Z.land (StateFlags d) DISPLAY_DEVICE_MIRRORING_DRIVER =? 0);
      cbn [negb andb]; [|apply Htail; reflexivity].
    destruct (EnumDisplaySettingsExW (os w) (DeviceName d)) as [m|].
    + rewrite Htail by reflexivity.
      unfold is_primary_device. rewrite <- app_assoc. reflexivity.
    + unfold bind, emit. rewrite Htail by reflexivity.
      cbn [trace]. rewrite <- app_assoc. reflexivity.
Qed.

(** Whatever the service enumerates, the reader only reads: it leaves the
    service state alone and issues no [ChangeDisplaySettingsExW] call. *)
Lemma EnumerateDisplays_loop_read_only (fuel : nat) :
  forall (i : Z) (out ds : list Display) (w w' : World OS),
    EnumerateDisplays_loop fuel i out w = Some (ds, w') ->
    os w' = os w /\ change_calls (trace w') = change_calls (trace w).
Proof.
  induction fuel as [|fuel IH]; intros i out ds w w' Hrun; [discriminate|].
  cbn [EnumerateDisplays_loop] in Hrun.
  destruct (EnumDisplayDevicesW (os w) i) as [d|].
  2:{ injection Hrun as <- <-. split; reflexivity. }
  destruct (Z.land (StateFlags d) DISPLAY_DEVICE_ATTACHED_TO_DESKTOP =? 0);
    [exact (IH _ _ _ _ _ Hrun)|].
  destruct (negb (Z.land (StateFlags d) DISPLAY_DEVICE_MIRRORING_DRIVER =? 0));
    [exact (IH _ _ _ _ _ Hrun)|].
  destruct (EnumDisplaySettingsExW (os w) (DeviceName d)) as [m|];
    [exact (IH _ _ _ _ _ Hrun)|].
  unfold bind, emit in Hrun.
  destruct (IH _ _ _ _ _ Hrun) as [Hos Hcalls]. cbn [os trace] in *.
  split; [exact Hos|].
  rewrite Hcalls. unfold change_calls. rewrite filter_app. cbn.
  apply app_nil_r.
Qed.

Lemma EnumerateDisplays_read_only (fuel : nat) (w w1 : World OS) (found : bool)
  (displays : list Display) :
  EnumerateDisplays fuel w = Some ((found, displays), w1) ->
  os w1 = os w /\ change_calls (trace w1) = change_calls (trace w).
Proof.
  intros Henum.
  destruct (EnumerateDisplays_found _ _ _ _ _ Henum) as [_ Hloop].
  exact (EnumerateDisplays_loop_read_only _ _ _ _ _ _ Hloop).
Qed.

End ReaderFacts.

(** * The claims of the specification

    The claims are stated on whole runs of [SwitchPrimaryToNext]: [displays]
    is the snapshot the reader returned in world [w1], and what the run did
    afterwards is what its final trace adds to the trace of [w1].  The index
    arithmetic of lines 72, 84 and 109 casts sizes to [int]; the statements
    that depend on it take snapshots of at most [INT_MAX] monitors. *)

Section Claims.

Context {OS : Type} `{DisplayService OS}.
Import Int32 Int32Facts.

Lemma events_since_app (w1 w' : World OS) (evs : list Event) :
  trace w' = trace w1 ++ evs -> events_since w1 w' = evs.
Proof.
  intros Htr. unfold events_since. rewrite Htr.
  rewrite skipn_app, skipn_all, Nat.sub_diag. reflexivity.
Qed.

Lemma read_topology_devices (o : OS) (devs : list DISPLAY_DEVICEW) :
  map dd (read_topology o devs) = filter (readable o) (candidates devs).
Proof.
  unfold read_topology.
  induction (candidates devs) as [|d rest IH]; [reflexivity|].
  cbn [flat_map filter]. unfold readable at 1.
  destruct (EnumDisplaySettingsExW o (DeviceName d)); cbn; rewrite IH; reflexivity.
Qed.

Lemma read_topology_settings (o : OS) (devs : list DISPLAY_DEVICEW) (d : Display) :
  In d (read_topology o devs) ->
  EnumDisplaySettingsExW o (DeviceName (dd d)) = Some (dm d) /\
  isPrimary d = is_primary_device (dd d).
Proof.
  unfold read_topology. intros Hin. apply in_flat_map in Hin.
  destruct Hin as (dev & _ & Hin).
  destruct (EnumDisplaySettingsExW o (DeviceName dev)) as [m|] eqn:Hread;
    [|contradiction].
  destruct Hin as [<-|[]]. cbn. split; [exact Hread|reflexivity].
Qed.

(** C8: when the service enumerates the devices [devs] and the loop is given
    enough iterations, the Topology Reader returns, and its output holds one
    monitor for exactly those devices of [devs] that are attached to the
    desktop and not mirroring drivers, in enumeration order, each with the
    settings read for it; a device whose settings read fails is left out, one
    diagnostic is written for it, and the enumeration goes on with the next
    device.  The reader changes nothing in the service. *)
Theorem C8_reader_output (fuel : nat) (w : World OS) (devs : list DISPLAY_DEVICEW) :
  enumerates (os w) devs ->
  (List.length devs < fuel)%nat ->
  EnumerateDisplays fuel w =
    Some ((not_empty (read_topology (os w) devs), read_topology (os w) devs),
          mkWorld (os w) (trace w ++ read_diagnostics (os w) devs)) /\
  map dd (read_topology (os w) devs) =
    filter (readable (os w))
           (filter (fun d => is_attached d && negb (is_mirroring d)) devs) /\
  (forall d, In d (read_topology (os w) devs) ->
             EnumDisplaySettingsExW (os w) (DeviceName (dd d)) = Some (dm d) /\
             isPrimary d = is_primary_device (dd d)) /\
  read_diagnostics (os w) devs =
    map (fun _ => ErrLastError "EnumDisplaySettingsEx")
        (filter (fun d => negb (readable (os w) d))
                (filter (fun d => is_attached d && negb (is_mirroring d)) devs)).
Proof.
  intros (Hdev & Hend & Hbound) Hfuel.
  split; [|split; [|split]].
  - unfold EnumerateDisplays, bind.
    rewrite (EnumerateDisplays_loop_reads devs fuel 0 [] w); try lia.
    + reflexivity.
    + intros j d Hj. apply Hdev. exact Hj.
    + exact Hend.
  - apply read_topology_devices.
  - apply read_topology_settings.
  - unfold read_diagnostics, candidates.
    induction (filter (fun d => is_attached d && negb (is_mirroring d)) devs)
      as [|d rest IH]; [reflexivity|].
    cbn [flat_map filter]. unfold readable at 1.
    destruct (EnumDisplaySettingsExW (os w) (DeviceName d)); cbn; rewrite IH;
      reflexivity.
Qed.

(** C1: on a snapshot of N >= 2 monitors in which exactly the monitor at
    index p is flagged primary, the target index computed by the rotation
    selector is (p + 1) mod N, and the run addresses its set-primary write
    to the monitor at that index of the enumeration order. *)
Theorem C1_rotation_selects_successor (fuel : nat) (w w1 : World OS)
  (found : bool) (displays : list Display) (p : nat) :
  EnumerateDisplays fuel w = Some ((found, displays), w1) ->
  (2 <= List.length displays)%nat ->
  Z.of_nat (List.length displays) <= INT_MAX ->
  (p < List.length displays)%nat ->
  primary_only_at p displays ->
  targetIndex_of displays = (Z.of_nat p + 1) mod Z.of_nat (List.length displays) /\
  exists target res code w' rest,
    nth_error displays ((p + 1) mod List.length displays) = Some target /\
    SwitchPrimaryToNext fuel w = Some (code, w') /\
    trace w' = trace w1 ++ write_target target res :: rest.
Proof.
  intros Henum Hn Hlen Hp Hone.
  pose proof (first_primary_only_at p displays Hp Hone) as Hfirst.
  split; [exact (targetIndex_of_first displays p Hlen Hfirst)|].
  destruct (SwitchPrimaryToNext_run fuel w w1 found displays Henum Hlen)
    as (code & w' & evs & Hrun & Htr & Hshape).
  pose proof (currentPrimary_of_first displays Hlen) as Hcp.
  rewrite Hfirst in Hcp.
  assert (Htarget : forall target, selects displays target ->
            nth_error displays ((p + 1) mod List.length displays) = Some target).
  { intros target (_ & _ & _ & Hnth).
    rewrite (targetIndex_nat displays p Hlen Hfirst) in Hnth. exact Hnth. }
  inversion Hshape as
    [Hnil | Hnn Hneg | Hpos Hsingle | target res Hsel Hres
     | target pre d post res Hsel Hsplit Hres | target res Hsel Hres | target Hsel];
    subst.
  - simpl in Hn. lia.
  - lia.
  - lia.
  - exists target, res, 3, w'. eexists.
    split; [apply Htarget, Hsel|]. split; [exact Hrun|exact Htr].
  - exists target, DISP_CHANGE_SUCCESSFUL, 4, w'. eexists.
    split; [apply Htarget, Hsel|]. split; [exact Hrun|exact Htr].
  - exists target, DISP_CHANGE_SUCCESSFUL, 5, w'. eexists.
    split; [apply Htarget, Hsel|]. split; [exact Hrun|exact Htr].
  - exists target, DISP_CHANGE_SUCCESSFUL, 0, w'. eexists.
    split; [apply Htarget, Hsel|]. split; [exact Hrun|exact Htr].
Qed.

Lemma skip_target_selected (displays : list Display) (target : Display) :
  Z.of_nat (List.length displays) <= INT_MAX ->
  selects displays target ->
  skip_target displays 0 (targetIndex_of displays) =
  remove_nth (Z.to_nat (targetIndex_of displays)) displays.
Proof.
  intros Hlen (Hcp & _ & Ht & Hnth).
  assert (Hlt : (Z.to_nat (targetIndex_of displays) < List.length displays)%nat).
  { apply nth_error_Some. rewrite Hnth. discriminate. }
  rewrite skip_target_from by lia.
  replace (0 <=? targetIndex_of displays) with true by (symmetry; apply Z.leb_le; lia).
  replace (targetIndex_of displays <? 0 + Z.of_nat (List.length displays)) with true
    by (symmetry; apply Z.ltb_lt; lia).
  simpl. rewrite Z.sub_0_r. reflexivity.
Qed.

Lemma rebased_position (d : Display) (ox oy : Z) :
  dmPosition (rebased d ox oy) =
  mkPOINTL (add (x (dmPosition (dm d))) ox) (add (y (dmPosition (dm d))) oy).
Proof. reflexivity. Qed.

Lemma target_flags_set_primary : Z.land target_flags CDS_SET_PRIMARY = CDS_SET_PRIMARY.
Proof. reflexivity. Qed.

Lemma other_flags_not_primary : Z.land other_flags CDS_SET_PRIMARY = 0.
Proof. reflexivity. Qed.

(** A run that returns 0 on a snapshot of more than one monitor is the
    successful transaction. *)
Lemma Run_success_inv (displays : list Display) (evs : list Event) :
  Run displays 0 evs ->
  List.length displays <> 1%nat ->
  exists target,
    selects displays target /\
    evs = write_target target DISP_CHANGE_SUCCESSFUL
          :: staged_ok target (skip_target displays 0 (targetIndex_of displays))
          ++ [apply_call DISP_CHANGE_SUCCESSFUL;
              OutSwitched (DeviceName (dd target))].
Proof.
  intros Hshape Hn.
  inversion Hshape as
    [Hnil | Hnn Hneg | Hpos Hsingle | target res Hsel Hres
     | target pre d post res Hsel Hsplit Hres | target res Hsel Hres | target Hsel];
    subst.
  - contradiction.
  - exists target. split; [exact Hsel|reflexivity].
Qed.

Lemma successful_run (fuel : nat) (w w1 w' : World OS) (found : bool)
  (displays : list Display) :
  EnumerateDisplays fuel w = Some ((found, displays), w1) ->
  Z.of_nat (List.length displays) <= INT_MAX ->
  List.length displays <> 1%nat ->
  SwitchPrimaryToNext fuel w = Some (0, w') ->
  exists target,
    selects displays target /\
    trace w' = trace w1
      ++ write_target target DISP_CHANGE_SUCCESSFUL
      :: staged_ok target (remove_nth (Z.to_nat (targetIndex_of displays)) displays)
      ++ [apply_call DISP_CHANGE_SUCCESSFUL; OutSwitched (DeviceName (dd target))].
Proof.
  intros Henum Hlen Hn Hret.
  destruct (SwitchPrimaryToNext_run fuel w w1 found displays Henum Hlen)
    as (code & w2 & evs & Hrun & Htr & Hshape).
  rewrite Hret in Hrun. injection Hrun as <- <-.
  destruct (Run_success_inv displays evs Hshape Hn) as (target & Hsel & ->).
  exists target. split; [exact Hsel|].
  rewrite <- (skip_target_selected displays target Hlen Hsel). exact Htr.
Qed.

(** C2: on a snapshot of exactly one monitor the run returns without a
    single call of the write service and leaves the service state as it was;
    it reports success (exit status 0) when that monitor is flagged primary
    and the indeterminate-primary failure (exit status 2) when it is not:
    the search for the primary (lines 70-77) comes before the check for a
    single display (lines 79-82). *)
Theorem C2_single_monitor_no_writes (fuel : nat) (w w1 : World OS)
  (found : bool) (d : Display) :
  EnumerateDisplays fuel w = Some ((found, [d]), w1) ->
  exists w',
    SwitchPrimaryToNext fuel w = Some (if isPrimary d then 0 else 2, w') /\
    os w' = os w /\
    change_calls (trace w') = change_calls (trace w) /\
    events_since w1 w' = [if isPrimary d then OutOnlyOne else ErrNoPrimary].
Proof.
  intros Henum.
  destruct (EnumerateDisplays_read_only _ _ _ _ _ Henum) as [Hos Hcalls].
  rewrite (SwitchPrimaryToNext_step _ _ _ _ _ Henum).
  unfold switch_displays, currentPrimary_of. cbn [currentPrimary_from List.length].
  exists (mkWorld (os w1)
            (trace w1 ++ [if isPrimary d then OutOnlyOne else ErrNoPrimary])).
  destruct (isPrimary d).
  - change (of_size 0) with 0. cbn.
    repeat split; try assumption.
    + unfold change_calls. rewrite filter_app. cbn. rewrite app_nil_r. exact Hcalls.
    + apply events_since_app. reflexivity.
  - cbn.
    repeat split; try assumption.
    + unfold change_calls. rewrite filter_app. cbn. rewrite app_nil_r. exact Hcalls.
    + apply events_since_app. reflexivity.
Qed.

(** C3: after a successful run on a snapshot of more than one monitor, the
    first call of the run is the write for the target; it stages the
    position (0,0), carries the set-primary flag and was accepted, and the
    run ends with the accepted final apply.  The offset is the 32-bit
    negation of the target's position, and the result holds for every
    position of the target, wrap-around included. *)
Theorem C3_target_at_origin (fuel : nat) (w w1 w' : World OS) (found : bool)
  (displays : list Display) :
  EnumerateDisplays fuel w = Some ((found, displays), w1) ->
  Z.of_nat (List.length displays) <= INT_MAX ->
  List.length displays <> 1%nat ->
  SwitchPrimaryToNext fuel w = Some (0, w') ->
  exists target m rest,
    selects displays target /\
    m = rebased target (neg (x (dmPosition (dm target))))
                       (neg (y (dmPosition (dm target)))) /\
    dmPosition m = mkPOINTL 0 0 /\
    Z.land target_flags CDS_SET_PRIMARY = CDS_SET_PRIMARY /\
    trace w' = trace w1
      ++ EvChange (Some (DeviceName (dd target))) (Some m) target_flags
                  DISP_CHANGE_SUCCESSFUL
      :: rest
      ++ [apply_call DISP_CHANGE_SUCCESSFUL; OutSwitched (DeviceName (dd target))].
Proof.
  intros Henum Hlen Hn Hret.
  destruct (successful_run fuel w w1 w' found displays Henum Hlen Hn Hret)
    as (target & Hsel & Htr).
  exists target. eexists. eexists.
  split; [exact Hsel|]. split; [reflexivity|].
  split; [|split; [exact target_flags_set_primary|exact Htr]].
  rewrite rebased_position, !add_neg_cancel. reflexivity.
Qed.

(** C4: after a successful run on a snapshot of more than one monitor, the
    writes that follow the target's are those of the other monitors, in
    enumeration order with the target left out; each stages the monitor's
    original position plus the offset, the 32-bit negation of the target's
    original position.  The 32-bit difference between the positions of any
    two monitors is unchanged, and where the rebasing does not leave the
    range of the coordinates the difference is unchanged as an integer. *)
Theorem C4_translation_invariance (fuel : nat) (w w1 w' : World OS)
  (found : bool) (displays : list Display) :
  EnumerateDisplays fuel w = Some ((found, displays), w1) ->
  Z.of_nat (List.length displays) <= INT_MAX ->
  List.length displays <> 1%nat ->
  SwitchPrimaryToNext fuel w = Some (0, w') ->
  exists target,
    selects displays target /\
    trace w' = trace w1
      ++ write_target target DISP_CHANGE_SUCCESSFUL
      :: map (fun d => EvChange (Some (DeviceName (dd d)))
                         (Some (rebased d (offsetX target) (offsetY target)))
                         other_flags DISP_CHANGE_SUCCESSFUL)
             (remove_nth (Z.to_nat (targetIndex_of displays)) displays)
      ++ [apply_call DISP_CHANGE_SUCCESSFUL; OutSwitched (DeviceName (dd target))] /\
    (forall d,
       new_position target d =
       mkPOINTL (add (x (dmPosition (dm d))) (neg (x (dmPosition (dm target)))))
                (add (y (dmPosition (dm d))) (neg (y (dmPosition (dm target)))))) /\
    (forall a b,
       sub (x (new_position target a)) (x (new_position target b)) =
       sub (x (dmPosition (dm a))) (x (dmPosition (dm b))) /\
       sub (y (new_position target a)) (y (new_position target b)) =
       sub (y (dmPosition (dm a))) (y (dmPosition (dm b)))) /\
    (forall a b,
       no_overflow target a -> no_overflow target b ->
       x (new_position target a) - x (new_position target b) =
       x (dmPosition (dm a)) - x (dmPosition (dm b)) /\
       y (new_position target a) - y (new_position target b) =
       y (dmPosition (dm a)) - y (dmPosition (dm b))).
Proof.
  intros Henum Hlen Hn Hret.
  destruct (successful_run fuel w w1 w' found displays Henum Hlen Hn Hret)
    as (target & Hsel & Htr).
  exists target.
  split; [exact Hsel|]. split; [exact Htr|].
  split; [|split].
  - intros d. reflexivity.
  - intros a b. unfold new_position. rewrite !rebased_position. cbn [x y].
    split; apply sub_add_add.
  - intros a b (Htx & Hty & Hax & Hay) (_ & _ & Hbx & Hby).
    unfold new_position. rewrite !rebased_position. cbn [x y].
    unfold offsetX, offsetY.
    rewrite !neg_small by assumption.
    unfold in_range in *.
    rewrite !add_small by lia.
    split; lia.
Qed.

Lemma change_calls_app (a b : list Event) :
  change_calls (a ++ b) = change_calls a ++ change_calls b.
Proof. apply filter_app. Qed.

Lemma staged_ok_In (target : Display) (ds : list Display) (e : Event) :
  In e (staged_ok target ds) ->
  exists d, In d ds /\ e = write_other target d DISP_CHANGE_SUCCESSFUL.
Proof.
  unfold staged_ok. intros Hin. apply in_map_iff in Hin.
  destruct Hin as (d & <- & Hd). exists d. split; [exact Hd|reflexivity].
Qed.

Lemma staged_ok_no_apply (target : Display) (ds : list Display) :
  filter is_apply (staged_ok target ds) = [].
Proof. induction ds as [|d rest IH]; [reflexivity|exact IH]. Qed.

Lemma staged_ok_change_calls (target : Display) (ds : list Display) :
  change_calls (staged_ok target ds) = staged_ok target ds.
Proof.
  induction ds as [|d rest IH]; [reflexivity|].
  cbn. f_equal. exact IH.
Qed.

Lemma first_refused_staged_ok (target : Display) (ds : list Display)
  (rest : list Event) :
  first_refused (staged_ok target ds ++ rest) = first_refused rest.
Proof. induction ds as [|d ds IH]; [reflexivity|exact IH]. Qed.

Lemma flags_differ : target_flags <> other_flags.
Proof. discriminate. Qed.

Lemma write_target_not_other (target : Display) (r : Z) (name : string)
  (m : DEVMODEW) (res : Z) :
  write_target target r <> EvChange (Some name) (Some m) other_flags res.
Proof.
  unfold write_target. intros E.
  assert (F : target_flags = other_flags) by congruence.
  exact (flags_differ F).
Qed.

(** C5: when the service refuses the write for the target, the run returns
    3 at once: in the whole run the service is called exactly once, for the
    target; no other device is written, the final apply is not invoked, and
    the service state is the one that refused call left behind. *)
Theorem C5_target_write_failure (fuel : nat) (w w1 : World OS) (found : bool)
  (displays : list Display) (target : Display) (res : Z) (o' : OS) :
  EnumerateDisplays fuel w = Some ((found, displays), w1) ->
  selects displays target ->
  ChangeDisplaySettingsExW (os w1) (Some (DeviceName (dd target)))
    (Some (rebased target (offsetX target) (offsetY target))) target_flags
  = (res, o') ->
  res <> DISP_CHANGE_SUCCESSFUL ->
  SwitchPrimaryToNext fuel w =
    Some (3, mkWorld o' (trace w1 ++ [write_target target res;
                                      ErrSetPrimaryFailed (DeviceName (dd target)) res])) /\
  change_calls (trace w1 ++ [write_target target res;
                             ErrSetPrimaryFailed (DeviceName (dd target)) res])
  = change_calls (trace w) ++ [write_target target res] /\
  filter is_apply [write_target target res;
                   ErrSetPrimaryFailed (DeviceName (dd target)) res] = [].
Proof.
  intros Henum (Hcp & Hn & Ht & Hnth) Hcall Hres.
  destruct (EnumerateDisplays_read_only _ _ _ _ _ Henum) as [_ Hcalls].
  split; [|split; [|reflexivity]].
  2:{ rewrite change_calls_app, Hcalls. reflexivity. }
  rewrite (SwitchPrimaryToNext_step _ _ _ _ _ Henum).
  destruct displays as [|d0 rest] eqn:Hds.
  { destruct (Z.to_nat (targetIndex_of [])); discriminate. }
  rewrite <- Hds in *. clear Hds d0 rest.
  unfold switch_displays.
  replace (currentPrimary_of displays <? 0) with false
    by (symmetry; apply Z.ltb_ge; exact Hcp).
  replace (Z.of_nat (List.length displays) =? 1) with false
    by (symmetry; apply Z.eqb_neq; lia).
  unfold bind at 1, vec_at.
  replace (targetIndex_of displays <? 0) with false
    by (symmetry; apply Z.ltb_ge; exact Ht).
  rewrite Hnth.
  fold (offsetX target). fold (offsetY target).
  unfold bind at 1, change at 1. rewrite Hcall.
  replace (res =? DISP_CHANGE_SUCCESSFUL) with false
    by (symmetry; apply Z.eqb_neq; exact Hres).
  cbn. rewrite <- app_assoc. reflexivity.
Qed.

(** C6: when a run contains a write for a non-target device that the
    service refused, the run returns 4 and that write is its last service
    call: before it come the accepted write for the target and the accepted
    writes for the non-target devices that precede the refused one in
    enumeration order; the devices after it receive no call and the final
    apply is not invoked. *)
Theorem C6_other_write_failure (fuel : nat) (w w1 w' : World OS) (found : bool)
  (displays : list Display) (code : Z) (name : string) (m : DEVMODEW) (res : Z) :
  EnumerateDisplays fuel w = Some ((found, displays), w1) ->
  Z.of_nat (List.length displays) <= INT_MAX ->
  SwitchPrimaryToNext fuel w = Some (code, w') ->
  In (EvChange (Some name) (Some m) other_flags res) (events_since w1 w') ->
  res <> DISP_CHANGE_SUCCESSFUL ->
  code = 4 /\
  exists target pre d post,
    selects displays target /\
    remove_nth (Z.to_nat (targetIndex_of displays)) displays = pre ++ d :: post /\
    name = DeviceName (dd d) /\
    m = rebased d (offsetX target) (offsetY target) /\
    events_since w1 w' =
      write_target target DISP_CHANGE_SUCCESSFUL
      :: staged_ok target pre
      ++ [write_other target d res; ErrRepositionFailed name res] /\
    change_calls (events_since w1 w') =
      write_target target DISP_CHANGE_SUCCESSFUL
      :: staged_ok target pre ++ [write_other target d res] /\
    filter is_apply (events_since w1 w') = [].
Proof.
  intros Henum Hlen Hret Hin Hres.
  destruct (SwitchPrimaryToNext_run fuel w w1 found displays Henum Hlen)
    as (code' & w2 & evs & Hrun & Htr & Hshape).
  rewrite Hret in Hrun. injection Hrun as <- <-.
  rewrite (events_since_app _ _ _ Htr) in *. clear Htr Hret.
  assert (Hok : forall target ds,
             ~ In (EvChange (Some name) (Some m) other_flags res)
                  (staged_ok target ds)).
  { intros target ds Hs. apply staged_ok_In in Hs.
    destruct Hs as (d & _ & E). injection E as _ _ E. exact (Hres E). }
  inversion Hshape as
    [Hnil | Hnn Hneg | Hpos Hsingle | target res' Hsel Hres'
     | target pre d post res' Hsel Hsplit Hres' | target res' Hsel Hres'
     | target Hsel];
    subst code evs.
  - destruct Hin as [E|[]]; discriminate.
  - destruct Hin as [E|[]]; discriminate.
  - destruct Hin as [E|[]]; discriminate.
  - destruct Hin as [E|[E|[]]]; [|discriminate].
    destruct (write_target_not_other _ _ _ _ _ E).
  - split; [reflexivity|].
    destruct Hin as [E|Hin].
    { destruct (write_target_not_other _ _ _ _ _ E). }
    apply in_app_or in Hin. destruct Hin as [Hin|Hin]; [destruct (Hok _ _ Hin)|].
    destruct Hin as [E|[E|[]]]; [|discriminate].
    injection E as Hname Hm Hr. subst res'.
    exists target, pre, d, post.
    split; [exact Hsel|].
    split; [rewrite <- (skip_target_selected displays target Hlen Hsel); exact Hsplit|].
    split; [symmetry; exact Hname|]. split; [symmetry; exact Hm|].
    rewrite Hname.
    split; [reflexivity|]. split.
    + cbn [change_calls filter is_change write_target]. f_equal.
      fold (change_calls (staged_ok target pre ++ [write_other target d res;
                            ErrRepositionFailed name res])).
      rewrite change_calls_app, staged_ok_change_calls. reflexivity.
    + cbn [filter is_apply write_target]. rewrite filter_app, staged_ok_no_apply.
      reflexivity.
  - destruct Hin as [E|Hin].
    { destruct (write_target_not_other _ _ _ _ _ E). }
    apply in_app_or in Hin. destruct Hin as [Hin|Hin]; [destruct (Hok _ _ Hin)|].
    destruct Hin as [E|[E|[]]]; discriminate.
  - destruct Hin as [E|Hin].
    { destruct (write_target_not_other _ _ _ _ _ E). }
    apply in_app_or in Hin. destruct Hin as [Hin|Hin]; [destruct (Hok _ _ Hin)|].
    destruct Hin as [E|[E|[]]]; discriminate.
Qed.

Lemma shaped_change_calls (target : Display) (r : Z) (ds : list Display)
  (tail : list Event) :
  change_calls (write_target target r :: staged_ok target ds ++ tail) =
  write_target target r :: staged_ok target ds ++ change_calls tail.
Proof.
  cbn [change_calls filter is_change write_target]. f_equal.
  fold (change_calls (staged_ok target ds ++ tail)).
  rewrite change_calls_app, staged_ok_change_calls. reflexivity.
Qed.

Lemma exit_status_inj (a b : Outcome) : exit_status a = exit_status b -> a = b.
Proof. destruct a, b; simpl; intros E; try reflexivity; discriminate E. Qed.

Lemma exit_status_range (o : Outcome) : 0 <= exit_status o <= 5.
Proof. destruct o; simpl; lia. Qed.

Lemma has_primary (displays : list Display) :
  Z.of_nat (List.length displays) <= INT_MAX ->
  0 <= currentPrimary_of displays ->
  existsb isPrimary displays = true.
Proof.
  intros Hlen Hcp.
  destruct (currentPrimary_nonneg displays Hlen Hcp) as (k & Hk & _).
  destruct (existsb isPrimary displays) eqn:Hex; [reflexivity|].
  apply first_primary_none in Hex. congruence.
Qed.

Lemma classify_with_primary (displays : list Display) (evs : list Event) :
  existsb isPrimary displays = true ->
  classify displays evs =
  match first_refused evs with
  | None => Success
  | Some (None, _) => ApplyFailed
  | Some (Some _, flags) =>
    if Z.land flags CDS_SET_PRIMARY =? 0 then OtherWriteFailed
    else TargetWriteFailed
  end.
Proof.
  intros Hex. unfold classify. rewrite Hex.
  destruct displays; [discriminate Hex|reflexivity].
Qed.

Lemma first_refused_refusal (device : option string) (mode : option DEVMODEW)
  (flags res : Z) (rest : list Event) :
  res <> DISP_CHANGE_SUCCESSFUL ->
  first_refused (EvChange device mode flags res :: rest) = Some (device, flags).
Proof.
  intros Hres. cbn [first_refused].
  replace (res =? DISP_CHANGE_SUCCESSFUL) with false
    by (symmetry; apply Z.eqb_neq; exact Hres).
  reflexivity.
Qed.

(** The status a run returns is the ordinal of what happened in it. *)
Lemma Run_classified (displays : list Display) (code : Z) (evs : list Event) :
  Z.of_nat (List.length displays) <= INT_MAX ->
  Run displays code evs ->
  code = exit_status (classify displays evs).
Proof.
  intros Hlen Hshape.
  inversion Hshape as
    [Hnil | Hnn Hneg | Hpos Hsingle | target res Hsel Hres
     | target pre d post res Hsel Hsplit Hres | target res Hsel Hres
     | target Hsel];
    subst code evs.
  - subst displays. reflexivity.
  - apply (currentPrimary_neg displays Hlen) in Hneg.
    unfold classify. rewrite Hneg.
    destruct displays; [contradiction|reflexivity].
  - rewrite classify_with_primary by (apply has_primary; assumption).
    reflexivity.
  - rewrite classify_with_primary by (apply has_primary; [|apply Hsel]; assumption).
    unfold write_target. rewrite first_refused_refusal by exact Hres.
    reflexivity.
  - rewrite classify_with_primary by (apply has_primary; [|apply Hsel]; assumption).
    cbn [first_refused write_target]. cbn [Z.eqb DISP_CHANGE_SUCCESSFUL].
    rewrite first_refused_staged_ok.
    unfold write_other. rewrite first_refused_refusal by exact Hres.
    reflexivity.
  - rewrite classify_with_primary by (apply has_primary; [|apply Hsel]; assumption).
    cbn [first_refused write_target]. cbn [Z.eqb DISP_CHANGE_SUCCESSFUL].
    rewrite first_refused_staged_ok.
    unfold apply_call. rewrite first_refused_refusal by exact Hres.
    reflexivity.
  - rewrite classify_with_primary by (apply has_primary; [|apply Hsel]; assumption).
    cbn [first_refused write_target]. cbn [Z.eqb DISP_CHANGE_SUCCESSFUL].
    rewrite first_refused_staged_ok.
    reflexivity.
Qed.

(** A run that selects a target performs the rotation of the
    specification. *)
Lemma selects_rotation (displays : list Display) (target : Display) :
  Z.of_nat (List.length displays) <= INT_MAX ->
  selects displays target ->
  exists p,
    rotation displays p target /\
    skip_target displays 0 (targetIndex_of displays) = others_of displays p.
Proof.
  intros Hlen (Hcp & Hn & Ht & Hnth).
  destruct (currentPrimary_nonneg displays Hlen Hcp) as (k & Hk & _).
  exists k. split.
  - split; [exact Hk|]. split; [exact Hn|].
    rewrite <- (targetIndex_nat displays k Hlen Hk). exact Hnth.
  - apply skip_target_remove; assumption.
Qed.

Lemma rotation_target (displays : list Display) (p p' : nat)
  (target target' : Display) :
  rotation displays p target -> rotation displays p' target' ->
  p = p' /\ target = target'.
Proof.
  intros (Hp & _ & Hn) (Hp' & _ & Hn').
  assert (E : p = p') by congruence. subst p'.
  split; [reflexivity|congruence].
Qed.

Lemma last_call_eq (h h' x y : Event) (a b : list Event) :
  h :: a ++ [x] = h' :: b ++ [y] -> x = y.
Proof.
  intros E. injection E as _ E. apply app_inj_tail in E. apply E.
Qed.

Lemma one_call_not_more (h h' x : Event) (a : list Event) :
  [h] <> h' :: a ++ [x].
Proof.
  intros E. injection E as _ E. destruct a; discriminate E.
Qed.

(** The snapshot and the service calls of a run admit one outcome only. *)
Lemma Happened_unique (displays : list Display) (calls : list Event)
  (o1 o2 : Outcome) :
  Happened displays calls o1 -> Happened displays calls o2 -> o1 = o2.
Proof.
  intros H1 H2.
  destruct H1 as
    [Hd1 Hc1 | Hd1 Hx1 Hc1 | Hl1 Hx1 Hc1 | p1 t1 Hr1 Hc1 | p1 t1 r1 Hr1 Hn1 Hc1
    | p1 t1 pre1 d1 post1 r1 Hr1 Hs1 Hn1 Hc1 | p1 t1 r1 Hr1 Hn1 Hc1];
  destruct H2 as
    [Hd2 Hc2 | Hd2 Hx2 Hc2 | Hl2 Hx2 Hc2 | p2 t2 Hr2 Hc2 | p2 t2 r2 Hr2 Hn2 Hc2
    | p2 t2 pre2 d2 post2 r2 Hr2 Hs2 Hn2 Hc2 | p2 t2 r2 Hr2 Hn2 Hc2];
  try reflexivity; exfalso;
  try (rewrite Hc1 in Hc2; discriminate Hc2);
  try (rewrite Hd1 in *; first [contradiction | discriminate]);
  try (rewrite Hd2 in *; first [contradiction | discriminate]);
  try congruence;
  rewrite Hc1 in Hc2;
  first
    [ exact (one_call_not_more _ _ _ _ Hc2)
    | exact (one_call_not_more _ _ _ _ (eq_sym Hc2))
    | apply last_call_eq in Hc2; unfold write_other, apply_call in Hc2;
      first [discriminate Hc2 | congruence] ].
Qed.

(** Every shape of run is one of the outcomes, and the status of the run is
    the ordinal of that outcome. *)
Lemma Run_happened (displays : list Display) (code : Z) (evs : list Event) :
  Z.of_nat (List.length displays) <= INT_MAX ->
  Run displays code evs ->
  exists o, Happened displays (change_calls evs) o /\ code = exit_status o.
Proof.
  intros Hlen Hshape.
  inversion Hshape as
    [Hnil | Hnn Hneg | Hpos Hsingle | target res Hsel Hres
     | target pre d post res Hsel Hsplit Hres | target res Hsel Hres
     | target Hsel];
    subst code evs.
  - exists NoDisplays. split; [|reflexivity].
    apply Happened_no_displays; [exact Hnil|reflexivity].
  - exists IndeterminatePrimary. split; [|reflexivity].
    apply Happened_no_primary; [exact Hnn| |reflexivity].
    apply currentPrimary_neg; assumption.
  - exists Success. split; [|reflexivity].
    apply Happened_nothing_to_switch; [exact Hsingle| |reflexivity].
    apply has_primary; assumption.
  - destruct (selects_rotation displays target Hlen Hsel) as (p & Hrot & _).
    exists TargetWriteFailed. split; [|reflexivity].
    apply (Happened_target_refused displays _ p target res Hrot Hres).
    reflexivity.
  - destruct (selects_rotation displays target Hlen Hsel) as (p & Hrot & Hskip).
    exists OtherWriteFailed. split; [|reflexivity].
    apply (Happened_other_refused displays _ p target pre d post res Hrot);
      [rewrite <- Hskip; exact Hsplit|exact Hres|].
    rewrite shaped_change_calls. reflexivity.
  - destruct (selects_rotation displays target Hlen Hsel) as (p & Hrot & Hskip).
    exists ApplyFailed. split; [|reflexivity].
    apply (Happened_apply_refused displays _ p target res Hrot Hres).
    rewrite shaped_change_calls, Hskip. reflexivity.
  - destruct (selects_rotation displays target Hlen Hsel) as (p & Hrot & Hskip).
    exists Success. split; [|reflexivity].
    apply (Happened_switched displays _ p target Hrot).
    rewrite shaped_change_calls, Hskip. reflexivity.
Qed.

(** C7: every run on a snapshot returns, and the status it returns is the
    ordinal of its outcome: 0 for success, 1 for no attached displays, 2 for
    indeterminate primary, 3 for a refused target write, 4 for a refused
    write of another device, 5 for a refused final apply.  The outcome is
    what happened between the run and the service: success is either the
    single-monitor no-op, without a call, or the whole transaction (the
    target written primary at the origin, every other monitor written, the
    apply issued, all accepted); each failure is the sequence of calls up to
    the refused one.  Exactly one of the six outcomes describes the run; it
    is also the outcome read off the first refused call. *)
Theorem C7_exit_status_is_outcome_ordinal (fuel : nat) (w w1 : World OS)
  (found : bool) (displays : list Display) :
  EnumerateDisplays fuel w = Some ((found, displays), w1) ->
  Z.of_nat (List.length displays) <= INT_MAX ->
  exists code w' o,
    SwitchPrimaryToNext fuel w = Some (code, w') /\
    Happened displays (change_calls (events_since w1 w')) o /\
    code = exit_status o /\
    (forall o', Happened displays (change_calls (events_since w1 w')) o' ->
                o' = o) /\
    o = classify displays (events_since w1 w') /\
    0 <= code <= 5 /\
    (forall o', exit_status o' = code <-> o' = o) /\
    exit_status Success = 0 /\
    exit_status NoDisplays = 1 /\
    exit_status IndeterminatePrimary = 2 /\
    exit_status TargetWriteFailed = 3 /\
    exit_status OtherWriteFailed = 4 /\
    exit_status ApplyFailed = 5.
Proof.
  intros Henum Hlen.
  destruct (SwitchPrimaryToNext_run fuel w w1 found displays Henum Hlen)
    as (code & w' & evs & Hrun & Htr & Hshape).
  destruct (Run_happened displays code evs Hlen Hshape) as (o & Hhap & Hcode).
  exists code, w', o.
  rewrite (events_since_app _ _ _ Htr).
  pose proof (Run_classified displays code evs Hlen Hshape) as Hclass.
  split; [exact Hrun|]. split; [exact Hhap|]. split; [exact Hcode|].
  split; [intros o' Ho'; exact (Happened_unique _ _ _ _ Ho' Hhap)|].
  split; [apply exit_status_inj; congruence|].
  split; [rewrite Hcode; apply exit_status_range|].
  split; [|repeat split].
  intros o'. split.
  - intros E. apply exit_status_inj. congruence.
  - intros ->. symmetry. exact Hcode.
Qed.

(** *** Snapshots that differ in their primary flags only *)

Lemma clear_primary_same (d : Display) : same_device (clear_primary d) d.
Proof. split; reflexivity. Qed.

Lemma same_device_refl (d : Display) : same_device d d.
Proof. split; reflexivity. Qed.

Lemma map_clear_primary_same (ds : list Display) :
  Forall2 same_device (map clear_primary ds) ds.
Proof.
  induction ds as [|d rest IH]; constructor;
    [apply clear_primary_same|exact IH].
Qed.

Lemma keep_first_primary_same (ds : list Display) :
  Forall2 same_device (keep_first_primary ds) ds.
Proof.
  induction ds as [|d rest IH]; [constructor|].
  cbn [keep_first_primary]. destruct (isPrimary d).
  - constructor; [apply same_device_refl|apply map_clear_primary_same].
  - constructor; [apply same_device_refl|exact IH].
Qed.

Lemma keep_first_primary_current (ds : list Display) (i : Z) :
  currentPrimary_from (keep_first_primary ds) i = currentPrimary_from ds i.
Proof.
  revert i. induction ds as [|d rest IH]; intros i; [reflexivity|].
  cbn [keep_first_primary]. destruct (isPrimary d) eqn:Hd;
    cbn [currentPrimary_from]; rewrite Hd; [reflexivity|apply IH].
Qed.

Lemma keep_first_primary_only (ds : list Display) (p : nat) :
  first_primary ds = Some p -> primary_only_at p (keep_first_primary ds).
Proof.
  revert p. induction ds as [|d0 rest IH]; intros p Hp; [discriminate|].
  cbn [first_primary keep_first_primary] in *.
  destruct (isPrimary d0) eqn:Hd0.
  - injection Hp as <-. intros i d Hn.
    destruct i as [|i]; cbn [nth_error] in Hn.
    + injection Hn as <-. rewrite Hd0. split; reflexivity.
    + apply nth_error_In, in_map_iff in Hn. destruct Hn as (d' & <- & _).
      cbn. split; discriminate.
  - destruct (first_primary rest) as [k|]; [|discriminate].
    injection Hp as <-. intros i d Hn.
    destruct i as [|i]; cbn [nth_error] in Hn.
    + injection Hn as <-. rewrite Hd0. split; discriminate.
    + specialize (IH k eq_refl i d Hn). rewrite IH. split; lia.
Qed.

Lemma rebased_same (a b : Display) (ox oy : Z) :
  same_device a b -> rebased a ox oy = rebased b ox oy.
Proof. intros [_ Hdm]. unfold rebased. rewrite Hdm. reflexivity. Qed.

Lemma reposition_loop_same (ds' ds : list Display) :
  Forall2 same_device ds' ds ->
  forall (i t ox oy : Z) (w : World OS),
    reposition_loop ds' i t ox oy w = reposition_loop ds i t ox oy w.
Proof.
  induction 1 as [|a b rest' rest Hab Hrest IH]; intros i t ox oy w;
    [reflexivity|].
  cbn [reposition_loop].
  destruct (of_size i =? t); [apply IH|].
  rewrite (rebased_same a b ox oy Hab). destruct Hab as [Hdd _]. rewrite Hdd.
  unfold bind at 1 3.
  destruct (change (Some (DeviceName (dd b))) (Some (rebased b ox oy))
              other_flags w) as [[res w1]|]; [|reflexivity].
  destruct (negb (res =? DISP_CHANGE_SUCCESSFUL)); [reflexivity|apply IH].
Qed.

Lemma Forall2_same_nth (ds' ds : list Display) (n : nat) :
  Forall2 same_device ds' ds ->
  match nth_error ds' n, nth_error ds n with
  | Some a, Some b => same_device a b
  | None, None => True
  | _, _ => False
  end.
Proof.
  intros Hall. revert n.
  induction Hall as [|a b rest' rest Hab Hrest IH]; intros n.
  - destruct n; exact I.
  - destruct n as [|n]; [exact Hab|apply IH].
Qed.

(** Lines 69-133 read the primary flags only to find the current primary. *)
Lemma switch_displays_same (ds' ds : list Display) (w : World OS) :
  Forall2 same_device ds' ds ->
  currentPrimary_of ds' = currentPrimary_of ds ->
  switch_displays ds' w = switch_displays ds w.
Proof.
  intros Hall Hcp.
  assert (Hlen : List.length ds' = List.length ds)
    by (eapply Forall2_length; exact Hall).
  unfold switch_displays, targetIndex_of. rewrite Hcp, Hlen.
  destruct (currentPrimary_of ds <? 0); [reflexivity|].
  destruct (Z.of_nat (List.length ds) =? 1); [reflexivity|].
  unfold bind, vec_at.
  destruct (_ <? 0); [reflexivity|].
  pose proof (Forall2_same_nth ds' ds
    (Z.to_nat (rem (add (currentPrimary_of ds) 1)
                   (of_size (Z.of_nat (List.length ds))))) Hall) as Hnth.
  destruct (nth_error ds' _) as [a|]; destruct (nth_error ds _) as [b|];
    try contradiction; [|reflexivity].
  rewrite (rebased_same a b _ _ Hnth).
  destruct Hnth as [Hdd Hdm]. rewrite Hdd, Hdm.
  destruct (change _ _ _ w) as [[res w1]|]; [|reflexivity].
  destruct (negb (res =? DISP_CHANGE_SUCCESSFUL)); [reflexivity|].
  rewrite (reposition_loop_same ds' ds Hall).
  reflexivity.
Qed.

(** C9: when more than one monitor of the snapshot is flagged primary, the
    run reports no error for it: the search takes the flagged monitor of
    lowest index p as the current primary, the target index is
    (p + 1) mod N, and the run proceeds as on any snapshot: its first call
    is the set-primary write for the monitor at index (p + 1) mod N, its
    calls and its status are those of one of the outcomes of the rotation
    (never "no displays" or "indeterminate primary"), and it returns and
    does exactly what it does on the same snapshot with every later primary
    flag cleared, a snapshot in which p is the only primary. *)
Theorem C9_first_flagged_is_current_primary (fuel : nat) (w w1 : World OS)
  (found : bool) (displays : list Display) (p q : nat) (dq : Display) :
  EnumerateDisplays fuel w = Some ((found, displays), w1) ->
  Z.of_nat (List.length displays) <= INT_MAX ->
  first_primary displays = Some p ->
  (p < q)%nat ->
  nth_error displays q = Some dq ->
  isPrimary dq = true ->
  currentPrimary_of displays = Z.of_nat p /\
  targetIndex_of displays = (Z.of_nat p + 1) mod Z.of_nat (List.length displays) /\
  primary_only_at p (keep_first_primary displays) /\
  exists target res code w' rest o,
    nth_error displays ((p + 1) mod List.length displays) = Some target /\
    SwitchPrimaryToNext fuel w = Some (code, w') /\
    trace w' = trace w1 ++ write_target target res :: rest /\
    Happened displays (change_calls (events_since w1 w')) o /\
    code = exit_status o /\
    code <> 1 /\ code <> 2 /\
    switch_displays (keep_first_primary displays) w1 = Some (code, w').
Proof.
  intros Henum Hlen Hfirst Hpq Hq Hflag.
  assert (Hcp : currentPrimary_of displays = Z.of_nat p).
  { rewrite (currentPrimary_of_first displays Hlen), Hfirst. reflexivity. }
  split; [exact Hcp|].
  split; [exact (targetIndex_of_first displays p Hlen Hfirst)|].
  split; [exact (keep_first_primary_only displays p Hfirst)|].
  destruct (SwitchPrimaryToNext_run fuel w w1 found displays Henum Hlen)
    as (code & w' & evs & Hrun & Htr & Hshape).
  destruct (Run_happened displays code evs Hlen Hshape) as (o & Hhap & Hcode).
  rewrite <- (events_since_app _ _ _ Htr) in Hhap.
  assert (Hne : displays <> []).
  { intros ->. discriminate Hfirst. }
  assert (Hn : (2 <= List.length displays)%nat).
  { assert (q < List.length displays)%nat
      by (apply nth_error_Some; rewrite Hq; discriminate).
    lia. }
  assert (Hsame : switch_displays (keep_first_primary displays) w1 = Some (code, w')).
  { rewrite (switch_displays_same (keep_first_primary displays) displays w1).
    - rewrite (SwitchPrimaryToNext_step _ _ _ _ _ Henum) in Hrun.
      destruct displays; [contradiction|exact Hrun].
    - apply keep_first_primary_same.
    - apply keep_first_primary_current. }
  assert (Htarget : forall target, selects displays target ->
            nth_error displays ((p + 1) mod List.length displays) = Some target).
  { intros target (_ & _ & _ & Hnth).
    rewrite (targetIndex_nat displays p Hlen Hfirst) in Hnth. exact Hnth. }
  assert (Hfirst_call : exists target res rest,
            selects displays target /\
            evs = write_target target res :: rest /\
            code <> 1 /\ code <> 2).
  { clear Hhap Hcode Hsame Hrun Htr.
    inversion Hshape as
      [Hnil | Hnn Hneg | Hpos Hsingle | target res Hsel Hres
       | target pre d post res Hsel Hsplit Hres | target res Hsel Hres | target Hsel];
      subst code evs.
    - contradiction.
    - lia.
    - lia.
    - exists target, res. eexists.
      split; [exact Hsel|]. split; [reflexivity|split; discriminate].
    - exists target, DISP_CHANGE_SUCCESSFUL. eexists.
      split; [exact Hsel|]. split; [reflexivity|split; discriminate].
    - exists target, DISP_CHANGE_SUCCESSFUL. eexists.
      split; [exact Hsel|]. split; [reflexivity|split; discriminate].
    - exists target, DISP_CHANGE_SUCCESSFUL. eexists.
      split; [exact Hsel|]. split; [reflexivity|split; discriminate]. }
  destruct Hfirst_call as (target & res & rest & Hsel & Hevs & Hn1 & Hn2).
  exists target, res, code, w', rest, o.
  split; [apply Htarget, Hsel|]. split; [exact Hrun|].
  split; [rewrite Htr, Hevs; reflexivity|].
  split; [exact Hhap|]. split; [exact Hcode|].
  split; [exact Hn1|]. split; [exact Hn2|exact Hsame].
Qed.

(** *** The settings a run stages *)

Lemma rebased_same_settings (d : Display) (ox oy : Z) :
  same_settings (dm d) (rebased d ox oy).
Proof. repeat split. Qed.

Lemma other_write_origin (displays : list Display) (d : Display) :
  Z.of_nat (List.length displays) <= INT_MAX ->
  In d (skip_target displays 0 (targetIndex_of displays)) ->
  exists i, nth_error displays i = Some d /\
            Z.of_nat i <> targetIndex_of displays.
Proof.
  intros Hlen Hin.
  destruct (skip_target_In _ _ _ _ Hin) as (k & Hk & Hne).
  exists k. split; [exact Hk|].
  assert (Hlt : (k < List.length displays)%nat).
  { apply nth_error_Some. rewrite Hk. discriminate. }
  rewrite Z.add_0_l, of_size_small in Hne by lia. exact Hne.
Qed.

(** Every write of a run stages the rebased settings of a display of the
    snapshot; the write with the set-primary flags is the target's. *)
Lemma Run_writes (displays : list Display) (code : Z) (evs : list Event)
  (name : string) (m : DEVMODEW) (flags res : Z) :
  Z.of_nat (List.length displays) <= INT_MAX ->
  Run displays code evs ->
  In (EvChange (Some name) (Some m) flags res) evs ->
  exists target i d,
    selects displays target /\
    nth_error displays i = Some d /\
    name = DeviceName (dd d) /\
    m = rebased d (offsetX target) (offsetY target) /\
    ((Z.of_nat i = targetIndex_of displays /\ flags = target_flags) \/
     (Z.of_nat i <> targetIndex_of displays /\ flags = other_flags)).
Proof.
  intros Hlen Hshape Hin.
  assert (Htarget : forall target r,
            selects displays target ->
            write_target target r = EvChange (Some name) (Some m) flags res ->
            exists target i d,
              selects displays target /\
              nth_error displays i = Some d /\
              name = DeviceName (dd d) /\
              m = rebased d (offsetX target) (offsetY target) /\
              ((Z.of_nat i = targetIndex_of displays /\ flags = target_flags) \/
               (Z.of_nat i <> targetIndex_of displays /\ flags = other_flags))).
  { intros target r Hsel E. unfold write_target in E.
    injection E as Hname Hm Hflags _.
    exists target, (Z.to_nat (targetIndex_of displays)), target.
    destruct Hsel as (Hcp & Hn & Ht & Hnth).
    split; [repeat split; assumption|].
    split; [exact Hnth|]. split; [symmetry; exact Hname|].
    split; [symmetry; exact Hm|].
    left. split; [lia|symmetry; exact Hflags]. }
  assert (Hother : forall target d r,
            selects displays target ->
            In d (skip_target displays 0 (targetIndex_of displays)) ->
            write_other target d r = EvChange (Some name) (Some m) flags res ->
            exists target i d,
              selects displays target /\
              nth_error displays i = Some d /\
              name = DeviceName (dd d) /\
              m = rebased d (offsetX target) (offsetY target) /\
              ((Z.of_nat i = targetIndex_of displays /\ flags = target_flags) \/
               (Z.of_nat i <> targetIndex_of displays /\ flags = other_flags))).
  { intros target d r Hsel Hd E. unfold write_other in E.
    injection E as Hname Hm Hflags _.
    destruct (other_write_origin displays d Hlen Hd) as (i & Hi & Hne).
    exists target, i, d.
    split; [exact Hsel|]. split; [exact Hi|].
    split; [symmetry; exact Hname|]. split; [symmetry; exact Hm|].
    right. split; [exact Hne|symmetry; exact Hflags]. }
  assert (Hstaged : forall target ds,
            selects displays target ->
            (forall d, In d ds ->
                       In d (skip_target displays 0 (targetIndex_of displays))) ->
            In (EvChange (Some name) (Some m) flags res) (staged_ok target ds) ->
            exists target i d,
              selects displays target /\
              nth_error displays i = Some d /\
              name = DeviceName (dd d) /\
              m = rebased d (offsetX target) (offsetY target) /\
              ((Z.of_nat i = targetIndex_of displays /\ flags = target_flags) \/
               (Z.of_nat i <> targetIndex_of displays /\ flags = other_flags))).
  { intros target ds Hsel Hsub Hs.
    apply staged_ok_In in Hs. destruct Hs as (d & Hd & E).
    apply (Hother target d DISP_CHANGE_SUCCESSFUL Hsel (Hsub d Hd)).
    symmetry. exact E. }
  inversion Hshape as
    [Hnil | Hnn Hneg | Hpos Hsingle | target res' Hsel Hres'
     | target pre d post res' Hsel Hsplit Hres' | target res' Hsel Hres'
     | target Hsel];
    subst code evs.
  - destruct Hin as [E|[]]; discriminate.
  - destruct Hin as [E|[]]; discriminate.
  - destruct Hin as [E|[]]; discriminate.
  - destruct Hin as [E|[E|[]]]; [|discriminate].
    exact (Htarget _ _ Hsel E).
  - destruct Hin as [E|Hin]; [exact (Htarget _ _ Hsel E)|].
    apply in_app_or in Hin. destruct Hin as [Hin|Hin].
    + apply (Hstaged target pre Hsel); [|exact Hin].
      intros d' Hd'. rewrite Hsplit. apply in_or_app. left. exact Hd'.
    + destruct Hin as [E|[E|[]]]; [|discriminate].
      apply (Hother target d res' Hsel); [|exact E].
      rewrite Hsplit. apply in_or_app. right. left. reflexivity.
  - destruct Hin as [E|Hin]; [exact (Htarget _ _ Hsel E)|].
    apply in_app_or in Hin. destruct Hin as [Hin|Hin].
    + eapply (Hstaged target); [exact Hsel| |exact Hin]. intros d' Hd'. exact Hd'.
    + destruct Hin as [E|[E|[]]]; discriminate.
  - destruct Hin as [E|Hin]; [exact (Htarget _ _ Hsel E)|].
    apply in_app_or in Hin. destruct Hin as [Hin|Hin].
    + eapply (Hstaged target); [exact Hsel| |exact Hin]. intros d' Hd'. exact Hd'.
    + destruct Hin as [E|[E|[]]]; discriminate.
Qed.

(** C10: every write of a run stages the snapshot settings of the display
    it addresses with the position replaced by the rebased position and,
    as lines 94 and 112 have it, with the position bit added to the mask of
    valid members; every
    other member (resolution, orientation, refresh rate, colour depth and
    the rest) is written back as read.  The write of the display at the
    target index carries the set-primary flag; the write of any other
    display carries the update and defer flags only. *)
Theorem C10_staged_settings_frame (fuel : nat) (w w1 w' : World OS)
  (found : bool) (displays : list Display) (code : Z)
  (name : string) (m : DEVMODEW) (flags res : Z) :
  EnumerateDisplays fuel w = Some ((found, displays), w1) ->
  Z.of_nat (List.length displays) <= INT_MAX ->
  SwitchPrimaryToNext fuel w = Some (code, w') ->
  In (EvChange (Some name) (Some m) flags res) (events_since w1 w') ->
  exists target i d,
    selects displays target /\
    nth_error displays i = Some d /\
    name = DeviceName (dd d) /\
    same_settings (dm d) m /\
    dmFields m = Z.lor (dmFields (dm d)) DM_POSITION /\
    dmPosition m = new_position target d /\
    ((Z.of_nat i = targetIndex_of displays /\ flags = target_flags) \/
     (Z.of_nat i <> targetIndex_of displays /\ flags = other_flags)) /\
    Z.land target_flags CDS_SET_PRIMARY = CDS_SET_PRIMARY /\
    Z.land other_flags CDS_SET_PRIMARY = 0 /\
    other_flags = Z.lor CDS_UPDATEREGISTRY CDS_NORESET.
Proof.
  intros Henum Hlen Hret Hin.
  destruct (SwitchPrimaryToNext_run fuel w w1 found displays Henum Hlen)
    as (code' & w2 & evs & Hrun & Htr & Hshape).
  rewrite Hret in Hrun. injection Hrun as <- <-.
  rewrite (events_since_app _ _ _ Htr) in Hin.
  destruct (Run_writes displays code evs name m flags res Hlen Hshape Hin)
    as (target & i & d & Hsel & Hi & Hname & Hm & Hflags).
  exists target, i, d.
  split; [exact Hsel|]. split; [exact Hi|]. split; [exact Hname|].
  subst m.
  split; [apply rebased_same_settings|].
  split; [reflexivity|]. split; [reflexivity|].
  split; [exact Hflags|].
  repeat split.
Qed.

End Claims.

(** * The claims on concrete topologies *)

Lemma Mock_enumerates (w : World Mock.OS) :
  Z.of_nat (List.length (Mock.devices (os w))) < Int32.modulus ->
  enumerates (os w) (Mock.enumerated w).
Proof.
  intros Hlen. unfold enumerates, Mock.enumerated.
  rewrite length_map.
  cbn [EnumDisplayDevicesW Mock.service]. unfold Mock.enum_device.
  split; [|split; [|exact Hlen]].
  - intros i d Hi.
    replace (Z.of_nat i <? 0) with false by (symmetry; apply Z.ltb_ge; lia).
    rewrite Nat2Z.id. rewrite nth_error_map in Hi. exact Hi.
  - replace (Z.of_nat (List.length (Mock.devices (os w))) <? 0) with false
      by (symmetry; apply Z.ltb_ge; lia).
    rewrite Nat2Z.id.
    replace (nth_error (Mock.devices (os w)) (List.length (Mock.devices (os w))))
      with (@None (DISPLAY_DEVICEW * option DEVMODEW))
      by (symmetry; apply nth_error_None; lia).
    reflexivity.
Qed.

(** The reader on a mixed enumeration: of five devices only the attached,
    non-mirroring, readable ones "A" and "E" reach the snapshot, and the
    unreadable "D" costs one diagnostic. *)
Lemma C8_witness :
  enumerates (os Mock.mixed) (Mock.enumerated Mock.mixed) /\
  EnumerateDisplays 6 Mock.mixed =
    Some ((true, [Mock.monitor 6 Mock.mixed 0; Mock.monitor 6 Mock.mixed 1]),
          mkWorld (os Mock.mixed) [ErrLastError "EnumDisplaySettingsEx"]) /\
  map (fun d => DeviceName (dd d)) (read_topology (os Mock.mixed) (Mock.enumerated Mock.mixed))
  = ["A"%string; "E"%string].
Proof.
  assert (He : enumerates (os Mock.mixed) (Mock.enumerated Mock.mixed)).
  { apply Mock_enumerates. reflexivity. }
  assert (Hf : (List.length (Mock.enumerated Mock.mixed) < 6)%nat).
  { apply Nat.ltb_lt. reflexivity. }
  destruct (C8_reader_output 6 Mock.mixed (Mock.enumerated Mock.mixed) He Hf)
    as (Hrun & Hdevs & Hset & Hdiag).
  split; [exact He|]. split; [exact Hrun|].
  reflexivity.
Defined.

(** Two monitors with the second one primary: the successor of index 1
    wraps around to index 0. *)
Lemma C1_witness :
  EnumerateDisplays 3 Mock.two_second_primary =
    Some ((true, Mock.snapshot 3 Mock.two_second_primary),
          Mock.after_snapshot 3 Mock.two_second_primary) /\
  primary_only_at 1 (Mock.snapshot 3 Mock.two_second_primary) /\
  targetIndex_of (Mock.snapshot 3 Mock.two_second_primary) = 0 /\
  exists target res code w' rest,
    nth_error (Mock.snapshot 3 Mock.two_second_primary) 0 = Some target /\
    SwitchPrimaryToNext 3 Mock.two_second_primary = Some (code, w') /\
    trace w' = trace (Mock.after_snapshot 3 Mock.two_second_primary)
               ++ write_target target res :: rest.
Proof.
  assert (He : EnumerateDisplays 3 Mock.two_second_primary =
               Some ((true, Mock.snapshot 3 Mock.two_second_primary),
                     Mock.after_snapshot 3 Mock.two_second_primary))
    by (vm_compute; reflexivity).
  assert (Hone : primary_only_at 1 (Mock.snapshot 3 Mock.two_second_primary)).
  { intros i d Hi. destruct i as [|[|i]].
    - vm_compute in Hi. injection Hi as <-. split; [discriminate|lia].
    - vm_compute in Hi. injection Hi as <-. split; reflexivity.
    - destruct i; discriminate Hi. }
  assert (Hn : (2 <= List.length (Mock.snapshot 3 Mock.two_second_primary))%nat)
    by (apply Nat.leb_le; reflexivity).
  assert (Hlen : Z.of_nat (List.length (Mock.snapshot 3 Mock.two_second_primary))
                 <= Int32.INT_MAX)
    by (apply Z.leb_le; reflexivity).
  assert (Hp : (1 < List.length (Mock.snapshot 3 Mock.two_second_primary))%nat)
    by (apply Nat.ltb_lt; reflexivity).
  split; [exact He|]. split; [exact Hone|].
  exact (C1_rotation_selects_successor 3 _ _ true _ 1 He Hn Hlen Hp Hone).
Defined.

(** A single monitor that is not flagged primary: the run returns 2, not 0. *)
Lemma C2_counterexample :
  EnumerateDisplays 2 Mock.lone_secondary =
    Some ((true, [Mock.monitor 2 Mock.lone_secondary 0]),
          Mock.after_snapshot 2 Mock.lone_secondary) /\
  SwitchPrimaryToNext 2 Mock.lone_secondary =
    Some (2, Mock.final 2 Mock.lone_secondary) /\
  ~ (exists w', SwitchPrimaryToNext 2 Mock.lone_secondary = Some (0, w')).
Proof.
  split; [vm_compute; reflexivity|].
  split; [vm_compute; reflexivity|].
  intros (w' & Hrun). vm_compute in Hrun. discriminate Hrun.
Qed.

(** A single monitor flagged primary: success without a service call. *)
Lemma C2_witness :
  EnumerateDisplays 2 Mock.lone_primary =
    Some ((true, [Mock.monitor 2 Mock.lone_primary 0]),
          Mock.after_snapshot 2 Mock.lone_primary) /\
  exists w',
    SwitchPrimaryToNext 2 Mock.lone_primary = Some (0, w') /\
    os w' = os Mock.lone_primary /\
    change_calls (trace w') = change_calls (trace Mock.lone_primary) /\
    events_since (Mock.after_snapshot 2 Mock.lone_primary) w' = [OutOnlyOne].
Proof.
  assert (He : EnumerateDisplays 2 Mock.lone_primary =
               Some ((true, [Mock.monitor 2 Mock.lone_primary 0]),
                     Mock.after_snapshot 2 Mock.lone_primary))
    by (vm_compute; reflexivity).
  split; [exact He|].
  exact (C2_single_monitor_no_writes 2 _ _ true _ He).
Defined.

(** The target at the most negative coordinates: its staged position is
    still (0,0). *)
Lemma C3_witness :
  SwitchPrimaryToNext 3 Mock.two_far_corner =
    Some (0, Mock.final 3 Mock.two_far_corner) /\
  dmPosition (dm (Mock.monitor 3 Mock.two_far_corner 1)) =
    mkPOINTL Int32.INT_MIN Int32.INT_MIN /\
  exists target m rest,
    selects (Mock.snapshot 3 Mock.two_far_corner) target /\
    m = rebased target (Int32.neg (x (dmPosition (dm target))))
                       (Int32.neg (y (dmPosition (dm target)))) /\
    dmPosition m = mkPOINTL 0 0 /\
    Z.land target_flags CDS_SET_PRIMARY = CDS_SET_PRIMARY /\
    trace (Mock.final 3 Mock.two_far_corner) =
      trace (Mock.after_snapshot 3 Mock.two_far_corner)
      ++ EvChange (Some (DeviceName (dd target))) (Some m) target_flags
                  DISP_CHANGE_SUCCESSFUL
      :: rest
      ++ [apply_call DISP_CHANGE_SUCCESSFUL; OutSwitched (DeviceName (dd target))].
Proof.
  assert (He : EnumerateDisplays 3 Mock.two_far_corner =
               Some ((true, Mock.snapshot 3 Mock.two_far_corner),
                     Mock.after_snapshot 3 Mock.two_far_corner))
    by (vm_compute; reflexivity).
  assert (Hlen : Z.of_nat (List.length (Mock.snapshot 3 Mock.two_far_corner))
                 <= Int32.INT_MAX)
    by (apply Z.leb_le; reflexivity).
  assert (Hn : List.length (Mock.snapshot 3 Mock.two_far_corner) <> 1%nat)
    by (vm_compute; discriminate).
  assert (Hret : SwitchPrimaryToNext 3 Mock.two_far_corner =
                 Some (0, Mock.final 3 Mock.two_far_corner))
    by (vm_compute; reflexivity).
  split; [exact Hret|]. split; [vm_compute; reflexivity|].
  exact (C3_target_at_origin 3 _ _ _ true _ He Hlen Hn Hret).
Defined.

(** The example of the specification: A(0,0) primary, B(1920,0),
    C(-1920,0); B becomes primary, A and C move by (-1920,0). *)
Lemma C4_witness :
  SwitchPrimaryToNext 4 Mock.three_ok = Some (0, Mock.final 4 Mock.three_ok) /\
  Mock.staged (os (Mock.final 4 Mock.three_ok)) =
    [("B"%string, mkPOINTL 0 0, true);
     ("A"%string, mkPOINTL (-1920) 0, false);
     ("C"%string, mkPOINTL (-3840) 0, false)] /\
  exists target,
    selects (Mock.snapshot 4 Mock.three_ok) target /\
    trace (Mock.final 4 Mock.three_ok) =
      trace (Mock.after_snapshot 4 Mock.three_ok)
      ++ write_target target DISP_CHANGE_SUCCESSFUL
      :: map (fun d => EvChange (Some (DeviceName (dd d)))
                         (Some (rebased d (offsetX target) (offsetY target)))
                         other_flags DISP_CHANGE_SUCCESSFUL)
             (remove_nth (Z.to_nat (targetIndex_of (Mock.snapshot 4 Mock.three_ok)))
                         (Mock.snapshot 4 Mock.three_ok))
      ++ [apply_call DISP_CHANGE_SUCCESSFUL; OutSwitched (DeviceName (dd target))].
Proof.
  assert (He : EnumerateDisplays 4 Mock.three_ok =
               Some ((true, Mock.snapshot 4 Mock.three_ok),
                     Mock.after_snapshot 4 Mock.three_ok))
    by (vm_compute; reflexivity).
  assert (Hlen : Z.of_nat (List.length (Mock.snapshot 4 Mock.three_ok))
                 <= Int32.INT_MAX)
    by (apply Z.leb_le; reflexivity).
  assert (Hn : List.length (Mock.snapshot 4 Mock.three_ok) <> 1%nat)
    by (vm_compute; discriminate).
  assert (Hret : SwitchPrimaryToNext 4 Mock.three_ok =
                 Some (0, Mock.final 4 Mock.three_ok))
    by (vm_compute; reflexivity).
  split; [exact Hret|]. split; [vm_compute; reflexivity|].
  destruct (C4_translation_invariance 4 _ _ _ true _ He Hlen Hn Hret)
    as (target & Hsel & Htr & _).
  exists target. split; [exact Hsel|exact Htr].
Defined.

(** The service refuses the write for the target "B": one call, status 3. *)
Lemma C5_witness :
  selects (Mock.snapshot 4 Mock.three_reject_B) (Mock.monitor 4 Mock.three_reject_B 1) /\
  SwitchPrimaryToNext 4 Mock.three_reject_B =
    Some (3, mkWorld (os Mock.three_reject_B)
               [write_target (Mock.monitor 4 Mock.three_reject_B 1)
                             Mock.DISP_CHANGE_FAILED;
                ErrSetPrimaryFailed "B" Mock.DISP_CHANGE_FAILED]) /\
  Mock.staged (os (Mock.final 4 Mock.three_reject_B)) = [].
Proof.
  assert (He : EnumerateDisplays 4 Mock.three_reject_B =
               Some ((true, Mock.snapshot 4 Mock.three_reject_B),
                     Mock.after_snapshot 4 Mock.three_reject_B))
    by (vm_compute; reflexivity).
  assert (Hsel : selects (Mock.snapshot 4 Mock.three_reject_B)
                         (Mock.monitor 4 Mock.three_reject_B 1)).
  { unfold selects. split; [apply Z.leb_le; reflexivity|].
    split; [vm_compute; discriminate|].
    split; [apply Z.leb_le; reflexivity|vm_compute; reflexivity]. }
  assert (Hcall :
    ChangeDisplaySettingsExW (os (Mock.after_snapshot 4 Mock.three_reject_B))
      (Some (DeviceName (dd (Mock.monitor 4 Mock.three_reject_B 1))))
      (Some (rebased (Mock.monitor 4 Mock.three_reject_B 1)
               (offsetX (Mock.monitor 4 Mock.three_reject_B 1))
               (offsetY (Mock.monitor 4 Mock.three_reject_B 1))))
      target_flags
    = (Mock.DISP_CHANGE_FAILED, os Mock.three_reject_B))
    by (vm_compute; reflexivity).
  assert (Hres : Mock.DISP_CHANGE_FAILED <> DISP_CHANGE_SUCCESSFUL)
    by discriminate.
  destruct (C5_target_write_failure 4 _ _ true _ _ _ _ He Hsel Hcall Hres)
    as (Hrun & _).
  split; [exact Hsel|]. split; [exact Hrun|].
  vm_compute. reflexivity.
Defined.

(** The service refuses the write for "C", the last non-target: "B" and
    "A" were written before it, nothing is applied, status 4. *)
Lemma C6_witness :
  SwitchPrimaryToNext 4 Mock.three_reject_C =
    Some (4, Mock.final 4 Mock.three_reject_C) /\
  change_calls (events_since (Mock.after_snapshot 4 Mock.three_reject_C)
                             (Mock.final 4 Mock.three_reject_C)) =
    [write_target (Mock.monitor 4 Mock.three_reject_C 1) DISP_CHANGE_SUCCESSFUL;
     write_other (Mock.monitor 4 Mock.three_reject_C 1)
                 (Mock.monitor 4 Mock.three_reject_C 0) DISP_CHANGE_SUCCESSFUL;
     write_other (Mock.monitor 4 Mock.three_reject_C 1)
                 (Mock.monitor 4 Mock.three_reject_C 2) Mock.DISP_CHANGE_FAILED] /\
  filter is_apply (events_since (Mock.after_snapshot 4 Mock.three_reject_C)
                                (Mock.final 4 Mock.three_reject_C)) = [].
Proof.
  assert (He : EnumerateDisplays 4 Mock.three_reject_C =
               Some ((true, Mock.snapshot 4 Mock.three_reject_C),
                     Mock.after_snapshot 4 Mock.three_reject_C))
    by (vm_compute; reflexivity).
  assert (Hlen : Z.of_nat (List.length (Mock.snapshot 4 Mock.three_reject_C))
                 <= Int32.INT_MAX)
    by (apply Z.leb_le; reflexivity).
  assert (Hret : SwitchPrimaryToNext 4 Mock.three_reject_C =
                 Some (4, Mock.final 4 Mock.three_reject_C))
    by (vm_compute; reflexivity).
  assert (Hin : In (EvChange (Some "C"%string)
                      (Some (rebased (Mock.monitor 4 Mock.three_reject_C 2)
                               (offsetX (Mock.monitor 4 Mock.three_reject_C 1))
                               (offsetY (Mock.monitor 4 Mock.three_reject_C 1))))
                      other_flags Mock.DISP_CHANGE_FAILED)
                   (events_since (Mock.after_snapshot 4 Mock.three_reject_C)
                                 (Mock.final 4 Mock.three_reject_C))).
  { vm_compute. right. right. left. reflexivity. }
  assert (Hres : Mock.DISP_CHANGE_FAILED <> DISP_CHANGE_SUCCESSFUL)
    by discriminate.
  destruct (C6_other_write_failure 4 _ _ _ true _ _ _ _ _ He Hlen Hret Hin Hres)
    as (_ & target & pre & d & post & _ & _ & _ & _ & _ & _ & Hnoapply).
  split; [exact Hret|]. split; [vm_compute; reflexivity|exact Hnoapply].
Defined.

(** The service refuses the final apply: status 5, the ordinal of
    [ApplyFailed], after the three writes were accepted. *)
Lemma C7_witness :
  SwitchPrimaryToNext 4 Mock.three_apply_fails =
    Some (5, Mock.final 4 Mock.three_apply_fails) /\
  classify (Mock.snapshot 4 Mock.three_apply_fails)
           (events_since (Mock.after_snapshot 4 Mock.three_apply_fails)
                         (Mock.final 4 Mock.three_apply_fails)) = ApplyFailed /\
  exists code w' o,
    SwitchPrimaryToNext 4 Mock.three_apply_fails = Some (code, w') /\
    Happened (Mock.snapshot 4 Mock.three_apply_fails)
             (change_calls
                (events_since (Mock.after_snapshot 4 Mock.three_apply_fails) w'))
             o /\
    code = exit_status o /\
    (forall o', Happened (Mock.snapshot 4 Mock.three_apply_fails)
                  (change_calls
                     (events_since (Mock.after_snapshot 4 Mock.three_apply_fails) w'))
                  o' -> o' = o) /\
    0 <= code <= 5.
Proof.
  assert (He : EnumerateDisplays 4 Mock.three_apply_fails =
               Some ((true, Mock.snapshot 4 Mock.three_apply_fails),
                     Mock.after_snapshot 4 Mock.three_apply_fails))
    by (vm_compute; reflexivity).
  assert (Hlen : Z.of_nat (List.length (Mock.snapshot 4 Mock.three_apply_fails))
                 <= Int32.INT_MAX)
    by (apply Z.leb_le; reflexivity).
  split; [vm_compute; reflexivity|].
  split; [vm_compute; reflexivity|].
  destruct (C7_exit_status_is_outcome_ordinal 4 _ _ true _ He Hlen)
    as (code & w' & o & Hrun & Hhap & Hcode & Huniq & _ & Hrange & _).
  exists code, w', o.
  split; [exact Hrun|]. split; [exact Hhap|]. split; [exact Hcode|].
  split; [exact Huniq|exact Hrange].
Defined.

(** "B" and "C" are both flagged primary: "B", the first, counts, and the
    run makes "C" the new primary as if "B" alone had been flagged. *)
Lemma C9_witness :
  first_primary (Mock.snapshot 4 Mock.two_primaries) = Some 1%nat /\
  isPrimary (Mock.monitor 4 Mock.two_primaries 2) = true /\
  currentPrimary_of (Mock.snapshot 4 Mock.two_primaries) = 1 /\
  targetIndex_of (Mock.snapshot 4 Mock.two_primaries) = 2 /\
  Mock.staged (os (Mock.final 4 Mock.two_primaries)) =
    [("C"%string, mkPOINTL 0 0, true);
     ("A"%string, mkPOINTL (-3840) 0, false);
     ("B"%string, mkPOINTL (-1920) 0, false)] /\
  exists target res code w' rest o,
    nth_error (Mock.snapshot 4 Mock.two_primaries) 2 = Some target /\
    SwitchPrimaryToNext 4 Mock.two_primaries = Some (code, w') /\
    trace w' = trace (Mock.after_snapshot 4 Mock.two_primaries)
               ++ write_target target res :: rest /\
    Happened (Mock.snapshot 4 Mock.two_primaries)
             (change_calls (events_since (Mock.after_snapshot 4 Mock.two_primaries) w'))
             o /\
    code = exit_status o /\
    code <> 1 /\ code <> 2 /\
    switch_displays (keep_first_primary (Mock.snapshot 4 Mock.two_primaries))
                    (Mock.after_snapshot 4 Mock.two_primaries) = Some (code, w').
Proof.
  assert (He : EnumerateDisplays 4 Mock.two_primaries =
               Some ((true, Mock.snapshot 4 Mock.two_primaries),
                     Mock.after_snapshot 4 Mock.two_primaries))
    by (vm_compute; reflexivity).
  assert (Hlen : Z.of_nat (List.length (Mock.snapshot 4 Mock.two_primaries))
                 <= Int32.INT_MAX)
    by (apply Z.leb_le; reflexivity).
  assert (Hfirst : first_primary (Mock.snapshot 4 Mock.two_primaries) = Some 1%nat)
    by (vm_compute; reflexivity).
  assert (Hpq : (1 < 2)%nat) by lia.
  assert (Hq : nth_error (Mock.snapshot 4 Mock.two_primaries) 2 =
               Some (Mock.monitor 4 Mock.two_primaries 2))
    by (vm_compute; reflexivity).
  assert (Hflag : isPrimary (Mock.monitor 4 Mock.two_primaries 2) = true)
    by (vm_compute; reflexivity).
  destruct (C9_first_flagged_is_current_primary 4 _ _ true _ 1 2 _
              He Hlen Hfirst Hpq Hq Hflag)
    as (Hcp & Ht & _ & Hrun).
  split; [exact Hfirst|]. split; [exact Hflag|].
  split; [exact Hcp|]. split; [exact Ht|].
  split; [vm_compute; reflexivity|exact Hrun].
Defined.

(** Settings read with an empty mask of valid members: the write for "B"
    stages a mask with the position bit, which is not the mask that was
    read. *)
Lemma C10_counterexample :
  EnumerateDisplays 3 Mock.two_unmasked =
    Some ((true, Mock.snapshot 3 Mock.two_unmasked),
          Mock.after_snapshot 3 Mock.two_unmasked) /\
  SwitchPrimaryToNext 3 Mock.two_unmasked =
    Some (0, Mock.final 3 Mock.two_unmasked) /\
  ~ writes_change_position_only
      (Mock.snapshot 3 Mock.two_unmasked)
      (events_since (Mock.after_snapshot 3 Mock.two_unmasked)
                    (Mock.final 3 Mock.two_unmasked)).
Proof.
  split; [vm_compute; reflexivity|].
  split; [vm_compute; reflexivity|].
  intros Hall.
  destruct (Hall "B"%string
              (rebased (Mock.monitor 3 Mock.two_unmasked 1)
                       (offsetX (Mock.monitor 3 Mock.two_unmasked 1))
                       (offsetY (Mock.monitor 3 Mock.two_unmasked 1)))
              target_flags DISP_CHANGE_SUCCESSFUL)
    as (d & Hd & Hname & Hpos).
  { vm_compute. left. reflexivity. }
  vm_compute in Hd. destruct Hd as [<-|[<-|[]]].
  - vm_compute in Hname. discriminate Hname.
  - vm_compute in Hpos. discriminate Hpos.
Qed.

(** The example of the specification again: the write for "A", a
    non-target, keeps every member of the settings read for "A" but the
    position, and carries no set-primary flag. *)
Lemma C10_witness :
  In (EvChange (Some "A"%string)
        (Some (rebased (Mock.monitor 4 Mock.three_ok 0)
                 (offsetX (Mock.monitor 4 Mock.three_ok 1))
                 (offsetY (Mock.monitor 4 Mock.three_ok 1))))
        other_flags DISP_CHANGE_SUCCESSFUL)
     (events_since (Mock.after_snapshot 4 Mock.three_ok) (Mock.final 4 Mock.three_ok)) /\
  exists target i d,
    selects (Mock.snapshot 4 Mock.three_ok) target /\
    nth_error (Mock.snapshot 4 Mock.three_ok) i = Some d /\
    "A"%string = DeviceName (dd d) /\
    same_settings (dm d)
      (rebased (Mock.monitor 4 Mock.three_ok 0)
         (offsetX (Mock.monitor 4 Mock.three_ok 1))
         (offsetY (Mock.monitor 4 Mock.three_ok 1))) /\
    Z.of_nat i <> targetIndex_of (Mock.snapshot 4 Mock.three_ok).
Proof.
  assert (He : EnumerateDisplays 4 Mock.three_ok =
               Some ((true, Mock.snapshot 4 Mock.three_ok),
                     Mock.after_snapshot 4 Mock.three_ok))
    by (vm_compute; reflexivity).
  assert (Hlen : Z.of_nat (List.length (Mock.snapshot 4 Mock.three_ok))
                 <= Int32.INT_MAX)
    by (apply Z.leb_le; reflexivity).
  assert (Hret : SwitchPrimaryToNext 4 Mock.three_ok =
                 Some (0, Mock.final 4 Mock.three_ok))
    by (vm_compute; reflexivity).
  assert (Hin :
    In (EvChange (Some "A"%string)
          (Some (rebased (Mock.monitor 4 Mock.three_ok 0)
                   (offsetX (Mock.monitor 4 Mock.three_ok 1))
                   (offsetY (Mock.monitor 4 Mock.three_ok 1))))
          other_flags DISP_CHANGE_SUCCESSFUL)
       (events_since (Mock.after_snapshot 4 Mock.three_ok)
                     (Mock.final 4 Mock.three_ok))).
  { vm_compute. right. left. reflexivity. }
  split; [exact Hin|].
  destruct (C10_staged_settings_frame 4 _ _ _ true _ _ _ _ _ _ He Hlen Hret Hin)
    as (target & i & d & Hsel & Hi & Hname & Hsame & _ & _ & Hflags & _).
  exists target, i, d.
  split; [exact Hsel|]. split; [exact Hi|]. split; [exact Hname|].
  split; [exact Hsame|].
  destruct Hflags as [[_ Hf]|[Hne _]]; [|exact Hne].
  exfalso. revert Hf. discriminate.
Defined.

(** * Further properties of the program *)

Section Extras.

Context {OS : Type} `{DisplayService OS}.
Import Int32 Int32Facts.

(** Case analysis on the shape of a run, one goal per [return]. *)
Ltac run_cases Hshape :=
  let target := fresh "target" in
  let res' := fresh "res'" in
  let Hsel := fresh "Hsel" in
  let Hres' := fresh "Hres'" in
  inversion Hshape as
    [ ?Hnil | ?Hnn ?Hneg | ?Hpos ?Hsingle | target res' Hsel Hres'
    | target ?pre ?d ?post res' Hsel ?Hsplit Hres' | target res' Hsel Hres'
    | target Hsel ].

Lemma existsb_first_primary (ds : list Display) :
  existsb isPrimary ds = true -> exists k, first_primary ds = Some k.
Proof.
  intros Hex. destruct (first_primary ds) as [k|] eqn:Hk; [exists k; reflexivity|].
  apply first_primary_none in Hk. congruence.
Qed.

Lemma length_remove_nth {A : Type} (t : nat) (l : list A) :
  (t < List.length l)%nat ->
  List.length (remove_nth t l) = (List.length l - 1)%nat.
Proof.
  intros Ht. unfold remove_nth.
  rewrite length_app, length_firstn, length_skipn. lia.
Qed.

Lemma remove_nth_permutation {A : Type} (t : nat) (l : list A) (a : A) :
  nth_error l t = Some a -> Permutation (a :: remove_nth t l) l.
Proof.
  revert l. induction t as [|t IH]; intros l Hn.
  - destruct l as [|b rest]; [discriminate|].
    injection Hn as <-. apply Permutation_refl.
  - destruct l as [|b rest]; [discriminate|].
    cbn [nth_error] in Hn.
    change (remove_nth (S t) (b :: rest)) with (b :: remove_nth t rest).
    eapply perm_trans; [apply perm_swap|].
    apply perm_skip, IH, Hn.
Qed.

Lemma selects_lt (displays : list Display) (target : Display) :
  selects displays target ->
  (Z.to_nat (targetIndex_of displays) < List.length displays)%nat.
Proof.
  intros (_ & _ & _ & Hnth). apply nth_error_Some. rewrite Hnth. discriminate.
Qed.

Lemma written_names_app (a b : list Event) :
  written_names (a ++ b) = written_names a ++ written_names b.
Proof. apply flat_map_app. Qed.

Lemma written_names_staged_ok (target : Display) (ds : list Display) :
  written_names (staged_ok target ds) = map (fun d => DeviceName (dd d)) ds.
Proof.
  induction ds as [|d rest IH]; [reflexivity|].
  cbn. f_equal. exact IH.
Qed.

Lemma length_staged_ok (target : Display) (ds : list Display) :
  List.length (staged_ok target ds) = List.length ds.
Proof. apply length_map. Qed.

(** X1: on a snapshot of at least two monitors with a flagged primary, the
    target index is inside the vector and differs from the index of the
    current primary: the access [displays[targetIndex]] is in bounds and the
    run never selects the monitor that is primary already. *)
Theorem X1_target_is_another_monitor (displays : list Display) :
  (2 <= List.length displays)%nat ->
  Z.of_nat (List.length displays) <= INT_MAX ->
  existsb isPrimary displays = true ->
  0 <= targetIndex_of displays < Z.of_nat (List.length displays) /\
  targetIndex_of displays <> currentPrimary_of displays /\
  exists target, selects displays target.
Proof.
  intros Hn Hlen Hex.
  destruct (existsb_first_primary displays Hex) as (k & Hk).
  pose proof (targetIndex_in_range displays k Hlen Hk) as Hrange.
  pose proof (currentPrimary_of_first displays Hlen) as Hcp. rewrite Hk in Hcp.
  pose proof (first_primary_lt displays k Hk) as Hlt.
  split; [exact Hrange|]. split.
  - rewrite (targetIndex_of_first displays k Hlen Hk), Hcp.
    destruct (Z.eq_dec (Z.of_nat k + 1) (Z.of_nat (List.length displays))) as [E|E].
    + rewrite E, Z.mod_same by lia. lia.
    + rewrite Z.mod_small by lia. lia.
  - assert (Hpos : 0 <= currentPrimary_of displays) by lia.
    destruct (selects_exists displays Hlen Hpos) as (target & Hnth & Ht).
    exists target. unfold selects. repeat split; try assumption. lia.
Qed.

(** X2: the position staged for a monitor is its position relative to the
    target, computed in 32-bit arithmetic: adding the negated coordinate of
    the target is subtracting it, also where the negation itself wraps. *)
Theorem X2_new_position_is_relative (target d : Display) :
  new_position target d =
  mkPOINTL (sub (x (dmPosition (dm d))) (x (dmPosition (dm target))))
           (sub (y (dmPosition (dm d))) (y (dmPosition (dm target)))).
Proof.
  unfold new_position. rewrite rebased_position.
  unfold offsetX, offsetY, add, sub, neg.
  f_equal; apply wrap_congr;
    rewrite <- Zplus_mod_idemp_r, wrap_mod, Zplus_mod_idemp_r; f_equal; lia.
Qed.

(** X3: when the final apply of a run is refused, the run returns 5; by
    then the target and every other monitor of the snapshot have been written
    and accepted, in enumeration order after the target, and the apply, with
    no device, no mode and no flags, is the last call. *)
Theorem X3_apply_refused (fuel : nat) (w w1 w' : World OS) (found : bool)
  (displays : list Display) (code : Z) (mode : option DEVMODEW) (flags res : Z) :
  EnumerateDisplays fuel w = Some ((found, displays), w1) ->
  Z.of_nat (List.length displays) <= INT_MAX ->
  SwitchPrimaryToNext fuel w = Some (code, w') ->
  In (EvChange None mode flags res) (events_since w1 w') ->
  res <> DISP_CHANGE_SUCCESSFUL ->
  code = 5 /\ mode = None /\ flags = 0 /\
  exists target,
    selects displays target /\
    events_since w1 w' =
      write_target target DISP_CHANGE_SUCCESSFUL
      :: staged_ok target (remove_nth (Z.to_nat (targetIndex_of displays)) displays)
      ++ [apply_call res; ErrApplyFailed res].
Proof.
  intros Henum Hlen Hret Hin Hres.
  destruct (SwitchPrimaryToNext_run fuel w w1 found displays Henum Hlen)
    as (code' & w2 & evs & Hrun & Htr & Hshape).
  rewrite Hret in Hrun. injection Hrun as <- <-.
  rewrite (events_since_app _ _ _ Htr) in *. clear Htr Hret.
  assert (Hok : forall target ds,
             ~ In (EvChange None mode flags res) (staged_ok target ds)).
  { intros target ds Hs. apply staged_ok_In in Hs.
    destruct Hs as (d & _ & E). discriminate E. }
  run_cases Hshape; subst code evs.
  - destruct Hin as [E|[]]; discriminate.
  - destruct Hin as [E|[]]; discriminate.
  - destruct Hin as [E|[]]; discriminate.
  - destruct Hin as [E|[E|[]]]; discriminate.
  - destruct Hin as [E|Hin]; [discriminate|].
    apply in_app_or in Hin. destruct Hin as [Hin|Hin]; [destruct (Hok _ _ Hin)|].
    destruct Hin as [E|[E|[]]]; discriminate.
  - destruct Hin as [E|Hin]; [discriminate|].
    apply in_app_or in Hin. destruct Hin as [Hin|Hin]; [destruct (Hok _ _ Hin)|].
    destruct Hin as [E|[E|[]]]; [|discriminate].
    unfold apply_call in E. injection E as <- <- <-.
    repeat split. exists target. split; [exact Hsel|].
    rewrite <- (skip_target_selected displays target Hlen Hsel). reflexivity.
  - destruct Hin as [E|Hin]; [discriminate|].
    apply in_app_or in Hin. destruct Hin as [Hin|Hin]; [destruct (Hok _ _ Hin)|].
    destruct Hin as [E|[E|[]]]; [|discriminate].
    unfold apply_call in E. injection E as _ _ E. destruct (Hres (eq_sym E)).
Qed.

(** X4: a run that returns 0 on a snapshot of more than one monitor has
    written every monitor of the snapshot exactly once: the devices addressed
    by its writes are a permutation of the devices of the snapshot, and the
    run made one service call per monitor plus the one final apply. *)
Theorem X4_success_writes_every_monitor_once (fuel : nat) (w w1 w' : World OS)
  (found : bool) (displays : list Display) :
  EnumerateDisplays fuel w = Some ((found, displays), w1) ->
  Z.of_nat (List.length displays) <= INT_MAX ->
  List.length displays <> 1%nat ->
  SwitchPrimaryToNext fuel w = Some (0, w') ->
  Permutation (written_names (events_since w1 w'))
              (map (fun d => DeviceName (dd d)) displays) /\
  List.length (change_calls (events_since w1 w')) = S (List.length displays) /\
  List.length (filter is_apply (events_since w1 w')) = 1%nat.
Proof.
  intros Henum Hlen Hn Hret.
  destruct (successful_run fuel w w1 w' found displays Henum Hlen Hn Hret)
    as (target & Hsel & Htr).
  rewrite (events_since_app _ _ _ Htr).
  pose proof (selects_lt displays target Hsel) as Hlt.
  destruct Hsel as (_ & _ & _ & Hnth).
  split; [|split].
  - cbn [written_names flat_map write_target app].
    fold (written_names (staged_ok target
            (remove_nth (Z.to_nat (targetIndex_of displays)) displays)
          ++ [apply_call DISP_CHANGE_SUCCESSFUL;
              OutSwitched (DeviceName (dd target))])).
    rewrite written_names_app, written_names_staged_ok. cbn. rewrite app_nil_r.
    change (DeviceName (dd target)
            :: map (fun d => DeviceName (dd d))
                 (remove_nth (Z.to_nat (targetIndex_of displays)) displays))
      with (map (fun d => DeviceName (dd d))
              (target :: remove_nth (Z.to_nat (targetIndex_of displays)) displays)).
    apply Permutation_map, remove_nth_permutation, Hnth.
  - cbn [change_calls filter is_change write_target List.length].
    fold (change_calls (staged_ok target
            (remove_nth (Z.to_nat (targetIndex_of displays)) displays)
          ++ [apply_call DISP_CHANGE_SUCCESSFUL;
              OutSwitched (DeviceName (dd target))])).
    rewrite change_calls_app, staged_ok_change_calls, length_app, length_staged_ok.
    rewrite length_remove_nth by exact Hlt. cbn. lia.
  - cbn [filter is_apply write_target].
    rewrite filter_app, staged_ok_no_apply. reflexivity.
Qed.

(** *** The events of a run that reached the target write *)

Lemma shaped_In (target : Display) (r : Z) (ds : list Display)
  (tail : list Event) (e : Event) :
  In e (write_target target r :: staged_ok target ds ++ tail) ->
  e = write_target target r \/
  (exists d, In d ds /\ e = write_other target d DISP_CHANGE_SUCCESSFUL) \/
  In e tail.
Proof.
  intros [E|Hin]; [left; symmetry; exact E|].
  apply in_app_or in Hin. destruct Hin as [Hin|Hin].
  - right. left. apply staged_ok_In, Hin.
  - right. right. exact Hin.
Qed.

Lemma shaped_applies (target : Display) (r : Z) (ds : list Display)
  (tail : list Event) :
  filter is_apply (write_target target r :: staged_ok target ds ++ tail) =
  filter is_apply tail.
Proof.
  cbn [filter is_apply write_target].
  rewrite filter_app, staged_ok_no_apply. reflexivity.
Qed.

Lemma staged_ok_all_calls (target : Display) (ds : list Display) :
  Forall (fun e => is_change e = true) (staged_ok target ds).
Proof. induction ds as [|d rest IH]; constructor; [reflexivity|exact IH]. Qed.

Lemma skip_target_length (displays : list Display) (target : Display) :
  Z.of_nat (List.length displays) <= INT_MAX ->
  selects displays target ->
  List.length (skip_target displays 0 (targetIndex_of displays)) =
  (List.length displays - 1)%nat.
Proof.
  intros Hlen Hsel.
  rewrite (skip_target_selected displays target Hlen Hsel).
  apply length_remove_nth, (selects_lt displays target Hsel).
Qed.

(** X5: every run makes at most one service call per monitor of the
    snapshot plus one; at most one of its calls is an apply; when it makes
    any call, the first is the write for the target; and an apply is only
    issued by runs that return 0 or 5. *)
Theorem X5_service_call_budget (fuel : nat) (w w1 w' : World OS) (found : bool)
  (displays : list Display) (code : Z) :
  EnumerateDisplays fuel w = Some ((found, displays), w1) ->
  Z.of_nat (List.length displays) <= INT_MAX ->
  SwitchPrimaryToNext fuel w = Some (code, w') ->
  (List.length (change_calls (events_since w1 w')) <= S (List.length displays))%nat /\
  (List.length (filter is_apply (events_since w1 w')) <= 1)%nat /\
  (forall e rest,
     change_calls (events_since w1 w') = e :: rest ->
     exists target r, selects displays target /\ e = write_target target r) /\
  (filter is_apply (events_since w1 w') <> [] -> code = 0 \/ code = 5).
Proof.
  intros Henum Hlen Hret.
  destruct (SwitchPrimaryToNext_run fuel w w1 found displays Henum Hlen)
    as (code' & w2 & evs & Hrun & Htr & Hshape).
  rewrite Hret in Hrun. injection Hrun as <- <-.
  rewrite (events_since_app _ _ _ Htr). clear Htr Hret.
  run_cases Hshape; subst code evs.
  - cbn. repeat split; try lia; try discriminate. intros E. destruct (E eq_refl).
  - cbn. repeat split; try lia; try discriminate. intros E. destruct (E eq_refl).
  - cbn. repeat split; try lia; try discriminate.
  - cbn. split; [lia|]. split; [lia|]. split.
    + intros e rest E. injection E as <- _. exists target, res'.
      split; [exact Hsel|reflexivity].
    + intros E. destruct (E eq_refl).
  - pose proof (skip_target_length displays target Hlen Hsel) as Hskip.
    rewrite Hsplit, length_app in Hskip. cbn [List.length] in Hskip.
    rewrite shaped_change_calls, shaped_applies.
    cbn [change_calls filter is_change is_apply write_other List.length].
    rewrite length_app, length_staged_ok. cbn [List.length].
    split; [lia|]. split; [lia|]. split.
    + intros e rest E. injection E as <- _. exists target, DISP_CHANGE_SUCCESSFUL.
      split; [exact Hsel|reflexivity].
    + intros E. destruct (E eq_refl).
  - pose proof (skip_target_length displays target Hlen Hsel) as Hskip.
    pose proof (selects_lt displays target Hsel) as Hlt.
    rewrite shaped_change_calls, shaped_applies.
    cbn [change_calls filter is_change is_apply apply_call List.length].
    rewrite length_app, length_staged_ok, Hskip. cbn [List.length].
    split; [lia|]. split; [lia|]. split.
    + intros e rest E. injection E as <- _. exists target, DISP_CHANGE_SUCCESSFUL.
      split; [exact Hsel|reflexivity].
    + intros _. right. reflexivity.
  - pose proof (skip_target_length displays target Hlen Hsel) as Hskip.
    pose proof (selects_lt displays target Hsel) as Hlt.
    rewrite shaped_change_calls, shaped_applies.
    cbn [change_calls filter is_change is_apply apply_call List.length].
    rewrite length_app, length_staged_ok, Hskip. cbn [List.length].
    split; [lia|]. split; [lia|]. split.
    + intros e rest E. injection E as <- _. exists target, DISP_CHANGE_SUCCESSFUL.
      split; [exact Hsel|reflexivity].
    + intros _. left. reflexivity.
Qed.

(** X6: after the enumeration every run writes exactly one console line,
    and it is the last thing the run does: everything before it is a service
    call.  The line goes to the standard output exactly when the run returns
    0, and to the standard error otherwise. *)
Theorem X6_one_closing_console_line (fuel : nat) (w w1 w' : World OS)
  (found : bool) (displays : list Display) (code : Z) :
  EnumerateDisplays fuel w = Some ((found, displays), w1) ->
  Z.of_nat (List.length displays) <= INT_MAX ->
  SwitchPrimaryToNext fuel w = Some (code, w') ->
  exists calls line,
    events_since w1 w' = calls ++ [line] /\
    Forall (fun e => is_change e = true) calls /\
    is_stdout line = (code =? 0) /\
    is_stderr line = negb (code =? 0).
Proof.
  intros Henum Hlen Hret.
  destruct (SwitchPrimaryToNext_run fuel w w1 found displays Henum Hlen)
    as (code' & w2 & evs & Hrun & Htr & Hshape).
  rewrite Hret in Hrun. injection Hrun as <- <-.
  rewrite (events_since_app _ _ _ Htr). clear Htr Hret.
  run_cases Hshape; subst code evs.
  - exists [], ErrNoDisplays. repeat split. constructor.
  - exists [], ErrNoPrimary. repeat split. constructor.
  - exists [], OutOnlyOne. repeat split. constructor.
  - exists [write_target target res'],
           (ErrSetPrimaryFailed (DeviceName (dd target)) res').
    repeat split. repeat constructor.
  - exists (write_target target DISP_CHANGE_SUCCESSFUL
            :: staged_ok target pre ++ [write_other target d res']),
           (ErrRepositionFailed (DeviceName (dd d)) res').
    split; [cbn [app]; rewrite <- app_assoc; reflexivity|].
    split; [|split; reflexivity].
    constructor; [reflexivity|].
    apply Forall_app. split; [apply staged_ok_all_calls|repeat constructor].
  - exists (write_target target DISP_CHANGE_SUCCESSFUL
            :: staged_ok target (skip_target displays 0 (targetIndex_of displays))
            ++ [apply_call res']),
           (ErrApplyFailed res').
    split; [cbn [app]; rewrite <- app_assoc; reflexivity|].
    split; [|split; reflexivity].
    constructor; [reflexivity|].
    apply Forall_app. split; [apply staged_ok_all_calls|repeat constructor].
  - exists (write_target target DISP_CHANGE_SUCCESSFUL
            :: staged_ok target (skip_target displays 0 (targetIndex_of displays))
            ++ [apply_call DISP_CHANGE_SUCCESSFUL]),
           (OutSwitched (DeviceName (dd target))).
    split; [cbn [app]; rewrite <- app_assoc; reflexivity|].
    split; [|split; reflexivity].
    constructor; [reflexivity|].
    apply Forall_app. split; [apply staged_ok_all_calls|repeat constructor].
Qed.

(** *** The reader on an arbitrary service *)

Lemma uwrap_range (z : Z) : 0 <= uwrap z < modulus.
Proof. apply Z.mod_pos_bound, modulus_pos. Qed.

Lemma EnumerateDisplays_loop_members (P : Display -> Prop) (o : OS) :
  (forall i dev m,
     0 <= i < modulus ->
     EnumDisplayDevicesW o i = Some dev ->
     is_attached dev = true -> is_mirroring dev = false ->
     EnumDisplaySettingsExW o (DeviceName dev) = Some m ->
     P (mkDisplay dev m (is_primary_device dev))) ->
  forall (fuel : nat) (i : Z) (out ds : list Display) (w w' : World OS),
    os w = o ->
    0 <= i < modulus ->
    Forall P out ->
    EnumerateDisplays_loop fuel i out w = Some (ds, w') ->
    Forall P ds.
Proof.
  intros Hstep.
  induction fuel as [|fuel IH]; intros i out ds w w' Hos Hi Hout Hrun;
    [discriminate|].
  cbn [EnumerateDisplays_loop] in Hrun. rewrite Hos in Hrun.
  destruct (EnumDisplayDevicesW o i) as [dev|] eqn:Hdev.
  2:{ injection Hrun as <- _. exact Hout. }
  pose proof (uwrap_range (i + 1)) as Hnext.
  destruct (Z.land (StateFlags dev) DISPLAY_DEVICE_ATTACHED_TO_DESKTOP =? 0) eqn:Hatt;
    [exact (IH _ _ _ _ _ Hos Hnext Hout Hrun)|].
  destruct (Z.land (StateFlags dev) DISPLAY_DEVICE_MIRRORING_DRIVER =? 0) eqn:Hmir;
    cbn [negb] in Hrun; [|exact (IH _ _ _ _ _ Hos Hnext Hout Hrun)].
  destruct (EnumDisplaySettingsExW o (DeviceName dev)) as [m|] eqn:Hread.
  - apply (IH _ _ _ _ _ Hos Hnext) in Hrun; [exact Hrun|].
    apply Forall_app. split; [exact Hout|].
    constructor; [|constructor].
    apply (Hstep i dev m Hi Hdev); [| |exact Hread].
    + unfold is_attached. rewrite Hatt. reflexivity.
    + unfold is_mirroring. rewrite Hmir. reflexivity.
  - unfold bind, emit in Hrun.
    eapply IH; [|exact Hnext|exact Hout|exact Hrun]. exact Hos.
Qed.

(** What holds of every monitor of a snapshot, on any service. *)
Lemma snapshot_member_facts (fuel : nat) (w w1 : World OS) (found : bool)
  (displays : list Display) :
  EnumerateDisplays fuel w = Some ((found, displays), w1) ->
  Forall
    (fun d =>
       (exists i, 0 <= i < modulus /\ EnumDisplayDevicesW (os w) i = Some (dd d)) /\
       is_attached (dd d) = true /\
       is_mirroring (dd d) = false /\
       EnumDisplaySettingsExW (os w) (DeviceName (dd d)) = Some (dm d) /\
       isPrimary d = is_primary_device (dd d))
    displays.
Proof.
  intros Henum.
  destruct (EnumerateDisplays_found _ _ _ _ _ Henum) as [_ Hloop].
  eapply (EnumerateDisplays_loop_members _ (os w))
    with (fuel := fuel) (i := 0) (out := []) (w := w) (w' := w1).
  - intros i dev m Hi Hdev Hatt Hmir Hread. cbn.
    split; [exists i; split; assumption|]. repeat split; assumption.
  - reflexivity.
  - split; [lia|apply modulus_pos].
  - constructor.
  - exact Hloop.
Qed.

(** X7: whatever the service answers, every monitor of a snapshot the
    reader returns comes from a device the service reported at some index,
    is attached to the desktop, is not a mirroring driver, carries the
    settings the service returned for its name, and is flagged primary
    exactly when the device has the primary-device flag. *)
Theorem X7_snapshot_members (fuel : nat) (w w1 : World OS) (found : bool)
  (displays : list Display) (d : Display) :
  EnumerateDisplays fuel w = Some ((found, displays), w1) ->
  In d displays ->
  (exists i, 0 <= i < modulus /\ EnumDisplayDevicesW (os w) i = Some (dd d)) /\
  is_attached (dd d) = true /\
  is_mirroring (dd d) = false /\
  EnumDisplaySettingsExW (os w) (DeviceName (dd d)) = Some (dm d) /\
  isPrimary d = is_primary_device (dd d).
Proof.
  intros Henum Hin.
  pose proof (snapshot_member_facts fuel w w1 found displays Henum) as Hall.
  rewrite Forall_forall in Hall.
  exact (Hall d Hin).
Qed.

Lemma EnumerateDisplays_loop_never_ends (o : OS) :
  never_ends o ->
  forall (fuel : nat) (i : Z) (out : list Display) (w : World OS),
    os w = o -> 0 <= i < modulus ->
    EnumerateDisplays_loop fuel i out w = None.
Proof.
  intros Hnever.
  induction fuel as [|fuel IH]; intros i out w Hos Hi; [reflexivity|].
  cbn [EnumerateDisplays_loop]. rewrite Hos.
  destruct (EnumDisplayDevicesW o i) as [dev|] eqn:Hdev;
    [|destruct (Hnever i Hi Hdev)].
  pose proof (uwrap_range (i + 1)) as Hnext.
  destruct (Z.land (StateFlags dev) DISPLAY_DEVICE_ATTACHED_TO_DESKTOP =? 0);
    [apply IH; assumption|].
  destruct (negb (Z.land (StateFlags dev) DISPLAY_DEVICE_MIRRORING_DRIVER =? 0));
    [apply IH; assumption|].
  destruct (EnumDisplaySettingsExW o (DeviceName dev)) as [m|];
    [apply IH; assumption|].
  unfold bind, emit. apply IH; [exact Hos|exact Hnext].
Qed.

(** X8: the enumeration loop ends only on a FALSE answer of the service.
    Against a service that reports a device at every index of a [DWORD] the
    reader never returns, however many iterations it is given, and neither
    does the function nor the process: no status, no write. *)
Theorem X8_reader_needs_an_end (parent : bool) (fuel : nat) (w : World OS) :
  never_ends (os w) ->
  EnumerateDisplays fuel w = None /\
  SwitchPrimaryToNext fuel w = None /\
  wWinMain parent fuel w = None.
Proof.
  intros Hnever.
  assert (Hloop : EnumerateDisplays fuel w = None).
  { unfold EnumerateDisplays, bind.
    rewrite (EnumerateDisplays_loop_never_ends (os w) Hnever fuel 0 [] w eq_refl);
      [reflexivity|].
    split; [lia|apply modulus_pos]. }
  assert (Hrun : SwitchPrimaryToNext fuel w = None).
  { unfold SwitchPrimaryToNext, bind at 1. rewrite Hloop. reflexivity. }
  split; [exact Hloop|]. split; [exact Hrun|].
  unfold wWinMain, bind. rewrite Hrun. reflexivity.
Qed.

(** *** Masks and flags of the staged calls *)

Lemma lor_absorb (f b : Z) : Z.land f b = b -> Z.lor f b = f.
Proof.
  intros Hland. apply Z.bits_inj'. intros n _.
  rewrite Z.lor_spec.
  apply (f_equal (fun z => Z.testbit z n)) in Hland.
  rewrite Z.land_spec in Hland.
  destruct (Z.testbit f n), (Z.testbit b n); try reflexivity; discriminate Hland.
Qed.

Lemma rebased_position_only (d : Display) (ox oy : Z) :
  position_masked d -> position_only (dm d) (rebased d ox oy).
Proof.
  unfold position_masked, position_only, rebased, set_dmFields, set_dmPosition.
  intros Hmask. cbn. rewrite (lor_absorb _ _ Hmask). reflexivity.
Qed.

(** X9: when the settings read for every monitor of the snapshot already
    have the position bit in their mask of valid members, every write of the
    run stages the snapshot settings of its monitor with the position
    changed and nothing else. *)
Theorem X9_masked_settings_change_position_only (fuel : nat)
  (w w1 w' : World OS) (found : bool) (displays : list Display) (code : Z) :
  EnumerateDisplays fuel w = Some ((found, displays), w1) ->
  Z.of_nat (List.length displays) <= INT_MAX ->
  SwitchPrimaryToNext fuel w = Some (code, w') ->
  (forall d, In d displays -> position_masked d) ->
  writes_change_position_only displays (events_since w1 w').
Proof.
  intros Henum Hlen Hret Hmask name m flags res Hin.
  destruct (SwitchPrimaryToNext_run fuel w w1 found displays Henum Hlen)
    as (code' & w2 & evs & Hrun & Htr & Hshape).
  rewrite Hret in Hrun. injection Hrun as <- <-.
  rewrite (events_since_app _ _ _ Htr) in Hin.
  destruct (Run_writes displays code evs name m flags res Hlen Hshape Hin)
    as (target & i & d & _ & Hi & Hname & Hm & _).
  assert (Hd : In d displays) by (eapply nth_error_In; exact Hi).
  exists d. split; [exact Hd|]. split; [symmetry; exact Hname|].
  subst m. apply rebased_position_only, Hmask, Hd.
Qed.

(** X10: in every run, a service call that names a device passes settings
    and carries both the update-registry and the no-reset flag, so no write
    is applied on its own; the only call without a device is the apply, and
    it passes neither settings nor flags. *)
Theorem X10_writes_are_deferred (fuel : nat) (w w1 w' : World OS) (found : bool)
  (displays : list Display) (code : Z)
  (device : option string) (mode : option DEVMODEW) (flags res : Z) :
  EnumerateDisplays fuel w = Some ((found, displays), w1) ->
  Z.of_nat (List.length displays) <= INT_MAX ->
  SwitchPrimaryToNext fuel w = Some (code, w') ->
  In (EvChange device mode flags res) (events_since w1 w') ->
  match device with
  | Some _ =>
    mode <> None /\
    Z.land flags CDS_NORESET = CDS_NORESET /\
    Z.land flags CDS_UPDATEREGISTRY = CDS_UPDATEREGISTRY
  | None => mode = None /\ flags = 0
  end.
Proof.
  intros Henum Hlen Hret Hin.
  destruct (SwitchPrimaryToNext_run fuel w w1 found displays Henum Hlen)
    as (code' & w2 & evs & Hrun & Htr & Hshape).
  rewrite Hret in Hrun. injection Hrun as <- <-.
  rewrite (events_since_app _ _ _ Htr) in Hin. clear Htr Hret.
  assert (Htarget : forall target r,
            write_target target r = EvChange device mode flags res ->
            match device with
            | Some _ =>
              mode <> None /\
              Z.land flags CDS_NORESET = CDS_NORESET /\
              Z.land flags CDS_UPDATEREGISTRY = CDS_UPDATEREGISTRY
            | None => mode = None /\ flags = 0
            end).
  { intros target r E. unfold write_target in E. injection E as <- <- <- _.
    split; [discriminate|split; reflexivity]. }
  assert (Hother : forall target d r,
            write_other target d r = EvChange device mode flags res ->
            match device with
            | Some _ =>
              mode <> None /\
              Z.land flags CDS_NORESET = CDS_NORESET /\
              Z.land flags CDS_UPDATEREGISTRY = CDS_UPDATEREGISTRY
            | None => mode = None /\ flags = 0
            end).
  { intros target d r E. unfold write_other in E. injection E as <- <- <- _.
    split; [discriminate|split; reflexivity]. }
  assert (Happly : forall r,
            apply_call r = EvChange device mode flags res ->
            match device with
            | Some _ =>
              mode <> None /\
              Z.land flags CDS_NORESET = CDS_NORESET /\
              Z.land flags CDS_UPDATEREGISTRY = CDS_UPDATEREGISTRY
            | None => mode = None /\ flags = 0
            end).
  { intros r E. unfold apply_call in E. injection E as <- <- <- _.
    split; reflexivity. }
  run_cases Hshape; subst code evs.
  - destruct Hin as [E|[]]; discriminate.
  - destruct Hin as [E|[]]; discriminate.
  - destruct Hin as [E|[]]; discriminate.
  - destruct Hin as [E|[E|[]]]; [exact (Htarget _ _ E)|discriminate].
  - apply shaped_In in Hin.
    destruct Hin as [E|[(d' & _ & E)|[E|[E|[]]]]].
    + exact (Htarget _ _ (eq_sym E)).
    + exact (Hother _ _ _ (eq_sym E)).
    + exact (Hother _ _ _ E).
    + discriminate.
  - apply shaped_In in Hin.
    destruct Hin as [E|[(d' & _ & E)|[E|[E|[]]]]].
    + exact (Htarget _ _ (eq_sym E)).
    + exact (Hother _ _ _ (eq_sym E)).
    + exact (Happly _ E).
    + discriminate.
  - apply shaped_In in Hin.
    destruct Hin as [E|[(d' & _ & E)|[E|[E|[]]]]].
    + exact (Htarget _ _ (eq_sym E)).
    + exact (Hother _ _ _ (eq_sym E)).
    + exact (Happly _ E).
    + discriminate.
Qed.

(** *** From the devices of the service to the exit status of the process *)

Lemma reader_run (fuel : nat) (w : World OS) (devs : list DISPLAY_DEVICEW) :
  enumerates (os w) devs ->
  (List.length devs < fuel)%nat ->
  EnumerateDisplays fuel w =
    Some ((not_empty (read_topology (os w) devs), read_topology (os w) devs),
          mkWorld (os w) (trace w ++ read_diagnostics (os w) devs)).
Proof.
  intros (Hdev & Hend & Hbound) Hfuel.
  unfold EnumerateDisplays, bind.
  rewrite (EnumerateDisplays_loop_reads devs fuel 0 [] w); try lia.
  - reflexivity.
  - intros j d Hj. apply Hdev. exact Hj.
  - exact Hend.
Qed.

Lemma wWinMain_status (parent : bool) (fuel : nat) (w w' : World OS) (code : Z) :
  SwitchPrimaryToNext fuel w = Some (code, w') ->
  wWinMain parent fuel w = Some ((AttachParentConsoleIfPresent parent, code), w').
Proof. intros Hrun. unfold wWinMain, bind. rewrite Hrun. reflexivity. Qed.

Lemma read_topology_In (o : OS) (devs : list DISPLAY_DEVICEW) (d : Display) :
  In d (read_topology o devs) <->
  exists dev m,
    In dev devs /\ is_attached dev = true /\ is_mirroring dev = false /\
    EnumDisplaySettingsExW o (DeviceName dev) = Some m /\
    d = mkDisplay dev m (is_primary_device dev).
Proof.
  unfold read_topology, candidates. rewrite in_flat_map. split.
  - intros (dev & Hdev & Hd). apply filter_In in Hdev.
    destruct Hdev as [Hdev Hcand]. apply andb_prop in Hcand.
    destruct Hcand as [Hatt Hmir]. apply negb_true_iff in Hmir.
    destruct (EnumDisplaySettingsExW o (DeviceName dev)) as [m|] eqn:Hread;
      [|contradiction].
    destruct Hd as [<-|[]]. exists dev, m. repeat split; assumption.
  - intros (dev & m & Hdev & Hatt & Hmir & Hread & ->).
    exists dev. split.
    + apply filter_In. split; [exact Hdev|]. rewrite Hatt, Hmir. reflexivity.
    + rewrite Hread. left. reflexivity.
Qed.

Lemma read_topology_length (o : OS) (devs : list DISPLAY_DEVICEW) :
  (List.length (read_topology o devs) <= List.length devs)%nat.
Proof.
  induction devs as [|dev rest IH]; [apply Nat.le_refl|].
  rewrite read_topology_cons. cbn [List.length].
  destruct (is_attached dev && negb (is_mirroring dev)); [|lia].
  destruct (EnumDisplaySettingsExW o (DeviceName dev)); cbn [List.length]; lia.
Qed.

Lemma no_primary_index (displays : list Display) :
  existsb isPrimary displays = false -> currentPrimary_of displays = -1.
Proof.
  intros Hex. unfold currentPrimary_of. rewrite currentPrimary_from_first.
  apply first_primary_none in Hex. rewrite Hex. reflexivity.
Qed.

(** The two discovery failures leave the service alone. *)
Lemma discovery_failure_run (fuel : nat) (w w1 : World OS) (found : bool)
  (displays : list Display) :
  EnumerateDisplays fuel w = Some ((found, displays), w1) ->
  existsb isPrimary displays = false ->
  SwitchPrimaryToNext fuel w =
  Some (match displays with [] => 1 | _ :: _ => 2 end,
        mkWorld (os w)
          (trace w1 ++ [match displays with
                        | [] => ErrNoDisplays
                        | _ :: _ => ErrNoPrimary
                        end])).
Proof.
  intros Henum Hex.
  destruct (EnumerateDisplays_read_only _ _ _ _ _ Henum) as [Hos _].
  rewrite (SwitchPrimaryToNext_step _ _ _ _ _ Henum).
  destruct displays as [|d0 rest] eqn:Hds; [rewrite Hos; reflexivity|].
  rewrite <- Hds in *. unfold switch_displays.
  rewrite (no_primary_index displays Hex). cbn. rewrite Hos. reflexivity.
Qed.

(** X11: end to end, on a service that enumerates the devices [devs], the
    process exits with status 1 exactly when no device is at once attached
    to the desktop, not a mirroring driver and readable; it then has made no
    service call and left the service state as it was. *)
Theorem X11_status_1_iff_no_usable_device (parent : bool) (fuel : nat)
  (w : World OS) (devs : list DISPLAY_DEVICEW) :
  enumerates (os w) devs ->
  (List.length devs < fuel)%nat ->
  Z.of_nat (List.length devs) <= INT_MAX ->
  exists code w',
    wWinMain parent fuel w = Some ((AttachParentConsoleIfPresent parent, code), w') /\
    (code = 1 <->
     forall dev, In dev devs ->
                 is_attached dev = false \/ is_mirroring dev = true \/
                 EnumDisplaySettingsExW (os w) (DeviceName dev) = None) /\
    (code = 1 ->
     os w' = os w /\ change_calls (trace w') = change_calls (trace w)).
Proof.
  intros Hen Hfuel Hmax.
  pose proof (reader_run fuel w devs Hen Hfuel) as Henum.
  pose proof (read_topology_length (os w) devs) as Hle.
  assert (Hlen : Z.of_nat (List.length (read_topology (os w) devs)) <= INT_MAX)
    by lia.
  destruct (SwitchPrimaryToNext_run _ _ _ _ _ Henum Hlen)
    as (code & w' & evs & Hrun & Htr & Hshape).
  exists code, w'. split; [apply wWinMain_status, Hrun|].
  assert (Hempty : read_topology (os w) devs = [] <->
            forall dev, In dev devs ->
              is_attached dev = false \/ is_mirroring dev = true \/
              EnumDisplaySettingsExW (os w) (DeviceName dev) = None).
  { split.
    - intros Hnil dev Hdev.
      destruct (is_attached dev) eqn:Hatt; [|left; reflexivity].
      destruct (is_mirroring dev) eqn:Hmir; [right; left; reflexivity|].
      destruct (EnumDisplaySettingsExW (os w) (DeviceName dev)) as [m|] eqn:Hread;
        [|right; right; reflexivity].
      assert (Hin : In (mkDisplay dev m (is_primary_device dev))
                       (read_topology (os w) devs)).
      { apply read_topology_In. exists dev, m. repeat split; assumption. }
      rewrite Hnil in Hin. contradiction.
    - intros Hnone.
      destruct (read_topology (os w) devs) as [|d rest] eqn:Hrt; [reflexivity|].
      assert (Hin : In d (read_topology (os w) devs))
        by (rewrite Hrt; left; reflexivity).
      apply read_topology_In in Hin.
      destruct Hin as (dev & m & Hdev & Hatt & Hmir & Hread & _).
      destruct (Hnone dev Hdev) as [E|[E|E]]; congruence. }
  assert (Hcode : code = 1 <-> read_topology (os w) devs = []).
  { split.
    - intros ->. inversion Hshape. assumption.
    - intros Hnil.
      pose proof (discovery_failure_run _ _ _ _ _ Henum) as Hfail.
      rewrite Hnil in Hfail. specialize (Hfail eq_refl).
      rewrite Hrun in Hfail. injection Hfail as -> _. reflexivity. }
  split; [rewrite Hcode; exact Hempty|].
  intros Hone. apply Hcode in Hone.
  pose proof (discovery_failure_run _ _ _ _ _ Henum) as Hfail.
  rewrite Hone in Hfail. specialize (Hfail eq_refl).
  rewrite Hrun in Hfail. injection Hfail as _ ->.
  split; [reflexivity|].
  cbn [trace]. rewrite change_calls_app, change_calls_app.
  replace (change_calls (read_diagnostics (os w) devs)) with (@nil Event).
  - cbn. rewrite !app_nil_r. reflexivity.
  - symmetry. unfold read_diagnostics, change_calls.
    induction (candidates devs) as [|dev rest IH]; [reflexivity|].
    cbn [flat_map]. rewrite filter_app, IH.
    destruct (EnumDisplaySettingsExW (os w) (DeviceName dev)); reflexivity.
Qed.

(** X12: end to end, on a service that enumerates the devices [devs], the
    process exits with status 2 exactly when some device is usable
    (attached, not mirroring, readable) and no usable device has the
    primary-device flag; a primary flag on a detached, mirroring or
    unreadable device does not count.  The process then has made no service
    call and left the service state as it was. *)
Theorem X12_status_2_iff_no_usable_primary (parent : bool) (fuel : nat)
  (w : World OS) (devs : list DISPLAY_DEVICEW) :
  enumerates (os w) devs ->
  (List.length devs < fuel)%nat ->
  Z.of_nat (List.length devs) <= INT_MAX ->
  exists code w',
    wWinMain parent fuel w = Some ((AttachParentConsoleIfPresent parent, code), w') /\
    (code = 2 <->
     (exists dev, In dev devs /\ is_attached dev = true /\
                  is_mirroring dev = false /\
                  EnumDisplaySettingsExW (os w) (DeviceName dev) <> None) /\
     (forall dev, In dev devs -> is_attached dev = true ->
                  is_mirroring dev = false ->
                  EnumDisplaySettingsExW (os w) (DeviceName dev) <> None ->
                  is_primary_device dev = false)) /\
    (code = 2 ->
     os w' = os w /\ change_calls (trace w') = change_calls (trace w)).
Proof.
  intros Hen Hfuel Hmax.
  pose proof (reader_run fuel w devs Hen Hfuel) as Henum.
  pose proof (read_topology_length (os w) devs) as Hle.
  assert (Hlen : Z.of_nat (List.length (read_topology (os w) devs)) <= INT_MAX)
    by lia.
  destruct (EnumerateDisplays_read_only _ _ _ _ _ Henum) as [_ Hcalls].
  destruct (SwitchPrimaryToNext_run _ _ _ _ _ Henum Hlen)
    as (code & w' & evs & Hrun & Htr & Hshape).
  exists code, w'. split; [apply wWinMain_status, Hrun|].
  assert (Hcode : code = 2 <->
            read_topology (os w) devs <> [] /\
            existsb isPrimary (read_topology (os w) devs) = false).
  { split.
    - intros ->. inversion Hshape. split; [assumption|].
      apply currentPrimary_neg; assumption.
    - intros [Hne Hex].
      pose proof (discovery_failure_run _ _ _ _ _ Henum Hex) as Hfail.
      rewrite Hrun in Hfail.
      destruct (read_topology (os w) devs); [contradiction|].
      injection Hfail as -> _. reflexivity. }
  split.
  - rewrite Hcode. split.
    + intros [Hne Hex]. split.
      * destruct (read_topology (os w) devs) as [|d rest] eqn:Hrt; [contradiction|].
        assert (Hin : In d (read_topology (os w) devs))
          by (rewrite Hrt; left; reflexivity).
        apply read_topology_In in Hin.
        destruct Hin as (dev & m & Hdev & Hatt & Hmir & Hread & _).
        exists dev. repeat split; try assumption. rewrite Hread. discriminate.
      * intros dev Hdev Hatt Hmir Hread.
        destruct (EnumDisplaySettingsExW (os w) (DeviceName dev)) as [m|] eqn:Hm;
          [|contradiction].
        assert (Hin : In (mkDisplay dev m (is_primary_device dev))
                         (read_topology (os w) devs)).
        { apply read_topology_In. exists dev, m. repeat split; assumption. }
        destruct (is_primary_device dev) eqn:Hp; [|reflexivity].
        assert (Htrue : existsb isPrimary (read_topology (os w) devs) = true).
        { apply existsb_exists. eexists. split; [exact Hin|reflexivity]. }
        congruence.
    + intros [(dev & Hdev & Hatt & Hmir & Hread) Hnone]. split.
      * destruct (EnumDisplaySettingsExW (os w) (DeviceName dev)) as [m|] eqn:Hm;
          [|contradiction].
        intros Hnil.
        assert (Hin : In (mkDisplay dev m (is_primary_device dev))
                         (read_topology (os w) devs)).
        { apply read_topology_In. exists dev, m. repeat split; assumption. }
        rewrite Hnil in Hin. contradiction.
      * destruct (existsb isPrimary (read_topology (os w) devs)) eqn:Hex;
          [|reflexivity].
        apply existsb_exists in Hex. destruct Hex as (d & Hin & Hd).
        apply read_topology_In in Hin.
        destruct Hin as (dev' & m & Hdev' & Hatt' & Hmir' & Hread' & ->).
        cbn in Hd.
        rewrite (Hnone dev' Hdev' Hatt' Hmir') in Hd; [discriminate|].
        rewrite Hread'. discriminate.
  - intros Htwo. apply Hcode in Htwo. destruct Htwo as [Hne Hex].
    pose proof (discovery_failure_run _ _ _ _ _ Henum Hex) as Hfail.
    rewrite Hrun in Hfail. injection Hfail as _ ->.
    split; [reflexivity|].
    cbn [trace]. rewrite change_calls_app.
    destruct (read_topology (os w) devs); cbn; rewrite app_nil_r; exact Hcalls.
Qed.

Lemma reposition_loop_accepted (ds : list Display) :
  accepts_all ->
  forall (i t ox oy : Z) (w : World OS),
    exists w', reposition_loop ds i t ox oy w = Some (None, w').
Proof.
  intros Hacc. induction ds as [|d rest IH]; intros i t ox oy w.
  - exists w. reflexivity.
  - cbn [reposition_loop]. destruct (of_size i =? t); [apply IH|].
    unfold bind at 1, change at 1.
    pose proof (Hacc (os w) (Some (DeviceName (dd d))) (Some (rebased d ox oy))
                  other_flags) as Hres.
    destruct (ChangeDisplaySettingsExW (os w) (Some (DeviceName (dd d)))
                (Some (rebased d ox oy)) other_flags) as [res o'].
    cbn in Hres. subst res. cbn. apply IH.
Qed.

(** X13: end to end, on a service that enumerates the devices [devs] and
    accepts every write and the apply, the process exits with status 0 as
    soon as one usable device (attached, not mirroring, readable) has the
    primary-device flag. *)
Theorem X13_compliant_service_succeeds (parent : bool) (fuel : nat)
  (w : World OS) (devs : list DISPLAY_DEVICEW) (dev : DISPLAY_DEVICEW) :
  accepts_all ->
  enumerates (os w) devs ->
  (List.length devs < fuel)%nat ->
  Z.of_nat (List.length devs) <= INT_MAX ->
  In dev devs ->
  is_attached dev = true ->
  is_mirroring dev = false ->
  EnumDisplaySettingsExW (os w) (DeviceName dev) <> None ->
  is_primary_device dev = true ->
  exists w',
    wWinMain parent fuel w = Some ((AttachParentConsoleIfPresent parent, 0), w').
Proof.
  intros Hacc Hen Hfuel Hmax Hdev Hatt Hmir Hread Hprim.
  pose proof (reader_run fuel w devs Hen Hfuel) as Henum.
  pose proof (read_topology_length (os w) devs) as Hle.
  assert (Hlen : Z.of_nat (List.length (read_topology (os w) devs)) <= INT_MAX)
    by lia.
  destruct (EnumDisplaySettingsExW (os w) (DeviceName dev)) as [m|] eqn:Hm;
    [|contradiction].
  assert (Hin : In (mkDisplay dev m (is_primary_device dev))
                   (read_topology (os w) devs)).
  { apply read_topology_In. exists dev, m. repeat split; assumption. }
  assert (Hex : existsb isPrimary (read_topology (os w) devs) = true).
  { apply existsb_exists. eexists. split; [exact Hin|exact Hprim]. }
  destruct (existsb_first_primary _ Hex) as (k & Hk).
  pose proof (currentPrimary_of_first _ Hlen) as Hcp. rewrite Hk in Hcp.
  assert (Hpos : 0 <= currentPrimary_of (read_topology (os w) devs)) by lia.
  assert (Hgoal : exists w',
            switch_displays (read_topology (os w) devs)
              (mkWorld (os w) (trace w ++ read_diagnostics (os w) devs))
            = Some (0, w')).
  { unfold switch_displays.
    replace (currentPrimary_of (read_topology (os w) devs) <? 0) with false
      by (symmetry; apply Z.ltb_ge; exact Hpos).
    destruct (Z.of_nat (List.length (read_topology (os w) devs)) =? 1);
      [eexists; reflexivity|].
    destruct (selects_exists _ Hlen Hpos) as (target & Hnth & Ht).
    unfold bind at 1, vec_at.
    replace (targetIndex_of (read_topology (os w) devs) <? 0) with false
      by (symmetry; apply Z.ltb_ge; exact Ht).
    rewrite Hnth.
    unfold bind at 1, change at 1. cbn [os trace].
    match goal with
    | |- context [ChangeDisplaySettingsExW ?o ?a ?b ?c] =>
      pose proof (Hacc o a b c) as Hres;
      destruct (ChangeDisplaySettingsExW o a b c) as [res o1]
    end.
    cbn in Hres. subst res. cbn [Z.eqb DISP_CHANGE_SUCCESSFUL negb].
    unfold bind at 1.
    match goal with
    | |- context [reposition_loop ?ds ?i ?t ?ox ?oy ?w0] =>
      destruct (reposition_loop_accepted ds Hacc i t ox oy w0) as (w2 & Hloop);
      rewrite Hloop
    end.
    unfold bind at 1, change at 1.
    pose proof (Hacc (os w2) None None 0) as Hres.
    destruct (ChangeDisplaySettingsExW (os w2) None None 0) as [res o3].
    cbn in Hres. subst res. cbn. eexists. reflexivity. }
  destruct Hgoal as (w' & Hrun).
  exists w'. apply wWinMain_status.
  rewrite (SwitchPrimaryToNext_step _ _ _ _ _ Henum).
  destruct (read_topology (os w) devs); [discriminate Hex|exact Hrun].
Qed.

(** *** What a run never does *)

Lemma staged_ok_no_primary (target : Display) (ds : list Display) :
  filter sets_primary (staged_ok target ds) = [].
Proof. induction ds as [|d rest IH]; [reflexivity|exact IH]. Qed.

(** X14: a run only ever writes monitors of its snapshot: every write
    addresses a device that the service reported, that is attached to the
    desktop and is not a mirroring driver, and stages settings derived from
    the ones read for that device.  Detached devices and mirroring drivers
    are never repositioned. *)
Theorem X14_only_usable_devices_are_written (fuel : nat) (w w1 w' : World OS)
  (found : bool) (displays : list Display) (code : Z)
  (name : string) (m : DEVMODEW) (flags res : Z) :
  EnumerateDisplays fuel w = Some ((found, displays), w1) ->
  Z.of_nat (List.length displays) <= INT_MAX ->
  SwitchPrimaryToNext fuel w = Some (code, w') ->
  In (EvChange (Some name) (Some m) flags res) (events_since w1 w') ->
  exists target d,
    In d displays /\
    name = DeviceName (dd d) /\
    (exists i, 0 <= i < modulus /\ EnumDisplayDevicesW (os w) i = Some (dd d)) /\
    is_attached (dd d) = true /\
    is_mirroring (dd d) = false /\
    EnumDisplaySettingsExW (os w) name = Some (dm d) /\
    m = rebased d (offsetX target) (offsetY target).
Proof.
  intros Henum Hlen Hret Hin.
  destruct (SwitchPrimaryToNext_run fuel w w1 found displays Henum Hlen)
    as (code' & w2 & evs & Hrun & Htr & Hshape).
  rewrite Hret in Hrun. injection Hrun as <- <-.
  rewrite (events_since_app _ _ _ Htr) in Hin.
  destruct (Run_writes displays code evs name m flags res Hlen Hshape Hin)
    as (target & i & d & _ & Hi & Hname & Hm & _).
  assert (Hd : In d displays) by (eapply nth_error_In; exact Hi).
  pose proof (snapshot_member_facts fuel w w1 found displays Henum) as Hall.
  rewrite Forall_forall in Hall.
  destruct (Hall d Hd) as (Hrep & Hatt & Hmir & Hread & _).
  exists target, d. subst name.
  repeat split; assumption.
Qed.

(** X15: no run designates two primaries: at most one service call of a run
    carries the set-primary flag, and in a run that makes any call it is the
    first call, the write for the target. *)
Theorem X15_one_set_primary_call (fuel : nat) (w w1 w' : World OS)
  (found : bool) (displays : list Display) (code : Z) :
  EnumerateDisplays fuel w = Some ((found, displays), w1) ->
  Z.of_nat (List.length displays) <= INT_MAX ->
  SwitchPrimaryToNext fuel w = Some (code, w') ->
  (change_calls (events_since w1 w') = [] /\
   filter sets_primary (events_since w1 w') = []) \/
  (exists target r rest,
     selects displays target /\
     change_calls (events_since w1 w') = write_target target r :: rest /\
     filter sets_primary (events_since w1 w') = [write_target target r]).
Proof.
  intros Henum Hlen Hret.
  destruct (SwitchPrimaryToNext_run fuel w w1 found displays Henum Hlen)
    as (code' & w2 & evs & Hrun & Htr & Hshape).
  rewrite Hret in Hrun. injection Hrun as <- <-.
  rewrite (events_since_app _ _ _ Htr). clear Htr Hret.
  run_cases Hshape; subst code evs.
  - left. split; reflexivity.
  - left. split; reflexivity.
  - left. split; reflexivity.
  - right. exists target, res'. eexists.
    split; [exact Hsel|]. split; reflexivity.
  - right. exists target, DISP_CHANGE_SUCCESSFUL. eexists.
    split; [exact Hsel|]. split; [apply shaped_change_calls|].
    cbn [filter sets_primary write_target]. cbn.
    rewrite filter_app, staged_ok_no_primary. reflexivity.
  - right. exists target, DISP_CHANGE_SUCCESSFUL. eexists.
    split; [exact Hsel|]. split; [apply shaped_change_calls|].
    cbn [filter sets_primary write_target]. cbn.
    rewrite filter_app, staged_ok_no_primary. reflexivity.
  - right. exists target, DISP_CHANGE_SUCCESSFUL. eexists.
    split; [exact Hsel|]. split; [apply shaped_change_calls|].
    cbn [filter sets_primary write_target]. cbn.
    rewrite filter_app, staged_ok_no_primary. reflexivity.
Qed.

End Extras.

(** * The further properties on concrete topologies *)

Lemma Compliant_enumerates (w : World Mock.OS) :
  Z.of_nat (List.length (Mock.devices (os w))) < Int32.modulus ->
  enumerates (os (Compliant.boot w)) (Mock.enumerated w).
Proof.
  intros Hlen. destruct (Mock_enumerates w Hlen) as (Hdev & Hend & Hbound).
  split; [|split]; assumption.
Qed.

(** Three monitors with "A" primary: the target index 1 is in bounds and is
    not the index 0 of the current primary. *)
Lemma X1_witness :
  existsb isPrimary (Mock.snapshot 4 Mock.three_ok) = true /\
  0 <= targetIndex_of (Mock.snapshot 4 Mock.three_ok)
    < Z.of_nat (List.length (Mock.snapshot 4 Mock.three_ok)) /\
  targetIndex_of (Mock.snapshot 4 Mock.three_ok)
    <> currentPrimary_of (Mock.snapshot 4 Mock.three_ok) /\
  exists target, selects (Mock.snapshot 4 Mock.three_ok) target.
Proof.
  assert (Hn : (2 <= List.length (Mock.snapshot 4 Mock.three_ok))%nat)
    by (apply Nat.leb_le; reflexivity).
  assert (Hlen : Z.of_nat (List.length (Mock.snapshot 4 Mock.three_ok))
                 <= Int32.INT_MAX)
    by (apply Z.leb_le; reflexivity).
  assert (Hex : existsb isPrimary (Mock.snapshot 4 Mock.three_ok) = true)
    by (vm_compute; reflexivity).
  split; [exact Hex|].
  exact (X1_target_is_another_monitor (Mock.snapshot 4 Mock.three_ok) Hn Hlen Hex).
Defined.

(** The service refuses the apply after accepting "B", "A" and "C". *)
Lemma X3_witness :
  SwitchPrimaryToNext 4 Mock.three_apply_fails =
    Some (5, Mock.final 4 Mock.three_apply_fails) /\
  written_names (events_since (Mock.after_snapshot 4 Mock.three_apply_fails)
                              (Mock.final 4 Mock.three_apply_fails))
  = ["B"%string; "A"%string; "C"%string] /\
  exists target,
    selects (Mock.snapshot 4 Mock.three_apply_fails) target /\
    events_since (Mock.after_snapshot 4 Mock.three_apply_fails)
                 (Mock.final 4 Mock.three_apply_fails) =
      write_target target DISP_CHANGE_SUCCESSFUL
      :: staged_ok target
           (remove_nth (Z.to_nat (targetIndex_of (Mock.snapshot 4 Mock.three_apply_fails)))
                       (Mock.snapshot 4 Mock.three_apply_fails))
      ++ [apply_call Mock.DISP_CHANGE_FAILED; ErrApplyFailed Mock.DISP_CHANGE_FAILED].
Proof.
  assert (He : EnumerateDisplays 4 Mock.three_apply_fails =
               Some ((true, Mock.snapshot 4 Mock.three_apply_fails),
                     Mock.after_snapshot 4 Mock.three_apply_fails))
    by (vm_compute; reflexivity).
  assert (Hlen : Z.of_nat (List.length (Mock.snapshot 4 Mock.three_apply_fails))
                 <= Int32.INT_MAX)
    by (apply Z.leb_le; reflexivity).
  assert (Hret : SwitchPrimaryToNext 4 Mock.three_apply_fails =
                 Some (5, Mock.final 4 Mock.three_apply_fails))
    by (vm_compute; reflexivity).
  assert (Hin : In (EvChange None None 0 Mock.DISP_CHANGE_FAILED)
                   (events_since (Mock.after_snapshot 4 Mock.three_apply_fails)
                                 (Mock.final 4 Mock.three_apply_fails))).
  { vm_compute. do 3 right. left. reflexivity. }
  assert (Hres : Mock.DISP_CHANGE_FAILED <> DISP_CHANGE_SUCCESSFUL)
    by discriminate.
  destruct (X3_apply_refused 4 _ _ _ true _ _ _ _ _ He Hlen Hret Hin Hres)
    as (_ & _ & _ & Hshape).
  split; [exact Hret|]. split; [vm_compute; reflexivity|exact Hshape].
Defined.

(** The example of the specification: three writes, one per monitor, and
    one apply. *)
Lemma X4_witness :
  SwitchPrimaryToNext 4 Mock.three_ok = Some (0, Mock.final 4 Mock.three_ok) /\
  written_names (events_since (Mock.after_snapshot 4 Mock.three_ok)
                              (Mock.final 4 Mock.three_ok))
  = ["B"%string; "A"%string; "C"%string] /\
  Permutation (written_names (events_since (Mock.after_snapshot 4 Mock.three_ok)
                                           (Mock.final 4 Mock.three_ok)))
              (map (fun d => DeviceName (dd d)) (Mock.snapshot 4 Mock.three_ok)) /\
  List.length (change_calls (events_since (Mock.after_snapshot 4 Mock.three_ok)
                                          (Mock.final 4 Mock.three_ok))) = 4%nat.
Proof.
  assert (He : EnumerateDisplays 4 Mock.three_ok =
               Some ((true, Mock.snapshot 4 Mock.three_ok),
                     Mock.after_snapshot 4 Mock.three_ok))
    by (vm_compute; reflexivity).
  assert (Hlen : Z.of_nat (List.length (Mock.snapshot 4 Mock.three_ok))
                 <= Int32.INT_MAX)
    by (apply Z.leb_le; reflexivity).
  assert (Hn : List.length (Mock.snapshot 4 Mock.three_ok) <> 1%nat)
    by (vm_compute; discriminate).
  assert (Hret : SwitchPrimaryToNext 4 Mock.three_ok =
                 Some (0, Mock.final 4 Mock.three_ok))
    by (vm_compute; reflexivity).
  destruct (X4_success_writes_every_monitor_once 4 _ _ _ true _ He Hlen Hn Hret)
    as (Hperm & Hcount & _).
  split; [exact Hret|]. split; [vm_compute; reflexivity|].
  split; [exact Hperm|exact Hcount].
Defined.

(** The write for "C" is refused: three calls for three monitors, no apply. *)
Lemma X5_witness :
  SwitchPrimaryToNext 4 Mock.three_reject_C =
    Some (4, Mock.final 4 Mock.three_reject_C) /\
  (List.length (change_calls (events_since (Mock.after_snapshot 4 Mock.three_reject_C)
                                           (Mock.final 4 Mock.three_reject_C)))
   <= 4)%nat /\
  (List.length (filter is_apply (events_since (Mock.after_snapshot 4 Mock.three_reject_C)
                                              (Mock.final 4 Mock.three_reject_C)))
   <= 1)%nat.
Proof.
  assert (He : EnumerateDisplays 4 Mock.three_reject_C =
               Some ((true, Mock.snapshot 4 Mock.three_reject_C),
                     Mock.after_snapshot 4 Mock.three_reject_C))
    by (vm_compute; reflexivity).
  assert (Hlen : Z.of_nat (List.length (Mock.snapshot 4 Mock.three_reject_C))
                 <= Int32.INT_MAX)
    by (apply Z.leb_le; reflexivity).
  assert (Hret : SwitchPrimaryToNext 4 Mock.three_reject_C =
                 Some (4, Mock.final 4 Mock.three_reject_C))
    by (vm_compute; reflexivity).
  destruct (X5_service_call_budget 4 _ _ _ true _ _ He Hlen Hret)
    as (Hcalls & Happly & _).
  split; [exact Hret|]. split; [exact Hcalls|exact Happly].
Defined.

(** The write for the target "B" is refused: one call, then one line on the
    standard error. *)
Lemma X6_witness :
  SwitchPrimaryToNext 4 Mock.three_reject_B =
    Some (3, Mock.final 4 Mock.three_reject_B) /\
  exists calls line,
    events_since (Mock.after_snapshot 4 Mock.three_reject_B)
                 (Mock.final 4 Mock.three_reject_B) = calls ++ [line] /\
    Forall (fun e => is_change e = true) calls /\
    is_stdout line = false /\
    is_stderr line = true.
Proof.
  assert (He : EnumerateDisplays 4 Mock.three_reject_B =
               Some ((true, Mock.snapshot 4 Mock.three_reject_B),
                     Mock.after_snapshot 4 Mock.three_reject_B))
    by (vm_compute; reflexivity).
  assert (Hlen : Z.of_nat (List.length (Mock.snapshot 4 Mock.three_reject_B))
                 <= Int32.INT_MAX)
    by (apply Z.leb_le; reflexivity).
  assert (Hret : SwitchPrimaryToNext 4 Mock.three_reject_B =
                 Some (3, Mock.final 4 Mock.three_reject_B))
    by (vm_compute; reflexivity).
  split; [exact Hret|].
  exact (X6_one_closing_console_line 4 _ _ _ true _ _ He Hlen Hret).
Defined.

(** The mixed enumeration: "E", the second monitor of the snapshot, is
    attached, not mirroring, and carries the settings read for it. *)
Lemma X7_witness :
  DeviceName (dd (Mock.monitor 6 Mock.mixed 1)) = "E"%string /\
  is_attached (dd (Mock.monitor 6 Mock.mixed 1)) = true /\
  is_mirroring (dd (Mock.monitor 6 Mock.mixed 1)) = false /\
  EnumDisplaySettingsExW (os Mock.mixed)
    (DeviceName (dd (Mock.monitor 6 Mock.mixed 1)))
  = Some (dm (Mock.monitor 6 Mock.mixed 1)).
Proof.
  assert (He : EnumerateDisplays 6 Mock.mixed =
               Some ((true, Mock.snapshot 6 Mock.mixed),
                     Mock.after_snapshot 6 Mock.mixed))
    by (vm_compute; reflexivity).
  assert (Hin : In (Mock.monitor 6 Mock.mixed 1) (Mock.snapshot 6 Mock.mixed)).
  { vm_compute. right. left. reflexivity. }
  destruct (X7_snapshot_members 6 _ _ true _ _ He Hin)
    as (_ & Hatt & Hmir & Hread & _).
  split; [vm_compute; reflexivity|].
  split; [exact Hatt|]. split; [exact Hmir|exact Hread].
Defined.

(** A service with a device at every index: no result after a thousand
    iterations, nor after any other number. *)
Lemma X8_witness :
  never_ends (os Endless.boot) /\
  EnumerateDisplays 1000 Endless.boot = None /\
  SwitchPrimaryToNext 1000 Endless.boot = None /\
  wWinMain true 1000 Endless.boot = None.
Proof.
  assert (Hnever : never_ends (os Endless.boot)).
  { intros i _. discriminate. }
  split; [exact Hnever|].
  exact (X8_reader_needs_an_end true 1000 Endless.boot Hnever).
Defined.

(** The example of the specification has the position bit in every mask. *)
Lemma X9_witness :
  (forall d, In d (Mock.snapshot 4 Mock.three_ok) -> position_masked d) /\
  writes_change_position_only
    (Mock.snapshot 4 Mock.three_ok)
    (events_since (Mock.after_snapshot 4 Mock.three_ok) (Mock.final 4 Mock.three_ok)).
Proof.
  assert (He : EnumerateDisplays 4 Mock.three_ok =
               Some ((true, Mock.snapshot 4 Mock.three_ok),
                     Mock.after_snapshot 4 Mock.three_ok))
    by (vm_compute; reflexivity).
  assert (Hlen : Z.of_nat (List.length (Mock.snapshot 4 Mock.three_ok))
                 <= Int32.INT_MAX)
    by (apply Z.leb_le; reflexivity).
  assert (Hret : SwitchPrimaryToNext 4 Mock.three_ok =
                 Some (0, Mock.final 4 Mock.three_ok))
    by (vm_compute; reflexivity).
  assert (Hmask : forall d, In d (Mock.snapshot 4 Mock.three_ok) ->
                            position_masked d).
  { intros d Hd. vm_compute in Hd.
    destruct Hd as [<-|[<-|[<-|[]]]]; reflexivity. }
  split; [exact Hmask|].
  exact (X9_masked_settings_change_position_only 4 _ _ _ true _ _ He Hlen Hret Hmask).
Defined.

(** The write for "A" in the example of the specification: settings, the
    update-registry flag and the no-reset flag. *)
Lemma X10_witness :
  Some (rebased (Mock.monitor 4 Mock.three_ok 0)
          (offsetX (Mock.monitor 4 Mock.three_ok 1))
          (offsetY (Mock.monitor 4 Mock.three_ok 1))) <> None /\
  Z.land other_flags CDS_NORESET = CDS_NORESET /\
  Z.land other_flags CDS_UPDATEREGISTRY = CDS_UPDATEREGISTRY.
Proof.
  assert (He : EnumerateDisplays 4 Mock.three_ok =
               Some ((true, Mock.snapshot 4 Mock.three_ok),
                     Mock.after_snapshot 4 Mock.three_ok))
    by (vm_compute; reflexivity).
  assert (Hlen : Z.of_nat (List.length (Mock.snapshot 4 Mock.three_ok))
                 <= Int32.INT_MAX)
    by (apply Z.leb_le; reflexivity).
  assert (Hret : SwitchPrimaryToNext 4 Mock.three_ok =
                 Some (0, Mock.final 4 Mock.three_ok))
    by (vm_compute; reflexivity).
  assert (Hin :
    In (EvChange (Some "A"%string)
          (Some (rebased (Mock.monitor 4 Mock.three_ok 0)
                   (offsetX (Mock.monitor 4 Mock.three_ok 1))
                   (offsetY (Mock.monitor 4 Mock.three_ok 1))))
          other_flags DISP_CHANGE_SUCCESSFUL)
       (events_since (Mock.after_snapshot 4 Mock.three_ok)
                     (Mock.final 4 Mock.three_ok))).
  { vm_compute. right. left. reflexivity. }
  exact (X10_writes_are_deferred 4 _ _ _ true _ _ _ _ _ _ He Hlen Hret Hin).
Defined.

(** One device, not attached to the desktop: status 1, nothing written. *)
Lemma X11_witness :
  enumerates (os Mock.nothing_attached) (Mock.enumerated Mock.nothing_attached) /\
  wWinMain false 2 Mock.nothing_attached =
    Some (([], 1), Mock.final 2 Mock.nothing_attached) /\
  exists code w',
    wWinMain false 2 Mock.nothing_attached =
      Some ((AttachParentConsoleIfPresent false, code), w') /\
    (code = 1 -> os w' = os Mock.nothing_attached /\
                 change_calls (trace w') = change_calls (trace Mock.nothing_attached)).
Proof.
  assert (Hen : enumerates (os Mock.nothing_attached)
                           (Mock.enumerated Mock.nothing_attached)).
  { apply Mock_enumerates. reflexivity. }
  assert (Hfuel : (List.length (Mock.enumerated Mock.nothing_attached) < 2)%nat)
    by (apply Nat.ltb_lt; reflexivity).
  assert (Hmax : Z.of_nat (List.length (Mock.enumerated Mock.nothing_attached))
                 <= Int32.INT_MAX)
    by (apply Z.leb_le; reflexivity).
  destruct (X11_status_1_iff_no_usable_device false 2 _ _ Hen Hfuel Hmax)
    as (code & w' & Hrun & _ & Hquiet).
  split; [exact Hen|]. split; [vm_compute; reflexivity|].
  exists code, w'. split; [exact Hrun|exact Hquiet].
Defined.

(** One attached device without the primary flag: status 2, nothing
    written. *)
Lemma X12_witness :
  enumerates (os Mock.lone_secondary) (Mock.enumerated Mock.lone_secondary) /\
  wWinMain true 2 Mock.lone_secondary =
    Some (([Stdout; Stderr], 2), Mock.final 2 Mock.lone_secondary) /\
  exists code w',
    wWinMain true 2 Mock.lone_secondary =
      Some ((AttachParentConsoleIfPresent true, code), w') /\
    (code = 2 -> os w' = os Mock.lone_secondary /\
                 change_calls (trace w') = change_calls (trace Mock.lone_secondary)).
Proof.
  assert (Hen : enumerates (os Mock.lone_secondary)
                           (Mock.enumerated Mock.lone_secondary)).
  { apply Mock_enumerates. reflexivity. }
  assert (Hfuel : (List.length (Mock.enumerated Mock.lone_secondary) < 2)%nat)
    by (apply Nat.ltb_lt; reflexivity).
  assert (Hmax : Z.of_nat (List.length (Mock.enumerated Mock.lone_secondary))
                 <= Int32.INT_MAX)
    by (apply Z.leb_le; reflexivity).
  destruct (X12_status_2_iff_no_usable_primary true 2 _ _ Hen Hfuel Hmax)
    as (code & w' & Hrun & _ & Hquiet).
  split; [exact Hen|]. split; [vm_compute; reflexivity|].
  exists code, w'. split; [exact Hrun|exact Hquiet].
Defined.

(** The example of the specification on the service that accepts every
    call. *)
Lemma X13_witness :
  accepts_all (OS := Compliant.OS) /\
  exists w',
    wWinMain true 4 (Compliant.boot Mock.three_ok) =
      Some ((AttachParentConsoleIfPresent true, 0), w').
Proof.
  assert (Hacc : accepts_all (OS := Compliant.OS)).
  { intros o device mode flags. reflexivity. }
  assert (Hen : enumerates (os (Compliant.boot Mock.three_ok))
                           (Mock.enumerated Mock.three_ok)).
  { apply Compliant_enumerates. reflexivity. }
  assert (Hfuel : (List.length (Mock.enumerated Mock.three_ok) < 4)%nat)
    by (apply Nat.ltb_lt; reflexivity).
  assert (Hmax : Z.of_nat (List.length (Mock.enumerated Mock.three_ok))
                 <= Int32.INT_MAX)
    by (apply Z.leb_le; reflexivity).
  assert (Hdev : In (fst (Mock.attached "A" true 0x20 0 0))
                    (Mock.enumerated Mock.three_ok)).
  { left. reflexivity. }
  assert (Hread : EnumDisplaySettingsExW (os (Compliant.boot Mock.three_ok))
                    (DeviceName (fst (Mock.attached "A" true 0x20 0 0))) <> None).
  { vm_compute. discriminate. }
  split; [exact Hacc|].
  exact (X13_compliant_service_succeeds true 4 _ _ _ Hacc Hen Hfuel Hmax Hdev
           eq_refl eq_refl Hread eq_refl).
Defined.

(** The mixed enumeration with "A" primary: the run writes "E" and "A"
    only; the detached "B", the mirroring "C" and the unreadable "D" are
    never addressed. *)
Lemma X14_witness :
  written_names (events_since (Mock.after_snapshot 6 Mock.mixed)
                              (Mock.final 6 Mock.mixed))
  = ["E"%string; "A"%string] /\
  exists target d,
    In d (Mock.snapshot 6 Mock.mixed) /\
    "E"%string = DeviceName (dd d) /\
    is_attached (dd d) = true /\
    is_mirroring (dd d) = false /\
    rebased (Mock.monitor 6 Mock.mixed 1)
      (offsetX (Mock.monitor 6 Mock.mixed 1))
      (offsetY (Mock.monitor 6 Mock.mixed 1))
    = rebased d (offsetX target) (offsetY target).
Proof.
  assert (He : EnumerateDisplays 6 Mock.mixed =
               Some ((true, Mock.snapshot 6 Mock.mixed),
                     Mock.after_snapshot 6 Mock.mixed))
    by (vm_compute; reflexivity).
  assert (Hlen : Z.of_nat (List.length (Mock.snapshot 6 Mock.mixed))
                 <= Int32.INT_MAX)
    by (apply Z.leb_le; reflexivity).
  assert (Hret : SwitchPrimaryToNext 6 Mock.mixed =
                 Some (0, Mock.final 6 Mock.mixed))
    by (vm_compute; reflexivity).
  assert (Hin :
    In (EvChange (Some "E"%string)
          (Some (rebased (Mock.monitor 6 Mock.mixed 1)
                   (offsetX (Mock.monitor 6 Mock.mixed 1))
                   (offsetY (Mock.monitor 6 Mock.mixed 1))))
          target_flags DISP_CHANGE_SUCCESSFUL)
       (events_since (Mock.after_snapshot 6 Mock.mixed) (Mock.final 6 Mock.mixed))).
  { vm_compute. left. reflexivity. }
  destruct (X14_only_usable_devices_are_written 6 _ _ _ true _ _ _ _ _ _
              He Hlen Hret Hin)
    as (target & d & Hd & Hname & _ & Hatt & Hmir & _ & Hm).
  split; [vm_compute; reflexivity|].
  exists target, d. repeat split; assumption.
Defined.

(** The example of the specification: of its four calls only the write for
    "B" carries the set-primary flag. *)
Lemma X15_witness :
  List.length (filter sets_primary
                 (events_since (Mock.after_snapshot 4 Mock.three_ok)
                               (Mock.final 4 Mock.three_ok))) = 1%nat /\
  ((change_calls (events_since (Mock.after_snapshot 4 Mock.three_ok)
                               (Mock.final 4 Mock.three_ok)) = [] /\
    filter sets_primary (events_since (Mock.after_snapshot 4 Mock.three_ok)
                                      (Mock.final 4 Mock.three_ok)) = []) \/
   (exists target r rest,
      selects (Mock.snapshot 4 Mock.three_ok) target /\
      change_calls (events_since (Mock.after_snapshot 4 Mock.three_ok)
                                 (Mock.final 4 Mock.three_ok))
      = write_target target r :: rest /\
      filter sets_primary (events_since (Mock.after_snapshot 4 Mock.three_ok)
                                        (Mock.final 4 Mock.three_ok))
      = [write_target target r])).
Proof.
  assert (He : EnumerateDisplays 4 Mock.three_ok =
               Some ((true, Mock.snapshot 4 Mock.three_ok),
                     Mock.after_snapshot 4 Mock.three_ok))
    by (vm_compute; reflexivity).
  assert (Hlen : Z.of_nat (List.length (Mock.snapshot 4 Mock.three_ok))
                 <= Int32.INT_MAX)
    by (apply Z.leb_le; reflexivity).
  assert (Hret : SwitchPrimaryToNext 4 Mock.three_ok =
                 Some (0, Mock.final 4 Mock.three_ok))
    by (vm_compute; reflexivity).
  split; [vm_compute; reflexivity|].
  exact (X15_one_set_primary_call 4 _ _ _ true _ _ He Hlen Hret).
Defined.
